(** * Text Decoder backend: the request pipeline of [app.py]

    A shallow embedding of the Flask application in [src/app.py]: the Python
    values the handlers touch, the effects they perform (clock readings, the
    rate limiter, the model call, logging) as a state-and-exception monad, the
    prompt templates with Python's [str.format], and every view function with
    its decorators.

    Third-party libraries (bleach, hashlib, json, flask-limiter, the
    generative model, Flask's request parsing) are not part of the repository:
    they appear as the fields of [Env], and the theorems hold for every
    environment unless they say otherwise. *)

From Stdlib Require Import String Ascii List ZArith NArith Bool Lia DecimalString.
Import ListNotations.
Open Scope string_scope.
Open Scope list_scope.

(* ================================================================== *)
(** ** Python text *)

(** A Python [str] is a sequence of Unicode code points; [len] and slicing
    count code points. *)
Definition pystr := list N.

(** Literals of the source are ASCII; [u] reads one as code points. *)
Definition u (s : string) : pystr := map N_of_ascii (list_ascii_of_string s).
Coercion u : string >-> pystr.

Fixpoint pystr_eqb (a b : pystr) : bool :=
  match a, b with
  | [], [] => true
  | x :: a', y :: b' => N.eqb x y && pystr_eqb a' b'
  | _, _ => false
  end.

(** [s.startswith(p)] *)
Fixpoint startswith (p s : pystr) : bool :=
  match p, s with
  | [], _ => true
  | x :: p', y :: s' => N.eqb x y && startswith p' s'
  | _ :: _, [] => false
  end.

(** [p in s] for two strings: substring test. *)
Fixpoint str_contains (p s : pystr) : bool :=
  startswith p s ||
  match s with
  | [] => false
  | _ :: s' => str_contains p s'
  end.

(** [s[:n]] on a sequence. *)
Definition slice_to {A} (n : N) (s : list A) : list A := firstn (N.to_nat n) s.
Arguments slice_to : simpl never.

(** [s.encode()] succeeds: UTF-8 has no encoding of a surrogate code point. *)
Definition encodable (s : pystr) : bool :=
  negb (existsb (fun c => (55296 <=? c)%N && (c <=? 57343)%N) s).

(** An f-string: its pieces, in order. *)
Definition fstr (pieces : list pystr) : pystr := concat pieces.

(** [str(n)] for a non-negative integer. *)
Definition str_of_nat (n : nat) : pystr :=
  u (NilEmpty.string_of_uint (Nat.to_uint n)).

(* ================================================================== *)
(** ** Python values *)

(** A Python [float] read from a decimal literal [m * 10^e] (the double
    nearest to it), or one of the special values. *)
Inductive pyfloat :=
| FDec (neg : bool) (m : N) (e : Z)
| FInf (neg : bool)
| FNaN.

(** The values of JSON documents and of the dict literals of the source.
    A dict keeps insertion order and has string keys. *)
#[local] Set Warnings "-register-all".
Inductive pyval :=
| PNone
| PBool (b : bool)
| PInt (z : Z)
| PFloat (f : pyfloat)
| PStr (s : pystr)
| PList (l : list pyval)
| PDict (d : list (pystr * pyval)).

Definition pydict := list (pystr * pyval).

Fixpoint dict_get (k : pystr) (d : pydict) : option pyval :=
  match d with
  | [] => None
  | (k', v) :: d' => if pystr_eqb k k' then Some v else dict_get k d'
  end.

Definition dict_has (k : pystr) (d : pydict) : bool :=
  match dict_get k d with Some _ => true | None => false end.

(** [d[k] = v]: replaces in place, or appends a new key. *)
Fixpoint dict_set (k : pystr) (v : pyval) (d : pydict) : pydict :=
  match d with
  | [] => [(k, v)]
  | (k', v') :: d' =>
      if pystr_eqb k k' then (k', v) :: d' else (k', v') :: dict_set k v d'
  end.

Definition dict_keys (d : pydict) : list pystr := map fst d.

(** A decimal literal denotes [0.0] when its mantissa is zero or when it is
    at most [2^-1075], half the least subnormal double (the tie goes to the
    even neighbour, zero). *)
Definition float_is_zero (f : pyfloat) : bool :=
  match f with
  | FDec _ m e =>
      N.eqb m 0 ||
      (if (e <? 0)%Z
       then (Z.of_N m * 2 ^ 1075 <=? 10 ^ (- e))%Z
       else false)
  | FInf _ => false
  | FNaN => false
  end.

(** [bool(v)] *)
Definition truthy (v : pyval) : bool :=
  match v with
  | PNone => false
  | PBool b => b
  | PInt z => negb (Z.eqb z 0)
  | PFloat f => negb (float_is_zero f)
  | PStr s => match s with [] => false | _ => true end
  | PList l => match l with [] => false | _ => true end
  | PDict d => match d with [] => false | _ => true end
  end.

(** [type(v).__name__] *)
Definition type_name (v : pyval) : pystr :=
  match v with
  | PNone => "NoneType"
  | PBool _ => "bool"
  | PInt _ => "int"
  | PFloat _ => "float"
  | PStr _ => "str"
  | PList _ => "list"
  | PDict _ => "dict"
  end.

(* ================================================================== *)
(** ** Exceptions *)

Inductive exn :=
| TypeError
| KeyError (k : pystr)
| AttributeError
| ValueError
| IndexError
| JSONDecodeError
| HTTPException (code : nat)     (* raised by Flask's request parsing *)
| UnicodeEncodeError             (* [str.encode] on a lone surrogate *)
| UpstreamError                  (* anything the model client raises *)
| OtherError                     (* any other exception of a library *)
| NotModelled.                   (* a [str.format] form outside the model *)

Inductive result (A : Type) :=
| Ok (a : A)
| Raise (e : exn).
Arguments Ok {A} a.
Arguments Raise {A} e.

(** [k in v] for a string [k]. *)
Definition py_in (k : pystr) (v : pyval) : result bool :=
  match v with
  | PDict d => Ok (dict_has k d)
  | PList l =>
      Ok (existsb (fun x => match x with PStr s => pystr_eqb k s | _ => false end) l)
  | PStr s => Ok (str_contains k s)
  | _ => Raise TypeError
  end.

(** [v[k]] for a string [k]. *)
Definition py_getitem (v : pyval) (k : pystr) : result pyval :=
  match v with
  | PDict d => match dict_get k d with Some x => Ok x | None => Raise (KeyError k) end
  | _ => Raise TypeError
  end.

(** [v.get(k, default)] *)
Definition py_get (v : pyval) (k : pystr) (default : pyval) : result pyval :=
  match v with
  | PDict d => Ok (match dict_get k d with Some x => x | None => default end)
  | _ => Raise AttributeError
  end.

(** [len(v)] *)
Definition py_len (v : pyval) : result nat :=
  match v with
  | PStr s => Ok (length s)
  | PList l => Ok (length l)
  | PDict d => Ok (length d)
  | _ => Raise TypeError
  end.

(** [v[:n]] *)
Definition py_slice_to (n : N) (v : pyval) : result pyval :=
  match v with
  | PStr s => Ok (PStr (slice_to n s))
  | PList l => Ok (PList (slice_to n l))
  | _ => Raise TypeError
  end.

(** The items [for x in v] visits. *)
Definition py_iter (v : pyval) : result (list pyval) :=
  match v with
  | PList l => Ok l
  | PDict d => Ok (map (fun kv => PStr (fst kv)) d)
  | PStr s => Ok (map (fun c => PStr [c]) s)
  | _ => Raise TypeError
  end.

(* ================================================================== *)
(** ** The generation configuration *)

(** A decimal constant [num / 10^digits], for the temperatures of the source
    ([0.3] is [dec 3 1]). *)
Record decimal := dec { dec_num : Z; dec_digits : nat }.

Definition dec_le (a b : decimal) : Prop :=
  (dec_num a * 10 ^ Z.of_nat (dec_digits b) <= dec_num b * 10 ^ Z.of_nat (dec_digits a))%Z.

(** [genai.types.GenerationConfig(temperature=..., response_mime_type=...,
    max_output_tokens=...)]; a keyword the call leaves out is [None]. *)
Record GenerationConfig := {
  temperature : decimal;
  response_mime_type : option pystr;
  max_output_tokens : option Z
}.

(* ================================================================== *)
(** ** The environment of one request *)

(** What [request.get_json()] does: return the parsed body ([PNone] for the
    body [null]), or raise an HTTP error (unparsable body, wrong media
    type). *)
Inductive body :=
| BodyJson (v : pyval)
| BodyError (code : nat).

Inductive http_method := GET | POST | DELETE.

Record Request := {
  authorization : option pystr;       (* the Authorization header *)
  payload : body
}.

(** The behavior library file [data/behavior_library.json]. *)
Inductive library_file :=
| FileAbsent
| FileJson (v : pyval)
| FileUnreadable.

(** The collaborators outside the repository. *)
Record Env := {
  (** [datetime.utcnow().isoformat()] at the k-th reading of the clock *)
  utc_iso : nat -> pystr;
  (** flask-limiter: is the caller over the given quota? *)
  over_quota : pystr -> bool;
  (** [model.generate_content(prompt, generation_config=cfg)] followed by
      [response.text]; [None] when either raises *)
  gemini : pystr -> pystr -> GenerationConfig -> option pystr;
  behavior_library_json : library_file;
  (** [bleach.clean(text, tags=[], strip=True)] on a [str] *)
  bleach_clean : pystr -> pystr;
  (** [json.loads]; [Raise JSONDecodeError] on a syntax error *)
  json_loads : pystr -> result pyval;
  json_dumps : pyval -> pystr;
  (** [hashlib.sha256(b).hexdigest()] of the UTF-8 encoding of a text *)
  sha256_hexdigest : pystr -> pystr;
  (** [str(v)] of a value that is not a [str], as an f-string shows it *)
  py_str : pyval -> pystr
}.

Inductive loglevel := INFO | ERROR.

(** What a request does to the outside, in order. *)
Inductive event :=
| EvRateLimit (quota : pystr)
| EvAuthCheck
| EvGetJson
| EvGenerate (model : pystr) (prompt : pystr) (cfg : GenerationConfig)
| EvLog (level : loglevel) (msg : pystr).

Record World := {
  ticks : nat;            (* clock readings taken so far *)
  trace : list event
}.

Definition world0 : World := {| ticks := 0; trace := [] |}.

(** A Flask response: the JSON body and the status code. *)
Record Response := {
  json : pyval;
  status_code : nat
}.

(* ================================================================== *)
(** ** State and exceptions *)

Definition M (A : Type) : Type := World -> result A * World.

Definition ret {A} (a : A) : M A := fun w => (Ok a, w).

Definition bind {A B} (c : M A) (k : A -> M B) : M B :=
  fun w =>
    match c w with
    | (Ok a, w') => k a w'
    | (Raise e, w') => (Raise e, w')
    end.

Definition raise {A} (e : exn) : M A := fun w => (Raise e, w).

Definition lift {A} (r : result A) : M A := fun w => (r, w).

Definition and_then {A B} (r : result A) (k : A -> result B) : result B :=
  match r with
  | Ok a => k a
  | Raise e => Raise e
  end.

(** [try: c  except Exception as e: h e] *)
Definition try_except {A} (c : M A) (h : exn -> M A) : M A :=
  fun w =>
    match c w with
    | (Ok a, w') => (Ok a, w')
    | (Raise e, w') => h e w'
    end.

Definition emit (ev : event) : M unit :=
  fun w => (Ok tt, {| ticks := ticks w; trace := trace w ++ [ev] |}).

Declare Scope py_scope.
Delimit Scope py_scope with py.
Notation "x <- c1 ;; c2" := (bind c1 (fun x => c2))
  (at level 61, c1 at next level, right associativity) : py_scope.
Notation "c1 ;; c2" := (bind c1 (fun _ => c2))
  (at level 61, right associativity) : py_scope.
Open Scope py_scope.

Definition jsonify (v : pyval) : Response := {| json := v; status_code := 200 |}.

(* ================================================================== *)
(** ** [str.format] with keyword arguments

    [template.format(k1=v1, ...)] as the four call sites of the source use
    it: no positional argument, every value a [str].  The scanner follows
    CPython's: a doubled brace is a literal brace; a single opening brace
    starts a replacement field, whose name runs to the first closing brace,
    colon or exclamation mark, and whose format spec runs to the matching
    closing brace. *)

Definition c_lbrace : N := 123.
Definition c_rbrace : N := 125.
Definition c_lbracket : N := 91.
Definition c_rbracket : N := 93.
Definition c_colon : N := 58.
Definition c_bang : N := 33.
Definition c_dot : N := 46.

Definition is_digit (c : N) : bool := (48 <=? c)%N && (c <=? 57)%N.

Inductive fmt_state :=
| FLit                                            (* literal text *)
| FOpen                                           (* after one opening brace *)
| FClose                                          (* after one closing brace *)
| FName (name : pystr) (in_index : bool)          (* in a field name (reversed) *)
| FConv (name : pystr)                            (* after the exclamation mark *)
| FConvEnd (name : pystr) (conv : N)              (* after the conversion char *)
| FSpec (name : pystr) (conv : option N) (spec : pystr) (depth : nat).

Inductive fmt_action :=
| Next (st : fmt_state)
| EmitChar (c : N) (st : fmt_state)
| Field (name : pystr) (conv : option N) (spec : pystr)
| Fail (e : exn).

Definition step_name (name : pystr) (in_index : bool) (c : N) : fmt_action :=
  if in_index then Next (FName (c :: name) (negb (N.eqb c c_rbracket)))
  else if N.eqb c c_lbrace then Fail ValueError
  else if N.eqb c c_lbracket then Next (FName (c :: name) true)
  else if N.eqb c c_rbrace then Field (rev name) None []
  else if N.eqb c c_colon then Next (FSpec (rev name) None [] 1)
  else if N.eqb c c_bang then Next (FConv (rev name))
  else Next (FName (c :: name) false).

Definition fmt_step (st : fmt_state) (c : N) : fmt_action :=
  match st with
  | FLit =>
      if N.eqb c c_lbrace then Next FOpen
      else if N.eqb c c_rbrace then Next FClose
      else EmitChar c FLit
  | FOpen =>
      if N.eqb c c_lbrace then EmitChar c_lbrace FLit
      else step_name [] false c
  | FClose =>
      if N.eqb c c_rbrace then EmitChar c_rbrace FLit
      else Fail ValueError
  | FName name in_index => step_name name in_index c
  | FConv name => Next (FConvEnd name c)
  | FConvEnd name conv =>
      if N.eqb c c_rbrace then Field name (Some conv) []
      else if N.eqb c c_colon then Next (FSpec name (Some conv) [] 1)
      else Fail ValueError
  | FSpec name conv spec depth =>
      if N.eqb c c_lbrace then Next (FSpec name conv (c :: spec) (S depth))
      else if N.eqb c c_rbrace then
        match depth with
        | 0 | 1 => Field name conv (rev spec)
        | S d => Next (FSpec name conv (c :: spec) d)
        end
      else Next (FSpec name conv (c :: spec) depth)
  end.

(** The first component of a field name: up to the first dot or bracket. *)
Fixpoint field_first (name : pystr) : pystr * pystr :=
  match name with
  | [] => ([], [])
  | c :: name' =>
      if N.eqb c c_dot || N.eqb c c_lbracket then ([], name)
      else let (a, b) := field_first name' in (c :: a, b)
  end.

(** An index that does not fit [Py_ssize_t] (64 bits) is a [ValueError]. *)
Fixpoint index_overflows (acc : Z) (digits : pystr) : bool :=
  match digits with
  | [] => false
  | c :: ds =>
      let d := (Z.of_N c - 48)%Z in
      if (acc >? (2 ^ 63 - 1 - d) / 10)%Z then true
      else index_overflows (acc * 10 + d)%Z ds
  end.

Fixpoint kw_get (k : pystr) (kw : list (pystr * pystr)) : option pystr :=
  match kw with
  | [] => None
  | (k', v) :: kw' => if pystr_eqb k k' then Some v else kw_get k kw'
  end.

(** One replacement field.  The object is looked up first: an empty or
    numeric name indexes the (empty) positional arguments, any other name
    the keyword arguments.  A field that is found and carries an attribute,
    an index, a conversion or a format spec does not occur in the source
    and is left out of the model, and so is a name outside ASCII. *)
Definition render_field (kw : list (pystr * pystr))
    (name : pystr) (conv : option N) (spec : pystr) : result pystr :=
  let (first, rest) := field_first name in
  if existsb (fun c => (128 <=? c)%N) first then Raise NotModelled
  else if forallb is_digit first then
    if index_overflows 0 first then Raise ValueError else Raise IndexError
  else
    match kw_get first kw with
    | None => Raise (KeyError first)
    | Some v =>
        match rest, conv, spec with
        | [], None, [] => Ok v
        | _, _, _ => Raise NotModelled
        end
    end.

Definition after {A} (r : result (list A)) (f : list A -> list A) : result (list A) :=
  match r with
  | Ok s => Ok (f s)
  | Raise e => Raise e
  end.

Fixpoint fmt_run (kw : list (pystr * pystr)) (st : fmt_state) (s : pystr)
  : result pystr :=
  match s with
  | [] => match st with FLit => Ok [] | _ => Raise ValueError end
  | c :: s' =>
      match fmt_step st c with
      | Next st' => fmt_run kw st' s'
      | EmitChar x st' => after (fmt_run kw st' s') (cons x)
      | Field name conv spec =>
          match render_field kw name conv spec with
          | Ok v => after (fmt_run kw FLit s') (app v)
          | Raise e => Raise e
          end
      | Fail e => Raise e
      end
  end.

Definition py_format (template : pystr) (kw : list (pystr * pystr)) : result pystr :=
  fmt_run kw FLit template.

(* ================================================================== *)
(** ** The prompt templates

    Each template is the triple-quoted string of the source, one line per
    entry; [q] puts a double quote between the pieces of a line. *)

Definition dq_char : string := String (ascii_of_nat 34) EmptyString.
Definition nl_char : string := String (ascii_of_nat 10) EmptyString.
Definition q (pieces : list string) : string := String.concat dq_char pieces.
Definition lines (ls : list string) : string := String.concat nl_char ls.

Definition SPEAKER_IDENTIFICATION_PROMPT : pystr := u (lines [
  "";
  "You are an expert conversation analyst. Analyze the following text and identify distinct speakers.";
  "";
  "Rules:";
  "1. Look for patterns indicating different speakers (names, pronouns, speech patterns, context clues)";
  q ["2. If no clear identifiers exist, label speakers as "; "Speaker 1"; ", "; "Speaker 2"; ", etc."];
  "3. Preserve the exact original text for each message";
  "4. Note confidence level for each identification";
  "";
  "Return a JSON object with this exact structure:";
  "{";
  q ["    "; "speakers_identified"; ": ["; "Speaker 1"; ", "; "Speaker 2"; "],"];
  q ["    "; "messages"; ": ["];
  "        {";
  q ["            "; "speaker"; ": "; "Speaker 1"; ","];
  q ["            "; "text"; ": "; "exact message text"; ","];
  q ["            "; "confidence"; ": 0.85,"];
  q ["            "; "reasoning"; ": "; "brief explanation of why this speaker was identified"; ""];
  "        }";
  "    ],";
  q ["    "; "analysis_notes"; ": "; "any observations about the conversation structure"; ","];
  q ["    "; "confidence_overall"; ": 0.75"];
  "}";
  "";
  "Text to analyze:";
  ""
]).

Definition CONVERSATION_ANALYSIS_PROMPT : pystr := u (lines [
  "";
  "You are a supportive, neutral, and unbiased psychological conversation analyst. Analyze this conversation providing actionable insights.";
  "";
  "Provide analysis that is:";
  "- Supportive: Help the user understand patterns without judgment";
  "- Neutral: No bias toward any speaker";
  "- Actionable: Specific suggestions for improvement";
  "";
  "Analyze for ALL of the following:";
  "1. Power dynamics between speakers";
  "2. Communication styles (passive, aggressive, assertive, passive-aggressive)";
  "3. Manipulation patterns (if any): gaslighting, DARVO, deflection, etc.";
  "4. Attachment style indicators";
  "5. Emotional regulation patterns";
  "6. Defense mechanisms employed";
  "7. Red flags and green flags";
  "8. Specific behaviors from the behavior library that match";
  "";
  "Return a JSON object:";
  "{";
  q ["    "; "summary"; ": "; "2-3 sentence overview"; ","];
  q ["    "; "power_dynamics"; ": {"];
  q ["        "; "assessment"; ": "; "description"; ","];
  q ["        "; "indicators"; ": ["; "specific examples from text"; "],"];
  q ["        "; "balance_score"; ": 0-10"];
  "    },";
  q ["    "; "speaker_analyses"; ": ["];
  "        {";
  q ["            "; "speaker"; ": "; "name"; ","];
  q ["            "; "communication_style"; ": {"];
  q ["                "; "primary"; ": "; "assertive/passive/aggressive/passive-aggressive"; ","];
  q ["                "; "examples"; ": ["; "quotes from conversation"; "],"];
  q ["                "; "effectiveness_score"; ": 0-10"];
  "            },";
  q ["            "; "emotional_patterns"; ": {"];
  q ["                "; "regulation_level"; ": "; "well-regulated/moderately-regulated/dysregulated"; ","];
  q ["                "; "triggers_observed"; ": ["; "list"; "],"];
  q ["                "; "coping_mechanisms"; ": ["; "list"; "]"];
  "            },";
  q ["            "; "attachment_indicators"; ": {"];
  q ["                "; "likely_style"; ": "; "secure/anxious/avoidant/disorganized"; ","];
  q ["                "; "evidence"; ": ["; "specific examples"; "]"];
  "            },";
  q ["            "; "behaviors_exhibited"; ": ["];
  "                {";
  q ["                    "; "behavior_id"; ": "; "id from library"; ","];
  q ["                    "; "behavior_name"; ": "; "name"; ","];
  q ["                    "; "examples"; ": ["; "quotes"; "],"];
  q ["                    "; "frequency"; ": "; "rare/occasional/frequent"; ","];
  q ["                    "; "impact"; ": "; "positive/neutral/negative"; ""];
  "                }";
  "            ],";
  q ["            "; "strengths"; ": ["; "list"; "],"];
  q ["            "; "growth_areas"; ": ["; "list"; "],"];
  q ["            "; "red_flags"; ": ["; "if any"; "],"];
  q ["            "; "green_flags"; ": ["; "positive indicators"; "]"];
  "        }";
  "    ],";
  q ["    "; "relationship_dynamics"; ": {"];
  q ["        "; "overall_health"; ": "; "healthy/concerning/unhealthy"; ","];
  q ["        "; "patterns"; ": ["; "recurring patterns"; "],"];
  q ["        "; "conflict_style"; ": "; "description"; ","];
  q ["        "; "resolution_potential"; ": "; "high/medium/low"; ""];
  "    },";
  q ["    "; "manipulation_check"; ": {"];
  q ["        "; "detected"; ": true/false,"];
  q ["        "; "types"; ": ["; "if any"; "],"];
  q ["        "; "examples"; ": ["; "specific quotes"; "],"];
  q ["        "; "severity"; ": "; "none/mild/moderate/severe"; ""];
  "    },";
  q ["    "; "actionable_insights"; ": ["];
  "        {";
  q ["            "; "for_speaker"; ": "; "name or 'both'"; ","];
  q ["            "; "insight"; ": "; "specific observation"; ","];
  q ["            "; "suggestion"; ": "; "actionable recommendation"; ","];
  q ["            "; "expected_outcome"; ": "; "what improvement might look like"; ""];
  "        }";
  "    ],";
  q ["    "; "conversation_health_score"; ": 0-100,"];
  q ["    "; "follow_up_questions"; ": ["; "questions that might help deeper understanding"; "]"];
  "}";
  "";
  "Speakers in conversation: {speakers}";
  "Behavior library categories to reference: {behavior_categories}";
  "";
  "Conversation:";
  "{conversation}";
  ""
]).

Definition RESPONSE_IMPACT_PROMPT : pystr := u (lines [
  "";
  "You are a communication dynamics expert. The user wants to understand how a potential response might impact their conversation.";
  "";
  "Context:";
  "- Previous conversation provided below";
  "- User is: {user_speaker}";
  "- User's drafted response: {draft_response}";
  "";
  "Analyze the potential impact and provide alternatives.";
  "";
  "Return JSON:";
  "{";
  q ["    "; "impact_analysis"; ": {"];
  q ["        "; "likely_reception"; ": "; "how the other person might receive this"; ","];
  q ["        "; "emotional_impact"; ": "; "predicted emotional response"; ","];
  q ["        "; "power_dynamic_shift"; ": "; "how it changes the dynamic"; ","];
  q ["        "; "escalation_risk"; ": "; "low/medium/high"; ","];
  q ["        "; "de_escalation_potential"; ": "; "low/medium/high"; ","];
  q ["        "; "predicted_outcomes"; ": ["; "possible responses/outcomes"; "]"];
  "    },";
  q ["    "; "tone_analysis"; ": {"];
  q ["        "; "detected_tone"; ": "; "assertive/defensive/aggressive/etc"; ","];
  q ["        "; "alignment_with_goals"; ": "; "does this help achieve user's likely goals?"; ","];
  q ["        "; "potential_misinterpretations"; ": ["; "ways it could be misread"; "]"];
  "    },";
  q ["    "; "alternative_responses"; ": ["];
  "        {";
  q ["            "; "response"; ": "; "alternative text"; ","];
  q ["            "; "approach"; ": "; "assertive/empathetic/boundary-setting/etc"; ","];
  q ["            "; "likely_impact"; ": "; "expected outcome"; ","];
  q ["            "; "best_for"; ": "; "situation where this works best"; ""];
  "        }";
  "    ],";
  q ["    "; "recommended_response"; ": {"];
  q ["        "; "text"; ": "; "best suggested response"; ","];
  q ["        "; "reasoning"; ": "; "why this is recommended"; ","];
  q ["        "; "expected_outcome"; ": "; "likely result"; ""];
  "    },";
  q ["    "; "communication_tips"; ": ["; "specific tips for this situation"; "]"];
  "}";
  "";
  "Previous conversation:";
  "{conversation}";
  ""
]).

Definition PROFILE_ANALYSIS_PROMPT : pystr := u (lines [
  "";
  "You are creating a comprehensive psychological profile based on multiple conversation analyses.";
  "This must be supportive, unbiased, and actionable.";
  "";
  "Historical data:";
  "{profile_data}";
  "";
  "Create a detailed profile analysis:";
  "{";
  q ["    "; "profile_summary"; ": "; "3-4 sentence overview of this person's communication patterns"; ","];
  q ["    "; "communication_profile"; ": {"];
  q ["        "; "dominant_style"; ": "; "primary communication style"; ","];
  q ["        "; "secondary_styles"; ": ["; "other styles used"; "],"];
  q ["        "; "style_consistency"; ": "; "how consistent across conversations"; ","];
  q ["        "; "adaptability"; ": "; "how well they adjust to different situations"; ""];
  "    },";
  q ["    "; "emotional_profile"; ": {"];
  q ["        "; "baseline_regulation"; ": "; "typical emotional regulation level"; ","];
  q ["        "; "common_triggers"; ": ["; "identified triggers"; "],"];
  q ["        "; "coping_strategies"; ": {"];
  q ["            "; "healthy"; ": ["; "strategies"; "],"];
  q ["            "; "unhealthy"; ": ["; "patterns to work on"; "]"];
  "        },";
  q ["        "; "emotional_intelligence_indicators"; ": "; "assessment"; ""];
  "    },";
  q ["    "; "behavioral_patterns"; ": {"];
  q ["        "; "frequent_behaviors"; ": ["];
  "            {";
  q ["                "; "behavior"; ": "; "name"; ","];
  q ["                "; "frequency"; ": "; "how often"; ","];
  q ["                "; "contexts"; ": "; "when it appears"; ","];
  q ["                "; "impact"; ": "; "effect on conversations"; ""];
  "            }";
  "        ],";
  q ["        "; "rare_behaviors"; ": ["; "behaviors that appear occasionally"; "],"];
  q ["        "; "evolving_patterns"; ": "; "how patterns have changed over time"; ""];
  "    },";
  q ["    "; "attachment_profile"; ": {"];
  q ["        "; "primary_style"; ": "; "attachment style"; ","];
  q ["        "; "triggers_for_insecurity"; ": ["; "situations that activate attachment fears"; "],"];
  q ["        "; "secure_base_behaviors"; ": ["; "when they show security"; "]"];
  "    },";
  q ["    "; "conflict_profile"; ": {"];
  q ["        "; "approach"; ": "; "how they handle conflict"; ","];
  q ["        "; "strengths_in_conflict"; ": ["; "what they do well"; "],"];
  q ["        "; "challenges_in_conflict"; ": ["; "areas for growth"; "],"];
  q ["        "; "resolution_patterns"; ": "; "how conflicts typically resolve"; ""];
  "    },";
  q ["    "; "strengths"; ": ["];
  "        {";
  q ["            "; "strength"; ": "; "name"; ","];
  q ["            "; "evidence"; ": "; "how it manifests"; ","];
  q ["            "; "impact"; ": "; "positive effect"; ""];
  "        }";
  "    ],";
  q ["    "; "growth_opportunities"; ": ["];
  "        {";
  q ["            "; "area"; ": "; "name"; ","];
  q ["            "; "current_pattern"; ": "; "what happens now"; ","];
  q ["            "; "suggested_growth"; ": "; "actionable suggestion"; ","];
  q ["            "; "resources"; ": "; "what might help"; ""];
  "        }";
  "    ],";
  q ["    "; "communication_recommendations"; ": {"];
  q ["        "; "best_approaches_with_them"; ": ["; "how to communicate effectively with this person"; "],"];
  q ["        "; "topics_to_approach_carefully"; ": ["; "sensitive areas"; "],"];
  q ["        "; "conflict_resolution_strategies"; ": ["; "specific strategies"; "],"];
  q ["        "; "relationship_potential"; ": "; "assessment of relationship viability"; ""];
  "    },";
  q ["    "; "red_flags_summary"; ": ["; "concerning patterns if any"; "],"];
  q ["    "; "green_flags_summary"; ": ["; "positive indicators"; "],"];
  q ["    "; "overall_assessment"; ": "; "balanced final assessment"; ""];
  "}";
  ""
]).

Definition SELF_PROFILE_PROMPT : pystr := u (lines [
  "";
  "You are creating an unbiased self-analysis profile for the user based on their conversations.";
  "Be honest, supportive, and constructive. Do not flatter - provide genuine insights.";
  "";
  "User's conversation history:";
  "{user_data}";
  "";
  "Create an unbiased self-profile:";
  "{";
  q ["    "; "honest_summary"; ": "; "Balanced 3-4 sentence overview - include both strengths and areas for growth"; ","];
  q ["    "; "self_awareness_indicators"; ": {"];
  q ["        "; "level"; ": "; "high/moderate/low"; ","];
  q ["        "; "evidence"; ": "; "how self-aware they appear in conversations"; ","];
  q ["        "; "blind_spots"; ": ["; "potential areas they may not see clearly"; "]"];
  "    },";
  q ["    "; "communication_self_profile"; ": {"];
  q ["        "; "how_you_come_across"; ": "; "honest assessment of how others likely perceive them"; ","];
  q ["        "; "intended_vs_actual"; ": "; "gap between intention and impact"; ","];
  q ["        "; "strengths"; ": ["; "genuine communication strengths"; "],"];
  q ["        "; "improvement_areas"; ": ["; "honest areas for growth"; "]"];
  "    },";
  q ["    "; "emotional_patterns"; ": {"];
  q ["        "; "regulation_assessment"; ": "; "honest evaluation"; ","];
  q ["        "; "triggers_identified"; ": ["; "what sets them off"; "],"];
  q ["        "; "response_patterns"; ": "; "how they typically respond to stress"; ","];
  q ["        "; "emotional_intelligence"; ": "; "candid assessment"; ""];
  "    },";
  q ["    "; "behavioral_tendencies"; ": {"];
  q ["        "; "positive_patterns"; ": ["];
  "            {";
  q ["                "; "behavior"; ": "; "name"; ","];
  q ["                "; "impact"; ": "; "positive effect"; ","];
  q ["                "; "continue_because"; ": "; "why this helps"; ""];
  "            }";
  "        ],";
  q ["        "; "patterns_to_examine"; ": ["];
  "            {";
  q ["                "; "behavior"; ": "; "name"; ","];
  q ["                "; "current_impact"; ": "; "effect on conversations"; ","];
  q ["                "; "alternative_approach"; ": "; "what might work better"; ","];
  q ["                "; "why_change"; ": "; "honest reason"; ""];
  "            }";
  "        ]";
  "    },";
  q ["    "; "relationship_patterns"; ": {"];
  q ["        "; "your_role_in_dynamics"; ": "; "honest look at what you contribute"; ","];
  q ["        "; "patterns_across_relationships"; ": "; "recurring themes"; ","];
  q ["        "; "what_you_attract"; ": "; "types of dynamics you tend to create/enter"; ","];
  q ["        "; "responsibility_taking"; ": "; "how well you own your part"; ""];
  "    },";
  q ["    "; "honest_strengths"; ": ["];
  "        {";
  q ["            "; "strength"; ": "; "genuine strength"; ","];
  q ["            "; "evidence"; ": "; "how it shows"; ","];
  q ["            "; "leverage_it"; ": "; "how to use it more"; ""];
  "        }";
  "    ],";
  q ["    "; "honest_growth_areas"; ": ["];
  "        {";
  q ["            "; "area"; ": "; "genuine area for growth"; ","];
  q ["            "; "current_pattern"; ": "; "what you do now"; ","];
  q ["            "; "impact"; ": "; "how it affects others"; ","];
  q ["            "; "actionable_step"; ": "; "specific thing to try"; ","];
  q ["            "; "expected_benefit"; ": "; "what might improve"; ""];
  "        }";
  "    ],";
  q ["    "; "action_plan"; ": {"];
  q ["        "; "immediate_focus"; ": "; "one thing to work on now"; ","];
  q ["        "; "short_term_goals"; ": ["; "1-2 month goals"; "],"];
  q ["        "; "long_term_development"; ": ["; "ongoing growth areas"; "],"];
  q ["        "; "resources_suggested"; ": ["; "books, practices, etc"; "]"];
  "    },";
  q ["    "; "encouragement"; ": "; "genuine supportive message acknowledging effort to self-improve"; ""];
  "}";
  ""
]).

(* ================================================================== *)
(** ** JSON text

    What [json.loads] accepts, as CPython's scanner reads it with its default
    settings: the JSON grammar, the literals [NaN], [Infinity] and
    [-Infinity], strict strings (no raw control character), a duplicate key
    keeping its last value.  The interpreter's resource limits (recursion
    depth, digits of an integer) are not part of it. *)

Module Json.

Definition is_ws (c : N) : bool :=
  N.eqb c 32 || N.eqb c 9 || N.eqb c 10 || N.eqb c 13.

Fixpoint skip_ws (s : pystr) : pystr :=
  match s with
  | c :: s' => if is_ws c then skip_ws s' else s
  | [] => []
  end.

Definition hex_val (c : N) : option N :=
  if (48 <=? c)%N && (c <=? 57)%N then Some (c - 48)%N
  else if (97 <=? c)%N && (c <=? 102)%N then Some (c - 87)%N
  else if (65 <=? c)%N && (c <=? 70)%N then Some (c - 55)%N
  else None.

Definition hex4 (a b c d : N) : option N :=
  match hex_val a, hex_val b, hex_val c, hex_val d with
  | Some x, Some y, Some z, Some t => Some (((x * 16 + y) * 16 + z) * 16 + t)%N
  | _, _, _, _ => None
  end.

Definition simple_escape (e : N) : option N :=
  if N.eqb e 34 then Some 34%N          (* quote *)
  else if N.eqb e 92 then Some 92%N     (* backslash *)
  else if N.eqb e 47 then Some 47%N     (* slash *)
  else if N.eqb e 98 then Some 8%N      (* b *)
  else if N.eqb e 102 then Some 12%N    (* f *)
  else if N.eqb e 110 then Some 10%N    (* n *)
  else if N.eqb e 114 then Some 13%N    (* r *)
  else if N.eqb e 116 then Some 9%N     (* t *)
  else None.

Definition is_high_surrogate (c : N) : bool := (55296 <=? c)%N && (c <=? 56319)%N.
Definition is_low_surrogate (c : N) : bool := (56320 <=? c)%N && (c <=? 57343)%N.

(** The text of a string after its opening quote, up to the closing one;
    [acc] holds the characters read so far, last first. *)
Fixpoint scanstring (s : pystr) (acc : pystr) : option (pystr * pystr) :=
  match s with
  | [] => None
  | c :: s1 =>
      if N.eqb c 34 then Some (rev acc, s1)
      else if N.eqb c 92 then
        match s1 with
        | [] => None
        | e :: s2 =>
            if N.eqb e 117 then
              match s2 with
              | a :: b :: c1 :: d :: r =>
                  match hex4 a b c1 d with
                  | None => None
                  | Some uni =>
                      match r with
                      | bs :: uu :: a2 :: b2 :: c2 :: d2 :: r2 =>
                          match hex4 a2 b2 c2 d2 with
                          | Some uni2 =>
                              if is_high_surrogate uni && N.eqb bs 92 && N.eqb uu 117
                                 && is_low_surrogate uni2
                              then scanstring r2
                                     ((65536 + (uni - 55296) * 1024 + (uni2 - 56320))%N :: acc)
                              else scanstring r (uni :: acc)
                          | None => scanstring r (uni :: acc)
                          end
                      | _ => scanstring r (uni :: acc)
                      end
                  end
              | _ => None
              end
            else
              match simple_escape e with
              | Some x => scanstring s2 (x :: acc)
              | None => None
              end
        end
      else if (c <? 32)%N then None
      else scanstring s1 (c :: acc)
  end.

(** The leading ASCII digits of [s] and what follows them. *)
Fixpoint digits (s : pystr) : pystr * pystr :=
  match s with
  | c :: s' => if is_digit c then let (ds, r) := digits s' in (c :: ds, r) else ([], s)
  | [] => ([], [])
  end.

Definition nat_of_digits (ds : pystr) : N :=
  fold_left (fun a c => (a * 10 + (c - 48))%N) ds 0%N.

(** A number: the integer part, then a fraction if a dot and a digit
    follow, then an exponent if it has a digit; [int] without the two,
    [float] otherwise. *)
Definition number (s : pystr) : option (pyval * pystr) :=
  let (neg, s1) := match s with
                   | c :: r => if N.eqb c 45 then (true, r) else (false, s)
                   | [] => (false, s)
                   end in
  let int_part :=
    match s1 with
    | c :: r =>
        if (49 <=? c)%N && (c <=? 57)%N then
          let (ds, r') := digits r in Some (c :: ds, r')
        else if N.eqb c 48 then Some ([c], r)
        else None
    | [] => None
    end in
  match int_part with
  | None => None
  | Some (ip, r1) =>
      let (frac, r2) :=
        match r1 with
        | dot :: d :: r =>
            if N.eqb dot 46 && is_digit d then
              let (ds, r') := digits r in (d :: ds, r')
            else ([], r1)
        | _ => ([], r1)
        end in
      let (expo, r3) :=
        match r2 with
        | e :: r =>
            if N.eqb e 101 || N.eqb e 69 then
              let (eneg, r') := match r with
                                | sg :: r'' =>
                                    if N.eqb sg 45 then (true, r'')
                                    else if N.eqb sg 43 then (false, r'')
                                    else (false, r)
                                | [] => (false, r)
                                end in
              let (ds, r'') := digits r' in
              match ds with
              | [] => (None, r2)
              | _ => (Some (if eneg then (- Z.of_N (nat_of_digits ds))%Z
                            else Z.of_N (nat_of_digits ds)), r'')
              end
            else (None, r2)
        | [] => (None, r2)
        end in
      match frac, expo with
      | [], None =>
          let n := Z.of_N (nat_of_digits ip) in
          Some (PInt (if neg then (- n)%Z else n), r3)
      | _, _ =>
          let x := match expo with Some x => x | None => 0%Z end in
          Some (PFloat (FDec neg (nat_of_digits (ip ++ frac))
                          (x - Z.of_nat (length frac))%Z), r3)
      end
  end.

(** [s] without the prefix [p], when it starts with it. *)
Fixpoint strip_prefix (p s : pystr) : option pystr :=
  match p, s with
  | [], _ => Some s
  | x :: p', y :: s' => if N.eqb x y then strip_prefix p' s' else None
  | _ :: _, [] => None
  end.

(** The items of an array after the first value's position: values
    separated by commas, up to the closing bracket. *)
Fixpoint array_items (value : pystr -> option (pyval * pystr))
    (fuel : nat) (s : pystr) (acc : list pyval) : option (list pyval * pystr) :=
  match fuel with
  | 0 => None
  | S fuel' =>
      match value s with
      | None => None
      | Some (v, r) =>
          match skip_ws r with
          | c :: r' =>
              if N.eqb c 44 then array_items value fuel' (skip_ws r') (v :: acc)
              else if N.eqb c 93 then Some (rev (v :: acc), r')
              else None
          | [] => None
          end
      end
  end.

(** The pairs of an object from a key's opening quote on. *)
Fixpoint object_items (value : pystr -> option (pyval * pystr))
    (fuel : nat) (s : pystr) (acc : pydict) : option (pydict * pystr) :=
  match fuel with
  | 0 => None
  | S fuel' =>
      match s with
      | c :: s1 =>
          if N.eqb c 34 then
            match scanstring s1 [] with
            | None => None
            | Some (key, r) =>
                match skip_ws r with
                | colon :: r1 =>
                    if N.eqb colon 58 then
                      match value (skip_ws r1) with
                      | None => None
                      | Some (v, r2) =>
                          let acc' := dict_set key v acc in
                          match skip_ws r2 with
                          | c2 :: r3 =>
                              if N.eqb c2 125 then Some (acc', r3)
                              else if N.eqb c2 44 then
                                object_items value fuel' (skip_ws r3) acc'
                              else None
                          | [] => None
                          end
                      end
                    else None
                | [] => None
                end
            end
          else None
      | [] => None
      end
  end.

(** One value at the head of [s]. *)
Fixpoint scan_once (fuel : nat) (s : pystr) : option (pyval * pystr) :=
  match fuel with
  | 0 => None
  | S fuel' =>
      match s with
      | [] => None
      | c :: s1 =>
          if N.eqb c 34 then
            match scanstring s1 [] with
            | Some (text, r) => Some (PStr text, r)
            | None => None
            end
          else if N.eqb c 123 then
            match skip_ws s1 with
            | c1 :: r =>
                if N.eqb c1 125 then Some (PDict [], r)
                else
                  match object_items (scan_once fuel') fuel' (c1 :: r) [] with
                  | Some (pairs, r') => Some (PDict pairs, r')
                  | None => None
                  end
            | [] => None
            end
          else if N.eqb c 91 then
            match skip_ws s1 with
            | c1 :: r =>
                if N.eqb c1 93 then Some (PList [], r)
                else
                  match array_items (scan_once fuel') fuel' (c1 :: r) [] with
                  | Some (items, r') => Some (PList items, r')
                  | None => None
                  end
            | [] => None
            end
          else
            match strip_prefix (u "null") s, strip_prefix (u "true") s,
                  strip_prefix (u "false") s, strip_prefix (u "NaN") s,
                  strip_prefix (u "Infinity") s, strip_prefix (u "-Infinity") s with
            | Some r, _, _, _, _, _ => Some (PNone, r)
            | _, Some r, _, _, _, _ => Some (PBool true, r)
            | _, _, Some r, _, _, _ => Some (PBool false, r)
            | _, _, _, Some r, _, _ => Some (PFloat FNaN, r)
            | _, _, _, _, Some r, _ => Some (PFloat (FInf false), r)
            | _, _, _, _, _, Some r => Some (PFloat (FInf true), r)
            | _, _, _, _, _, _ => number s
            end
      end
  end.

(** [json.loads(s)] *)
Definition loads (s : pystr) : result pyval :=
  if startswith [65279%N] s then Raise JSONDecodeError
  else
    match scan_once (S (length s)) (skip_ws s) with
    | Some (v, r) =>
        match skip_ws r with
        | [] => Ok v
        | _ => Raise JSONDecodeError
        end
    | None => Raise JSONDecodeError
    end.

(** [json.dumps(v)] with its default settings ([ensure_ascii], separators
    [", "] and [": "]).  A finite float is written as the decimal literal it
    stands for, in exponent form, where Python writes the shortest decimal
    that reads back as the same double. *)
Definition hex_digit (n : N) : N := if (n <? 10)%N then (48 + n)%N else (87 + n)%N.

Definition escape_u (c : N) : pystr :=
  [92; 117; hex_digit (c / 4096 mod 16); hex_digit (c / 256 mod 16);
   hex_digit (c / 16 mod 16); hex_digit (c mod 16)]%N.

Definition escape_char (c : N) : pystr :=
  if N.eqb c 34 then [92; 34]%N
  else if N.eqb c 92 then [92; 92]%N
  else if N.eqb c 10 then [92; 110]%N
  else if N.eqb c 13 then [92; 114]%N
  else if N.eqb c 9 then [92; 116]%N
  else if N.eqb c 8 then [92; 98]%N
  else if N.eqb c 12 then [92; 102]%N
  else if (32 <=? c)%N && (c <=? 126)%N then [c]
  else if (c <? 65536)%N then escape_u c
  else escape_u (55296 + (c - 65536) / 1024)%N ++ escape_u (56320 + (c - 65536) mod 1024)%N.

Definition dumps_str (s : pystr) : pystr :=
  [34%N] ++ concat (map escape_char s) ++ [34%N].

Definition str_of_Z (z : Z) : pystr :=
  u (NilEmpty.string_of_int (Z.to_int z)).

Definition dumps_float (f : pyfloat) : pystr :=
  match f with
  | FNaN => u "NaN"
  | FInf false => u "Infinity"
  | FInf true => u "-Infinity"
  | FDec neg m e =>
      (if neg then u "-" else []) ++ str_of_Z (Z.of_N m) ++ u "e" ++ str_of_Z e
  end.

Fixpoint join (sep : pystr) (parts : list pystr) : pystr :=
  match parts with
  | [] => []
  | [x] => x
  | x :: rest => x ++ sep ++ join sep rest
  end.

Fixpoint dumps (v : pyval) : pystr :=
  match v with
  | PNone => u "null"
  | PBool true => u "true"
  | PBool false => u "false"
  | PInt z => str_of_Z z
  | PFloat f => dumps_float f
  | PStr s => dumps_str s
  | PList l => u "[" ++ join (u ", ") (map dumps l) ++ u "]"
  | PDict d =>
      u "{" ++ join (u ", ")
                 (map (fun kv => match kv with
                                 | (k, x) => dumps_str k ++ u ": " ++ dumps x
                                 end) d)
        ++ u "}"
  end.

End Json.

(* ================================================================== *)
(** ** Utility functions *)

Section App.

Variable E : Env.
(** The method and the request being served. *)
Variable meth : http_method.
Variable rq : Request.

(** [datetime.utcnow().isoformat()]: one reading of the clock. *)
Definition utcnow_isoformat : M pystr :=
  fun w => (Ok (utc_iso E (ticks w)), {| ticks := S (ticks w); trace := trace w |}).

(** [logger.info(msg)] and [logger.error(msg)].  An error message of the
    source ends with the text of the exception, which is left out here. *)
Definition logger (level : loglevel) (msg : pystr) : M unit :=
  emit (EvLog level msg).

(** [request.get_json()] *)
Definition get_json : M pyval :=
  emit EvGetJson ;;
  match payload rq with
  | BodyJson v => ret v
  | BodyError code => raise (HTTPException code)
  end.

(** [sanitize_input(text)].  A falsy argument gives the empty string;
    [bleach.clean] refuses an argument that is not a [str]. *)
Definition sanitize_input (text : pyval) : result pystr :=
  if negb (truthy text) then Ok []
  else
    match text with
    | PStr s => Ok (slice_to 50000 (bleach_clean E s))
    | _ => Raise TypeError
    end.

(** [create_accessible_response(data, message)] *)
Definition create_accessible_response (data : pyval) (message : pystr) : M pyval :=
  now <- utcnow_isoformat ;;
  ret (PDict [
    (u "success", PBool true);
    (u "message", PStr message);
    (u "timestamp", PStr now);
    (u "data", data);
    (u "accessibility", PDict [
      (u "screen_reader_summary", PStr message);
      (u "data_type", PStr (type_name data))
    ])
  ]).

(** [create_error_response(error, details, status_code)] *)
Definition create_error_response (error details : pystr) (code : nat) : M Response :=
  now <- utcnow_isoformat ;;
  ret {| json := PDict [
           (u "success", PBool false);
           (u "error", PStr error);
           (u "details", PStr details);
           (u "timestamp", PStr now);
           (u "accessibility", PDict [
             (u "screen_reader_summary", PStr (fstr [u "Error: "; error]));
             (u "suggested_action", PStr (u "Please try again or contact support"))
           ])
         ];
         status_code := code |}.

(** The [validate_api_key] decorator around a view [f]. *)
Definition validate_api_key (f : M Response) : M Response :=
  emit EvAuthCheck ;;
  let auth_header :=
    match authorization rq with
    | Some h => PStr h
    | None => PNone
    end in
  if negb (truthy auth_header) ||
     negb (match auth_header with PStr h => startswith (u "Bearer ") h | _ => false end)
  then
    ret {| json := PDict [
             (u "error", PStr (u "Unauthorized"));
             (u "message", PStr (u "Valid authentication token required"))
           ];
           status_code := 401 |}
  else f.

(* ================================================================== *)
(** ** Error handlers *)

Definition not_found : M Response :=
  create_error_response (u "Not Found") (u "The requested endpoint does not exist") 404.

Definition rate_limit_exceeded : M Response :=
  create_error_response (u "Rate Limit Exceeded")
    (u "Too many requests. Please wait before trying again.") 429.

Definition internal_error : M Response :=
  create_error_response (u "Internal Server Error")
    (u "An unexpected error occurred. Please try again later.") 500.

(** The [limiter.limit(quota)] decorator around [f]: the quota is evaluated
    before [f] runs, and a caller over it is answered by the 429 handler. *)
Definition limiter_limit (quota : pystr) (f : M Response) : M Response :=
  emit (EvRateLimit quota) ;;
  if over_quota E quota then rate_limit_exceeded else f.

(** A route with no decorator of the limiter falls under
    [default_limits=["1000 per day", "100 per hour"]]. *)
Definition limiter_default (f : M Response) : M Response :=
  limiter_limit (u "1000 per day") (limiter_limit (u "100 per hour") f).

(* ================================================================== *)
(** ** Helper functions *)

(** [get_default_behavior_library()] *)
Definition get_default_behavior_library : M pyval :=
  now <- utcnow_isoformat ;;
  ret (PDict [
    (u "version", PStr (u "1.0.0"));
    (u "last_updated", PStr now);
    (u "categories", PList [])
  ]).

(** The sum of [f x] over [xs], stopping at the first exception. *)
Fixpoint sum_over (f : pyval -> result nat) (xs : list pyval) (count : nat) : result nat :=
  match xs with
  | [] => Ok count
  | x :: xs' => and_then (f x) (fun n => sum_over f xs' (count + n))
  end.

(** [count_behaviors(library)] *)
Definition count_behaviors (library : pyval) : result nat :=
  and_then (py_get library (u "categories") (PList [])) (fun cats =>
  and_then (py_iter cats) (fun categories =>
  sum_over (fun category =>
    and_then (py_get category (u "subcategories") (PList [])) (fun subs =>
    and_then (py_iter subs) (fun subcategories =>
    sum_over (fun subcategory =>
      and_then (py_get subcategory (u "behaviors") (PList [])) py_len)
      subcategories 0)))
    categories 0)).

(** [[cat['category'] for cat in cats]] *)
Fixpoint category_names (cats : list pyval) : result (list pyval) :=
  match cats with
  | [] => Ok []
  | cat :: cats' =>
      and_then (py_getitem cat (u "category")) (fun name =>
      and_then (category_names cats') (fun names => Ok (name :: names)))
  end.

(** [get_behavior_categories()]: the list itself when it is called outside
    a GET request, the response of the endpoint otherwise. *)
Definition get_behavior_categories : M (pyval + Response) :=
  behaviors <- get_default_behavior_library ;;
  cats <- lift (py_get behaviors (u "categories") (PList [])) ;;
  items <- lift (py_iter cats) ;;
  names <- lift (category_names items) ;;
  let categories := PList names in
  match meth with
  | GET =>
      envelope <- create_accessible_response
                    (PDict [(u "categories", categories)]) (u "Categories loaded") ;;
      ret (inr (jsonify envelope))
  | _ => ret (inl categories)
  end.

(* ================================================================== *)
(** ** API endpoints *)

(** [genai.GenerativeModel(name).generate_content(prompt,
    generation_config=cfg)] and the read of [response.text]. *)
Definition generate_content (name prompt : pystr) (cfg : GenerationConfig) : M pystr :=
  emit (EvGenerate name prompt cfg) ;;
  match gemini E name prompt cfg with
  | Some text => ret text
  | None => raise UpstreamError
  end.

(** [try: result = json.loads(text)  except json.JSONDecodeError: result = fallback] *)
Definition loads_or (text : pystr) (fallback : pyval) : M pyval :=
  match json_loads E text with
  | Ok v => ret v
  | Raise JSONDecodeError => ret fallback
  | Raise e => raise e
  end.

(** [for field in required_fields: if field not in data: ...]: the first
    field the body lacks. *)
Fixpoint first_missing (required_fields : list pystr) (data : pyval)
  : result (option pystr) :=
  match required_fields with
  | [] => Ok None
  | field :: fields =>
      and_then (py_in field data) (fun present =>
      if present then first_missing fields data else Ok (Some field))
  end.

Definition gemini_model : pystr := u "gemini-1.5-pro".
Definition application_json : pystr := u "application/json".

Definition health_check : M Response :=
  now <- utcnow_isoformat ;;
  ret (jsonify (PDict [
    (u "status", PStr (u "healthy"));
    (u "service", PStr (u "text-decoder-api"));
    (u "version", PStr (u "1.0.0-mvp"));
    (u "timestamp", PStr now)
  ])).

Definition identify_speakers_config : GenerationConfig :=
  {| temperature := dec 3 1;
     response_mime_type := Some application_json;
     max_output_tokens := None |}.

(** The result [identify_speakers] falls back to. *)
Definition identify_speakers_fallback (text : pystr) : pyval :=
  PDict [
    (u "speakers_identified", PList [PStr (u "Speaker 1"); PStr (u "Speaker 2")]);
    (u "messages", PList []);
    (u "analysis_notes", PStr text);
    (u "confidence_overall", PFloat (FDec false 5 (-1)));
    (u "raw_response", PStr text)
  ].

Definition identify_speakers : M Response :=
  try_except
    (data <- get_json ;;
     missing <- (if negb (truthy data) then ret true
                 else present <- lift (py_in (u "text") data) ;; ret (negb present)) ;;
     if missing : bool then
       create_error_response (u "Missing required field")
         (u "The 'text' field is required") 400
     else
       raw <- lift (py_getitem data (u "text")) ;;
       text <- lift (sanitize_input raw) ;;
       if negb (truthy (PStr text)) then
         create_error_response (u "Invalid input")
           (u "Text cannot be empty after sanitization") 400
       else
         let prompt := SPEAKER_IDENTIFICATION_PROMPT ++ text in
         reply <- generate_content gemini_model prompt identify_speakers_config ;;
         result <- loads_or reply (identify_speakers_fallback reply) ;;
         speakers <- lift (py_get result (u "speakers_identified") (PList [])) ;;
         n <- lift (py_len speakers) ;;
         envelope <- create_accessible_response result
                       (fstr [u "Identified "; str_of_nat n;
                              u " speakers in the conversation"]) ;;
         ret (jsonify envelope))
    (fun e =>
       logger ERROR (u "Speaker identification error: ") ;;
       create_error_response (u "Analysis failed")
         (u "Unable to process the conversation. Please try again.") 500).

Definition analyze_conversation_config : GenerationConfig :=
  {| temperature := dec 4 1;
     response_mime_type := Some application_json;
     max_output_tokens := Some 8192%Z |}.

Definition analyze_conversation_fallback (text : pystr) : pyval :=
  PDict [
    (u "summary", PStr (u "Analysis completed"));
    (u "raw_analysis", PStr text);
    (u "parse_error", PBool true)
  ].

Definition missing_field_response (field : pystr) : M Response :=
  create_error_response (u "Missing required field")
    (fstr [u "The '"; field; u "' field is required"]) 400.

(** [analyze_conversation], with the template it renders as a parameter: the source
    reads the module-level constant [CONVERSATION_ANALYSIS_PROMPT]. *)
Definition analyze_conversation_with (template : pystr) : M Response :=
  try_except
    (data <- get_json ;;
     missing <- lift (first_missing [u "conversation"; u "speakers"] data) ;;
     match missing with
     | Some field => missing_field_response field
     | None =>
         conversation_raw <- lift (py_getitem data (u "conversation")) ;;
         conversation <- lift (sanitize_input (PStr (json_dumps E conversation_raw))) ;;
         speakers <- lift (py_getitem data (u "speakers")) ;;
         behavior_categories <- get_behavior_categories ;;
         categories_json <- lift (match behavior_categories with
                                  | inl v => Ok (json_dumps E v)
                                  | inr _ => Raise TypeError
                                  end) ;;
         prompt <- lift (py_format template [
                     (u "speakers", json_dumps E speakers);
                     (u "behavior_categories", categories_json);
                     (u "conversation", conversation)]) ;;
         reply <- generate_content gemini_model prompt analyze_conversation_config ;;
         result <- loads_or reply (analyze_conversation_fallback reply) ;;
         envelope <- create_accessible_response result
                       (u "Conversation analysis complete") ;;
         ret (jsonify envelope)
     end)
    (fun e =>
       logger ERROR (u "Conversation analysis error: ") ;;
       create_error_response (u "Analysis failed")
         (u "Unable to analyze the conversation. Please try again.") 500).

Definition analyze_conversation : M Response :=
  analyze_conversation_with CONVERSATION_ANALYSIS_PROMPT.

Definition analyze_response_impact_config : GenerationConfig :=
  {| temperature := dec 5 1;
     response_mime_type := Some application_json;
     max_output_tokens := Some 4096%Z |}.

Definition analyze_response_impact_fallback (text : pystr) : pyval :=
  PDict [
    (u "impact_analysis", PDict [(u "raw", PStr text)]);
    (u "parse_error", PBool true)
  ].

(** [analyze_response_impact], with the template it renders as a parameter: the source
    reads the module-level constant [RESPONSE_IMPACT_PROMPT]. *)
Definition analyze_response_impact_with (template : pystr) : M Response :=
  try_except
    (data <- get_json ;;
     missing <- lift (first_missing
                        [u "conversation"; u "user_speaker"; u "draft_response"] data) ;;
     match missing with
     | Some field => missing_field_response field
     | None =>
         conversation_raw <- lift (py_getitem data (u "conversation")) ;;
         conversation <- lift (sanitize_input (PStr (json_dumps E conversation_raw))) ;;
         user_speaker_raw <- lift (py_getitem data (u "user_speaker")) ;;
         user_speaker <- lift (sanitize_input user_speaker_raw) ;;
         draft_response_raw <- lift (py_getitem data (u "draft_response")) ;;
         draft_response <- lift (sanitize_input draft_response_raw) ;;
         prompt <- lift (py_format template [
                     (u "user_speaker", user_speaker);
                     (u "draft_response", draft_response);
                     (u "conversation", conversation)]) ;;
         reply <- generate_content gemini_model prompt analyze_response_impact_config ;;
         result <- loads_or reply (analyze_response_impact_fallback reply) ;;
         envelope <- create_accessible_response result
                       (u "Response impact analysis complete") ;;
         ret (jsonify envelope)
     end)
    (fun e =>
       logger ERROR (u "Response impact analysis error: ") ;;
       create_error_response (u "Analysis failed")
         (u "Unable to analyze response impact. Please try again.") 500).

Definition analyze_response_impact : M Response :=
  analyze_response_impact_with RESPONSE_IMPACT_PROMPT.

Definition analyze_profile_config : GenerationConfig :=
  {| temperature := dec 4 1;
     response_mime_type := Some application_json;
     max_output_tokens := Some 8192%Z |}.

Definition analyze_profile_fallback (text : pystr) : pyval :=
  PDict [
    (u "profile_summary", PStr (u "Profile analysis completed"));
    (u "raw_analysis", PStr text);
    (u "parse_error", PBool true)
  ].

(** [analyze_profile], with the template it renders as a parameter: the source
    reads the module-level constant [PROFILE_ANALYSIS_PROMPT]. *)
Definition analyze_profile_with (template : pystr) : M Response :=
  try_except
    (data <- get_json ;;
     present <- lift (py_in (u "profile_data") data) ;;
     if negb present then
       create_error_response (u "Missing required field")
         (u "The 'profile_data' field is required") 400
     else
       profile_raw <- lift (py_getitem data (u "profile_data")) ;;
       profile_data <- lift (sanitize_input (PStr (json_dumps E profile_raw))) ;;
       prompt <- lift (py_format template [(u "profile_data", profile_data)]) ;;
       reply <- generate_content gemini_model prompt analyze_profile_config ;;
       result <- loads_or reply (analyze_profile_fallback reply) ;;
       envelope <- create_accessible_response result (u "Profile analysis complete") ;;
       ret (jsonify envelope))
    (fun e =>
       logger ERROR (u "Profile analysis error: ") ;;
       create_error_response (u "Analysis failed")
         (u "Unable to generate profile analysis. Please try again.") 500).

Definition analyze_profile : M Response :=
  analyze_profile_with PROFILE_ANALYSIS_PROMPT.

Definition analyze_self_profile_config : GenerationConfig :=
  {| temperature := dec 4 1;
     response_mime_type := Some application_json;
     max_output_tokens := Some 8192%Z |}.

Definition analyze_self_profile_fallback (text : pystr) : pyval :=
  PDict [
    (u "honest_summary", PStr (u "Self-analysis completed"));
    (u "raw_analysis", PStr text);
    (u "parse_error", PBool true)
  ].

(** [analyze_self_profile], with the template it renders as a parameter: the source
    reads the module-level constant [SELF_PROFILE_PROMPT]. *)
Definition analyze_self_profile_with (template : pystr) : M Response :=
  try_except
    (data <- get_json ;;
     present <- lift (py_in (u "user_data") data) ;;
     if negb present then
       create_error_response (u "Missing required field")
         (u "The 'user_data' field is required") 400
     else
       user_raw <- lift (py_getitem data (u "user_data")) ;;
       user_data <- lift (sanitize_input (PStr (json_dumps E user_raw))) ;;
       prompt <- lift (py_format template [(u "user_data", user_data)]) ;;
       reply <- generate_content gemini_model prompt analyze_self_profile_config ;;
       result <- loads_or reply (analyze_self_profile_fallback reply) ;;
       envelope <- create_accessible_response result (u "Self-profile analysis complete") ;;
       ret (jsonify envelope))
    (fun e =>
       logger ERROR (u "Self-profile analysis error: ") ;;
       create_error_response (u "Analysis failed")
         (u "Unable to generate self-profile analysis. Please try again.") 500).

Definition analyze_self_profile : M Response :=
  analyze_self_profile_with SELF_PROFILE_PROMPT.

Definition get_behaviors : M Response :=
  try_except
    (behaviors <- match behavior_library_json E with
                  | FileJson v => ret v
                  | FileUnreadable => raise OtherError
                  | FileAbsent => get_default_behavior_library
                  end ;;
     count <- lift (count_behaviors behaviors) ;;
     envelope <- create_accessible_response behaviors
                   (fstr [u "Loaded "; str_of_nat count; u " behaviors and traits"]) ;;
     ret (jsonify envelope))
    (fun e =>
       logger ERROR (u "Behavior library error: ") ;;
       create_error_response (u "Failed to load behaviors")
         (u "Unable to retrieve the behavior library.") 500).

(** The value of [f"{v}"]. *)
Definition fstr_value (v : pyval) : pystr :=
  match v with
  | PStr s => s
  | _ => py_str E v
  end.

(** [hashlib.sha256(s.encode()).hexdigest()]: UTF-8 cannot encode a
    surrogate code point. *)
Definition sha256_of (s : pystr) : result pystr :=
  if encodable s then Ok (sha256_hexdigest E s) else Raise UnicodeEncodeError.

Definition sync_upload : M Response :=
  try_except
    (data <- get_json ;;
     has_data <- lift (py_in (u "encrypted_data") data) ;;
     missing <- (if negb has_data then ret true
                 else has_hash <- lift (py_in (u "user_hash") data) ;;
                      ret (negb has_hash)) ;;
     if missing : bool then
       create_error_response (u "Missing required fields")
         (u "Both 'encrypted_data' and 'user_hash' are required") 400
     else
       hash_raw <- lift (py_getitem data (u "user_hash")) ;;
       user_hash <- lift (py_slice_to 64 hash_raw) ;;
       shown <- lift (py_slice_to 8 user_hash) ;;
       logger INFO (fstr [u "Sync upload received for user hash: ";
                          fstr_value shown; u "..."]) ;;
       now1 <- utcnow_isoformat ;;
       digest <- lift (sha256_of (fstr [fstr_value user_hash; now1])) ;;
       let sync_id := slice_to 32 digest in
       now2 <- utcnow_isoformat ;;
       envelope <- create_accessible_response
                     (PDict [
                        (u "sync_id", PStr sync_id);
                        (u "timestamp", PStr now2);
                        (u "status", PStr (u "stored"))
                      ])
                     (u "Data synced successfully") ;;
       ret (jsonify envelope))
    (fun e =>
       logger ERROR (u "Sync upload error: ") ;;
       create_error_response (u "Sync failed")
         (u "Unable to sync data. Please try again.") 500).

Definition sync_download : M Response :=
  try_except
    (data <- get_json ;;
     present <- lift (py_in (u "user_hash") data) ;;
     if negb present then
       create_error_response (u "Missing required field")
         (u "The 'user_hash' field is required") 400
     else
       envelope <- create_accessible_response
                     (PDict [
                        (u "encrypted_data", PNone);
                        (u "last_sync", PNone);
                        (u "status", PStr (u "no_data"))
                      ])
                     (u "No sync data found") ;;
       ret (jsonify envelope))
    (fun e =>
       logger ERROR (u "Sync download error: ") ;;
       create_error_response (u "Sync failed")
         (u "Unable to retrieve sync data. Please try again.") 500).

Definition delete_user_data : M Response :=
  try_except
    (data <- get_json ;;
     present <- lift (py_in (u "user_hash") data) ;;
     if negb present then
       create_error_response (u "Missing required field")
         (u "The 'user_hash' field is required") 400
     else
       hash_raw <- lift (py_getitem data (u "user_hash")) ;;
       user_hash <- lift (py_slice_to 64 hash_raw) ;;
       shown <- lift (py_slice_to 8 user_hash) ;;
       logger INFO (fstr [u "User data deletion requested for hash: ";
                          fstr_value shown; u "..."]) ;;
       now1 <- utcnow_isoformat ;;
       now2 <- utcnow_isoformat ;;
       digest <- lift (sha256_of (fstr [u "deleted_"; fstr_value user_hash; u "_"; now2])) ;;
       let confirmation_code := slice_to 16 digest in
       envelope <- create_accessible_response
                     (PDict [
                        (u "deleted", PBool true);
                        (u "timestamp", PStr now1);
                        (u "confirmation_code", PStr confirmation_code)
                      ])
                     (u "All your data has been permanently deleted from our servers") ;;
       ret (jsonify envelope))
    (fun e =>
       logger ERROR (u "User deletion error: ") ;;
       create_error_response (u "Deletion failed")
         (u "Unable to delete data. Please contact support.") 500).

(** The endpoint [/api/v1/behaviors/categories]: the view is
    [get_behavior_categories] itself.  The route accepts GET only, so the
    function answers with a response; a bare list is no response. *)
Definition behavior_categories_view : M Response :=
  r <- get_behavior_categories ;;
  match r with
  | inr response => ret response
  | inl _ => raise TypeError
  end.

End App.

(* ================================================================== *)
(** ** Routes *)

Inductive route :=
| Health
| IdentifySpeakers
| AnalyzeConversation
| AnalyzeResponseImpact
| AnalyzeProfile
| AnalyzeSelfProfile
| Behaviors
| BehaviorCategories
| SyncUpload
| SyncDownload
| UserDelete.

(** [methods=[...]] of each [@app.route]. *)
Definition route_method (r : route) : http_method :=
  match r with
  | Health | Behaviors | BehaviorCategories => GET
  | UserDelete => DELETE
  | _ => POST
  end.

(** The routes decorated with [@validate_api_key]. *)
Definition requires_auth (r : route) : bool :=
  match r with
  | Health | Behaviors | BehaviorCategories => false
  | _ => true
  end.

(** The five routes that call the model. *)
Definition is_analysis (r : route) : bool :=
  match r with
  | IdentifySpeakers | AnalyzeConversation | AnalyzeResponseImpact
  | AnalyzeProfile | AnalyzeSelfProfile => true
  | _ => false
  end.

(** Each view under its decorators, outermost first, as the source stacks
    them: the limiter, then [validate_api_key], then the function. *)
Definition view (E : Env) (rq : Request) (r : route) : M Response :=
  let m := route_method r in
  match r with
  | Health => limiter_default E (health_check E)
  | IdentifySpeakers =>
      limiter_limit E (u "30 per minute") (validate_api_key rq (identify_speakers E rq))
  | AnalyzeConversation =>
      limiter_limit E (u "20 per minute") (validate_api_key rq (analyze_conversation E m rq))
  | AnalyzeResponseImpact =>
      limiter_limit E (u "30 per minute") (validate_api_key rq (analyze_response_impact E rq))
  | AnalyzeProfile =>
      limiter_limit E (u "10 per minute") (validate_api_key rq (analyze_profile E rq))
  | AnalyzeSelfProfile =>
      limiter_limit E (u "10 per minute") (validate_api_key rq (analyze_self_profile E rq))
  | Behaviors => limiter_limit E (u "60 per minute") (get_behaviors E)
  | BehaviorCategories => limiter_default E (behavior_categories_view E m)
  | SyncUpload =>
      limiter_limit E (u "10 per minute") (validate_api_key rq (sync_upload E rq))
  | SyncDownload =>
      limiter_limit E (u "10 per minute") (validate_api_key rq (sync_download E rq))
  | UserDelete =>
      limiter_limit E (u "5 per minute") (validate_api_key rq (delete_user_data E rq))
  end.

(** One request to a route: the view runs, and an exception that escapes it
    is answered by the 500 handler. *)
Definition serve (E : Env) (r : route) (rq : Request) : M Response :=
  try_except (view E rq r) (fun _ => internal_error E).

(** A request with a JSON body [v] and the Authorization header [a]. *)
Definition json_request (a : option pystr) (v : pyval) : Request :=
  {| authorization := a; payload := BodyJson v |}.

(* ================================================================== *)
(** ** A concrete environment

    Worked examples need every collaborator to be some function.  [Json]
    stands for the json module and [clean] for the cleaner; the digest and
    [str] below are stand-ins of the right shape.  The theorems hold for
    every environment; the examples run in this one. *)

Module Demo.

(** The cleaner, after what [bleach.clean(text, tags=[], strip=True)] does
    to ordinary text: a carriage return becomes a newline, a tag goes with
    its attributes, and an ampersand, a less-than or a greater-than sign
    that is left is written as an entity.  Character references already in
    the text, comments that hold a greater-than sign, quoted attribute
    values and control characters are beyond it. *)

(** A carriage return, with the newline that follows it if there is one,
    is one newline. *)
Fixpoint newlines (s : pystr) : pystr :=
  match s with
  | [] => []
  | c :: s' =>
      if N.eqb c 13 then
        10%N :: match s' with
                | d :: s'' => if N.eqb d 10 then newlines s'' else newlines s'
                | [] => []
                end
      else c :: newlines s'
  end.

Definition is_letter (c : N) : bool :=
  ((65 <=? c)%N && (c <=? 90)%N) || ((97 <=? c)%N && (c <=? 122)%N).

(** What follows a less-than sign makes it markup: a letter or a slash
    when the tag is closed further on, an exclamation or a question mark. *)
Definition opens_markup (s : pystr) : bool :=
  match s with
  | [] => false
  | d :: _ =>
      ((is_letter d || N.eqb d 47) && existsb (N.eqb 62) s)
      || N.eqb d 33 || N.eqb d 63
  end.

(** Inside markup everything goes, up to the greater-than sign; outside,
    the three characters are escaped. *)
Fixpoint scrub (inside : bool) (s : pystr) : pystr :=
  match s with
  | [] => []
  | c :: s' =>
      if inside then scrub (negb (N.eqb c 62)) s'
      else if N.eqb c 60 then
        if opens_markup s' then scrub true s' else u "&lt;" ++ scrub false s'
      else if N.eqb c 62 then u "&gt;" ++ scrub false s'
      else if N.eqb c 38 then u "&amp;" ++ scrub false s'
      else c :: scrub false s'
  end.

Definition clean (s : pystr) : pystr := scrub false (newlines s).

(** A clock whose k-th reading ends in the digits of [k]. *)
Definition clock (k : nat) : pystr := u "2024-05-01T12:00:00.00000" ++ str_of_nat k.

(** Sixty-four hexadecimal digits computed from the text. *)
Definition digest (s : pystr) : pystr :=
  let h := fold_left (fun a c => ((a * 31 + c) mod 2 ^ 256)%N) s 7%N in
  map (fun i => Json.hex_digit ((h / 16 ^ N.of_nat (63 - i)) mod 16)%N) (seq 0 64).

(** The model answers every prompt with [reply] ([None]: the call raises);
    the limiter finds the caller over every quota or under every quota. *)
Definition env (over : bool) (reply : option pystr) : Env := {|
  utc_iso := clock;
  over_quota := fun _ => over;
  gemini := fun _ _ _ => reply;
  behavior_library_json := FileAbsent;
  bleach_clean := clean;
  json_loads := Json.loads;
  json_dumps := Json.dumps;
  sha256_hexdigest := digest;
  py_str := Json.dumps
|}.

(** The header the tests of the repository send. *)
Definition bearer : option pystr := Some (u "Bearer test-token-12345").

End Demo.

(** The world a request starts in: the clock has been read [k] times, and
    the trace records what this request does. *)
Definition fresh (k : nat) : World := {| ticks := k; trace := [] |}.

(* ================================================================== *)
(** ** Reading responses *)

(** [v[k]] of a JSON object, when it is there. *)
Definition field (k : pystr) (v : pyval) : option pyval :=
  match v with
  | PDict d => dict_get k d
  | _ => None
  end.

(** [response.get_json()['data'][k]] *)
Definition data_field (k : pystr) (r : Response) : option pyval :=
  match field (u "data") (json r) with
  | Some d => field k d
  | None => None
  end.

Fixpoint keys_eqb (a b : list pystr) : bool :=
  match a, b with
  | [], [] => true
  | x :: a', y :: b' => pystr_eqb x y && keys_eqb a' b'
  | _, _ => false
  end.

(** The JSON object [v] has exactly the keys [ks], in this order. *)
Definition has_keys (ks : list string) (v : pyval) : bool :=
  match v with
  | PDict d => keys_eqb (dict_keys d) (map u ks)
  | _ => false
  end.

Definition is_bool (b : bool) (v : option pyval) : bool :=
  match v with
  | Some (PBool b') => Bool.eqb b b'
  | _ => false
  end.

(** The accessibility block of [v] has exactly the keys [ks]. *)
Definition accessibility_has (ks : list string) (v : pyval) : bool :=
  match field (u "accessibility") v with
  | Some block => has_keys ks block
  | None => false
  end.

(** The two envelope shapes. *)
Definition success_envelope (v : pyval) : bool :=
  has_keys ["success"; "message"; "timestamp"; "data"; "accessibility"] v
  && is_bool true (field (u "success") v)
  && accessibility_has ["screen_reader_summary"; "data_type"] v.

Definition error_envelope (v : pyval) : bool :=
  has_keys ["success"; "error"; "details"; "timestamp"; "accessibility"] v
  && is_bool false (field (u "success") v)
  && accessibility_has ["screen_reader_summary"; "suggested_action"] v.

(** Exactly one of the two. *)
Definition canonical (v : pyval) : bool :=
  xorb (success_envelope v) (error_envelope v).

(** The Authorization header has the shape [Bearer <token>]. *)
Definition bearer_shaped (a : option pystr) : bool :=
  match a with
  | Some h => startswith (u "Bearer ") h
  | None => false
  end.

(** The quota the limiter evaluates first on a route. *)
Definition route_quota (r : route) : pystr :=
  match r with
  | Health | BehaviorCategories => u "1000 per day"
  | IdentifySpeakers | AnalyzeResponseImpact => u "30 per minute"
  | AnalyzeConversation => u "20 per minute"
  | AnalyzeProfile | AnalyzeSelfProfile | SyncUpload | SyncDownload => u "10 per minute"
  | Behaviors => u "60 per minute"
  | UserDelete => u "5 per minute"
  end.

(** The configuration at the model call of each analysis route. *)
Definition route_config (r : route) : option GenerationConfig :=
  match r with
  | IdentifySpeakers => Some identify_speakers_config
  | AnalyzeConversation => Some analyze_conversation_config
  | AnalyzeResponseImpact => Some analyze_response_impact_config
  | AnalyzeProfile => Some analyze_profile_config
  | AnalyzeSelfProfile => Some analyze_self_profile_config
  | _ => None
  end.

Definition is_generate (ev : event) : bool :=
  match ev with
  | EvGenerate _ _ _ => true
  | _ => false
  end.

(* ================================================================== *)
(** ** Notions the statements use *)

(** The body [validate_api_key] answers with. *)
Definition unauthorized_body : pyval :=
  PDict [
    (u "error", PStr (u "Unauthorized"));
    (u "message", PStr (u "Valid authentication token required"))
  ].

(** The response is one of the two envelopes. *)
Definition enveloped (r : Response) : Prop := canonical (json r) = true.

(** The fields each analysis handler requires of the body. *)
Definition required_fields (r : route) : list pystr :=
  match r with
  | IdentifySpeakers => [u "text"]
  | AnalyzeConversation => [u "conversation"; u "speakers"]
  | AnalyzeResponseImpact => [u "conversation"; u "user_speaker"; u "draft_response"]
  | AnalyzeProfile => [u "profile_data"]
  | AnalyzeSelfProfile => [u "user_data"]
  | _ => []
  end.



(** The key [str.format] looks up when it meets the JSON example of a
    template: a newline, four spaces and the quoted first field name. *)
Definition summary_key (name : string) : pystr :=
  u (nl_char ++ "    " ++ q [""; name; ""]).

(** No event so far is a model call. *)
Definition no_generate (ev : event) : Prop := is_generate ev = false.

(** Every model call so far went to the model of the source with the
    configuration of route [r]. *)
Definition generates_with (r : route) (ev : event) : Prop :=
  match ev with
  | EvGenerate name _ cfg => name = gemini_model /\ route_config r = Some cfg
  | _ => True
  end.

(** The template the handler of each analysis route reads. *)
Definition route_template (r : route) : pystr :=
  match r with
  | AnalyzeConversation => CONVERSATION_ANALYSIS_PROMPT
  | AnalyzeResponseImpact => RESPONSE_IMPACT_PROMPT
  | AnalyzeProfile => PROFILE_ANALYSIS_PROMPT
  | AnalyzeSelfProfile => SELF_PROFILE_PROMPT
  | _ => SPEAKER_IDENTIFICATION_PROMPT
  end.

(** The handler of an analysis route when the template it renders is
    [template].  The speaker-identification handler renders nothing: it
    appends the text to its template. *)
Definition analysis_handler (E : Env) (r : route) (template : pystr) (rq : Request)
  : M Response :=
  match r with
  | AnalyzeConversation => analyze_conversation_with E (route_method r) rq template
  | AnalyzeResponseImpact => analyze_response_impact_with E rq template
  | AnalyzeProfile => analyze_profile_with E rq template
  | AnalyzeSelfProfile => analyze_self_profile_with E rq template
  | _ => identify_speakers E rq
  end.

(** A body with every field route [r] requires, each an empty string. *)
Definition blank_request (r : route) : Request :=
  json_request None (PDict (map (fun f => (f, PStr [])) (required_fields r))).

(** The prompt a template that is its [conversation] field alone renders
    to, for a conversation of one line. *)
Definition one_line_prompt : pystr := u (q ["["; "Alice: Hi"; "]"]).

(** What a speaker-identification request has done once the model has
    answered, when [text] is the sanitized text. *)
Definition identify_speakers_trace (text : pystr) : list event :=
  [EvRateLimit (u "30 per minute"); EvAuthCheck; EvGetJson;
   EvGenerate gemini_model (SPEAKER_IDENTIFICATION_PROMPT ++ text)
     identify_speakers_config].

(** The status code a request ends with. *)
Definition status_of (outcome : result Response * World) : option nat :=
  match outcome with
  | (Ok resp, _) => Some (status_code resp)
  | (Raise _, _) => None
  end.

(** The reply whose text is an object with two speakers. *)
Definition reply_with_two_speakers : pystr :=
  u (q ["{"; "speakers_identified"; ": ["; "Alice"; ", "; "Bob"; "]}"]).

(** The reply whose text is an object with [speakers_identified] set to 5. *)
Definition reply_with_a_count : pystr :=
  u (q ["{"; "speakers_identified"; ": 5}"]).

(* ================================================================== *)
(** ** Predicates on computations *)

(** Whenever [c] returns, its value satisfies [Q]. *)
Definition returns {A} (c : M A) (Q : A -> Prop) : Prop :=
  forall w, match c w with
            | (Ok a, _) => Q a
            | (Raise _, _) => True
            end.

(** [c] always returns, and its value satisfies [Q]. *)
Definition answers {A} (c : M A) (Q : A -> Prop) : Prop :=
  forall w, exists a w', c w = (Ok a, w') /\ Q a.

(** [phi] holds of every event recorded so far. *)
Definition traced (phi : event -> Prop) (w : World) : Prop := Forall phi (trace w).

(** From a world where [phi] holds throughout, [c] leaves one where it
    still does, and a value it returns satisfies [Q]. *)
Definition ensures {A} (phi : event -> Prop) (c : M A) (Q : A -> Prop) : Prop :=
  forall w, traced phi w ->
    match c w with
    | (Ok a, w') => Q a /\ traced phi w'
    | (Raise _, w') => traced phi w'
    end.

(* ================================================================== *)
(** ** Notions the further properties use *)

(** The body [create_accessible_response] builds at the clock reading [now]. *)
Definition success_body (data : pyval) (message now : pystr) : pyval :=
  PDict [
    (u "success", PBool true);
    (u "message", PStr message);
    (u "timestamp", PStr now);
    (u "data", data);
    (u "accessibility", PDict [
      (u "screen_reader_summary", PStr message);
      (u "data_type", PStr (type_name data))
    ])
  ].

(** The body [create_error_response] builds at the clock reading [now]. *)
Definition error_body (error details now : pystr) : pyval :=
  PDict [
    (u "success", PBool false);
    (u "error", PStr error);
    (u "details", PStr details);
    (u "timestamp", PStr now);
    (u "accessibility", PDict [
      (u "screen_reader_summary", PStr (fstr [u "Error: "; error]));
      (u "suggested_action", PStr (u "Please try again or contact support"))
    ])
  ].

(** The response comes from one of the two builders: a success body with
    status 200, or an error body with one of the statuses the source
    passes. *)
Definition built (resp : Response) : Prop :=
  (status_code resp = 200
   /\ exists data message now, json resp = success_body data message now)
  \/ (In (status_code resp) [400; 429; 500]
      /\ exists error details now, json resp = error_body error details now).

(** The error and the details of the 500 each view answers with in its
    [except] clause; the two views without one fall to the 500 handler. *)
Definition failure_text (r : route) : pystr * pystr :=
  match r with
  | IdentifySpeakers =>
      (u "Analysis failed", u "Unable to process the conversation. Please try again.")
  | AnalyzeConversation =>
      (u "Analysis failed", u "Unable to analyze the conversation. Please try again.")
  | AnalyzeResponseImpact =>
      (u "Analysis failed", u "Unable to analyze response impact. Please try again.")
  | AnalyzeProfile =>
      (u "Analysis failed", u "Unable to generate profile analysis. Please try again.")
  | AnalyzeSelfProfile =>
      (u "Analysis failed",
       u "Unable to generate self-profile analysis. Please try again.")
  | Behaviors =>
      (u "Failed to load behaviors", u "Unable to retrieve the behavior library.")
  | SyncUpload => (u "Sync failed", u "Unable to sync data. Please try again.")
  | SyncDownload => (u "Sync failed", u "Unable to retrieve sync data. Please try again.")
  | UserDelete => (u "Deletion failed", u "Unable to delete data. Please contact support.")
  | Health | BehaviorCategories =>
      (u "Internal Server Error",
       u "An unexpected error occurred. Please try again later.")
  end.

(** Whenever [c] returns, its value and the world it leaves satisfy [Q]. *)
Definition leaves {A} (c : M A) (Q : A -> World -> Prop) : Prop :=
  forall w, match c w with
            | (Ok a, w') => Q a w'
            | (Raise _, _) => True
            end.

(** The model calls recorded in a world. *)
Definition model_calls (w : World) : nat := length (filter is_generate (trace w)).

(** [c] adds at most [n] model calls, whether it returns or raises. *)
Definition calls_at_most {A} (n : nat) (c : M A) : Prop :=
  forall w, model_calls (snd (c w)) <= model_calls w + n.

(** A model call whose prompt is the speaker-identification template
    followed by a sanitized, non-empty text. *)
Definition sanitized_prompt (E : Env) (ev : event) : Prop :=
  match ev with
  | EvGenerate _ prompt _ =>
      exists raw,
        raw <> []
        /\ slice_to 50000 (bleach_clean E raw) <> []
        /\ prompt = SPEAKER_IDENTIFICATION_PROMPT ++ slice_to 50000 (bleach_clean E raw)
  | _ => True
  end.

(** A library file with the given categories. *)
Definition library_of (categories : list pyval) : pyval :=
  PDict [(u "version", PStr (u "1.0.0")); (u "categories", PList categories)].

(** The data [sync_download] answers with. *)
Definition no_sync_data : pyval :=
  PDict [
    (u "encrypted_data", PNone);
    (u "last_sync", PNone);
    (u "status", PStr (u "no_data"))
  ].

(** A value with neither characters nor items to slice. *)
Definition unsliceable (v : pyval) : bool :=
  match v with
  | PStr _ | PList _ => false
  | _ => true
  end.

(** [len(result.get('speakers_identified', []))], for a parsed [result]. *)
Definition speaker_count (parsed : pyval) : result nat :=
  and_then (py_get parsed (u "speakers_identified") (PList [])) py_len.

(** The message of a speaker identification that found [n] speakers. *)
Definition identified (n : nat) : pystr :=
  fstr [u "Identified "; str_of_nat n; u " speakers in the conversation"].

(** The environment [E] with the library file replaced by [file]. *)
Definition with_library (E : Env) (file : library_file) : Env := {|
  utc_iso := utc_iso E;
  over_quota := over_quota E;
  gemini := gemini E;
  behavior_library_json := file;
  bleach_clean := bleach_clean E;
  json_loads := json_loads E;
  json_dumps := json_dumps E;
  sha256_hexdigest := sha256_hexdigest E;
  py_str := py_str E
|}.

(** A category with one subcategory, holding the given behaviors. *)
Definition category_of (name : pystr) (behaviors : list pyval) : pyval :=
  PDict [
    (u "category", PStr name);
    (u "subcategories", PList [PDict [(u "behaviors", PList behaviors)]])
  ].

(** The message of a library with [n] behaviors. *)
Definition loaded (n : nat) : pystr :=
  fstr [u "Loaded "; str_of_nat n; u " behaviors and traits"].

(** The routes that derive an identifier from [user_hash]. *)
Definition hashes_user (r : route) : bool :=
  match r with
  | SyncUpload | UserDelete => true
  | _ => false
  end.

(** The line upload and deletion log at level INFO, [shown] being what
    they show of the user hash. *)
Definition receipt_line (r : route) (shown : pystr) : pystr :=
  match r with
  | UserDelete => fstr [u "User data deletion requested for hash: "; shown; u "..."]
  | _ => fstr [u "Sync upload received for user hash: "; shown; u "..."]
  end.

(** What [get_default_behavior_library] returns at the clock reading [now]. *)
Definition default_library (now : pystr) : pyval :=
  PDict [
    (u "version", PStr (u "1.0.0"));
    (u "last_updated", PStr now);
    (u "categories", PList [])
  ].

(** The library file cannot be served: it cannot be read or parsed, or
    its content cannot be counted. *)
Definition unusable (file : library_file) : Prop :=
  match file with
  | FileUnreadable => True
  | FileJson library => exists e, count_behaviors library = Raise e
  | FileAbsent => False
  end.

(* ================================================================== *)
(** * Properties *)

(* ================================================================== *)
(** ** Reasoning about computations *)

Lemma returns_ret {A} (a : A) (Q : A -> Prop) : Q a -> returns (ret a) Q.
Proof. intros H w. exact H. Qed.

Lemma returns_raise {A} (e : exn) (Q : A -> Prop) : returns (raise e) Q.
Proof. intros w. exact I. Qed.

Lemma returns_bind {A B} (c : M A) (k : A -> M B) (Q : B -> Prop) :
  (forall a, returns (k a) Q) -> returns (bind c k) Q.
Proof.
  intros H w. unfold bind. destruct (c w) as [[a|e] w']; [apply H | exact I].
Qed.

Lemma returns_bind_with {A B} (c : M A) (k : A -> M B) (P : A -> Prop) (Q : B -> Prop) :
  returns c P -> (forall a, P a -> returns (k a) Q) -> returns (bind c k) Q.
Proof.
  intros Hc Hk w. unfold bind. specialize (Hc w).
  destruct (c w) as [[a|e] w']; [apply Hk, Hc | exact I].
Qed.

Lemma answers_returns {A} (c : M A) (Q : A -> Prop) : answers c Q -> returns c Q.
Proof.
  intros H w. destruct (H w) as (a & w' & -> & Ha). exact Ha.
Qed.

Lemma answers_try {A} (c : M A) (h : exn -> M A) (Q : A -> Prop) :
  returns c Q -> (forall e, answers (h e) Q) -> answers (try_except c h) Q.
Proof.
  intros Hc Hh w. unfold try_except. specialize (Hc w).
  destruct (c w) as [[a|e] w'].
  - exists a, w'. split; [reflexivity | exact Hc].
  - apply Hh.
Qed.

Lemma answers_seq {A B} (c : M A) (k : M B) (Q : B -> Prop) :
  answers c (fun _ => True) -> answers k Q -> answers (bind c (fun _ => k)) Q.
Proof.
  intros Hc Hk w. unfold bind. destruct (Hc w) as (a & w' & -> & _). apply Hk.
Qed.

Lemma answers_emit (ev : event) : answers (emit ev) (fun _ => True).
Proof. intros w. eexists; eexists; split; [reflexivity | exact I]. Qed.

Section Envelopes.

Variable E : Env.

Lemma create_error_response_answers (error details : pystr) (code : nat) :
  answers (create_error_response E error details code)
    (fun r => canonical (json r) = true /\ status_code r = code).
Proof.
  intros w. eexists; eexists; split; [reflexivity |]. split; reflexivity.
Qed.

Lemma error_response_canonical (error details : pystr) (code : nat) :
  answers (create_error_response E error details code)
    (fun r => canonical (json r) = true).
Proof.
  intros w. destruct (create_error_response_answers error details code w)
    as (r & w' & Hr & Hc & _).
  exists r, w'. split; assumption.
Qed.

Lemma success_response_canonical (data : pyval) (message : pystr) :
  returns (envelope <- create_accessible_response E data message ;; ret (jsonify envelope))
    (fun r => canonical (json r) = true).
Proof. intros w. reflexivity. Qed.

End Envelopes.

(* ================================================================== *)
(** ** Decorators *)

Lemma bearer_shaped_nonempty (h : pystr) :
  startswith (u "Bearer ") h = true -> truthy (PStr h) = true.
Proof. destruct h; [discriminate | reflexivity]. Qed.

(** A request with a bearer-shaped header goes through to the view. *)
Lemma validate_api_key_accepts (rq : Request) (f : M Response) (w : World) :
  bearer_shaped (authorization rq) = true ->
  validate_api_key rq f w = f {| ticks := ticks w; trace := trace w ++ [EvAuthCheck] |}.
Proof.
  unfold validate_api_key, bearer_shaped, bind, emit.
  destruct (authorization rq) as [h|]; [| discriminate].
  intros H. rewrite (bearer_shaped_nonempty h H), H. reflexivity.
Qed.

Lemma validate_api_key_rejects (rq : Request) (f : M Response) (w : World) :
  bearer_shaped (authorization rq) = false ->
  validate_api_key rq f w =
    (Ok {| json := unauthorized_body; status_code := 401 |},
     {| ticks := ticks w; trace := trace w ++ [EvAuthCheck] |}).
Proof.
  unfold validate_api_key, bearer_shaped, bind, emit.
  destruct (authorization rq) as [h|]; [| reflexivity].
  intros H. rewrite H. cbn. rewrite orb_true_r. reflexivity.
Qed.

Lemma validate_api_key_answers (rq : Request) (f : M Response) (Q : Response -> Prop) :
  bearer_shaped (authorization rq) = true ->
  answers f Q -> answers (validate_api_key rq f) Q.
Proof.
  intros Hb Hf w. rewrite validate_api_key_accepts by exact Hb. apply Hf.
Qed.

Lemma limiter_limit_answers (E : Env) (quota : pystr) (f : M Response)
    (Q : Response -> Prop) :
  answers (rate_limit_exceeded E) Q -> answers f Q ->
  answers (limiter_limit E quota f) Q.
Proof.
  intros Hr Hf w. unfold limiter_limit, bind, emit. cbn.
  destruct (over_quota E quota); [apply Hr | apply Hf].
Qed.

Lemma answers_outer_try {A} (c : M A) (h : exn -> M A) (Q : A -> Prop) :
  answers c Q -> answers (try_except c h) Q.
Proof.
  intros Hc w. unfold try_except. destruct (Hc w) as (a & w' & -> & Ha).
  exists a, w'. split; [reflexivity | exact Ha].
Qed.

(* ================================================================== *)
(** ** Every view answers with an envelope *)

Ltac returns_step E :=
  lazymatch goal with
  | |- returns (bind (create_accessible_response _ _ _) (fun e => ret (jsonify e))) _ =>
      apply (success_response_canonical E)
  | |- returns (create_error_response _ _ _ _) _ =>
      apply answers_returns, error_response_canonical
  | |- returns (missing_field_response _ _) _ =>
      apply answers_returns, error_response_canonical
  | |- returns (bind _ _) _ => apply returns_bind; intros
  | |- returns (if ?b then _ else _) _ => destruct b
  | |- returns (match ?x with _ => _ end) _ => destruct x
  | |- returns (raise _) _ => apply returns_raise
  end.

Ltac handler_answers E :=
  apply answers_try;
  [ repeat returns_step E
  | intros e; apply answers_seq; [apply answers_emit | apply error_response_canonical] ].

Section Views.

Variable E : Env.
Variable rq : Request.

Lemma identify_speakers_enveloped : answers (identify_speakers E rq) enveloped.
Proof. unfold identify_speakers, enveloped. handler_answers E. Qed.

Lemma analyze_conversation_enveloped (m : http_method) :
  answers (analyze_conversation E m rq) enveloped.
Proof.
  unfold analyze_conversation, analyze_conversation_with, enveloped.
  handler_answers E.
Qed.

Lemma analyze_response_impact_enveloped : answers (analyze_response_impact E rq) enveloped.
Proof.
  unfold analyze_response_impact, analyze_response_impact_with, enveloped.
  handler_answers E.
Qed.

Lemma analyze_profile_enveloped : answers (analyze_profile E rq) enveloped.
Proof.
  unfold analyze_profile, analyze_profile_with, enveloped.
  handler_answers E.
Qed.

Lemma analyze_self_profile_enveloped : answers (analyze_self_profile E rq) enveloped.
Proof.
  unfold analyze_self_profile, analyze_self_profile_with, enveloped.
  handler_answers E.
Qed.

Lemma get_behaviors_enveloped : answers (get_behaviors E) enveloped.
Proof. unfold get_behaviors, enveloped. handler_answers E. Qed.

Lemma sync_upload_enveloped : answers (sync_upload E rq) enveloped.
Proof. unfold sync_upload, enveloped. handler_answers E. Qed.

Lemma sync_download_enveloped : answers (sync_download E rq) enveloped.
Proof. unfold sync_download, enveloped. handler_answers E. Qed.

Lemma delete_user_data_enveloped : answers (delete_user_data E rq) enveloped.
Proof. unfold delete_user_data, enveloped. handler_answers E. Qed.

Lemma behavior_categories_enveloped : answers (behavior_categories_view E GET) enveloped.
Proof. intros w. eexists; eexists; split; reflexivity. Qed.

Lemma rate_limit_exceeded_enveloped : answers (rate_limit_exceeded E) enveloped.
Proof. apply error_response_canonical. Qed.

Lemma not_found_enveloped : answers (not_found E) enveloped.
Proof. apply error_response_canonical. Qed.

Lemma internal_error_enveloped : answers (internal_error E) enveloped.
Proof. apply error_response_canonical. Qed.

End Views.

Create HintDb views.
#[local] Hint Resolve identify_speakers_enveloped analyze_conversation_enveloped
  analyze_response_impact_enveloped analyze_profile_enveloped
  analyze_self_profile_enveloped get_behaviors_enveloped sync_upload_enveloped
  sync_download_enveloped delete_user_data_enveloped behavior_categories_enveloped
  rate_limit_exceeded_enveloped : views.

(** The health check answers with its own payload, or with the 429
    envelope when the caller is over a default limit. *)
Lemma health_check_payload (E : Env) (rq : Request) (k : nat) :
  exists resp w',
    serve E Health rq (fresh k) = (Ok resp, w')
    /\ (canonical (json resp) = true
        \/ status_code resp = 200
           /\ has_keys ["status"; "service"; "version"; "timestamp"] (json resp) = true).
Proof.
  unfold serve, view, limiter_default, limiter_limit, try_except, bind, emit.
  cbn [fresh ticks trace app].
  destruct (over_quota E (u "1000 per day"));
    [| destruct (over_quota E (u "100 per hour"))];
    eexists; eexists; (split; [reflexivity |]);
    first [left; reflexivity | right; split; reflexivity].
Qed.

(** C1, amended.  On every route but the health check, a request that gets
    past the authorization decorator (the route has none, or the header is
    bearer-shaped) is answered with exactly one of the two envelope shapes,
    whatever the body, the limiter and the model do; so is a request to an
    unknown path, by the 404 handler.  The health check answers 200 with
    its fixed payload of [status], [service], [version] and [timestamp]
    (or with the 429 envelope). *)
Theorem envelope_on_every_admitted_path :
  forall (E : Env) (r : route) (rq : Request) (k : nat),
    r <> Health ->
    (requires_auth r = true -> bearer_shaped (authorization rq) = true) ->
    (exists resp w', serve E r rq (fresh k) = (Ok resp, w')
                     /\ canonical (json resp) = true)
    /\ (exists resp w', not_found E (fresh k) = (Ok resp, w')
                        /\ canonical (json resp) = true)
    /\ (exists resp w', serve E Health rq (fresh k) = (Ok resp, w')
                        /\ (canonical (json resp) = true
                            \/ status_code resp = 200
                               /\ has_keys ["status"; "service"; "version"; "timestamp"]
                                    (json resp) = true)).
Proof.
  intros E r rq k Hr Hauth.
  split; [| split; [apply not_found_enveloped | apply health_check_payload]].
  apply (answers_outer_try (view E rq r) (fun _ => internal_error E) enveloped).
  destruct r; try congruence; cbn [view route_method];
    try specialize (Hauth eq_refl);
    unfold limiter_default;
    repeat (apply limiter_limit_answers; [apply rate_limit_exceeded_enveloped |]);
    try (apply validate_api_key_answers; [exact Hauth |]);
    auto with views.
Qed.

(** C1, witness: a speaker-identification request with a bearer token. *)
Lemma envelope_on_every_admitted_path_witness :
  (exists resp w',
     serve (Demo.env false (Some (u "not json"))) IdentifySpeakers
       (json_request Demo.bearer (PDict [(u "text", PStr (u "Alice: Hi"))])) (fresh 0)
     = (Ok resp, w') /\ canonical (json resp) = true)
  /\ (exists resp w',
        not_found (Demo.env false (Some (u "not json"))) (fresh 0) = (Ok resp, w')
        /\ canonical (json resp) = true)
  /\ (exists resp w',
        serve (Demo.env false (Some (u "not json"))) Health
          (json_request Demo.bearer (PDict [(u "text", PStr (u "Alice: Hi"))])) (fresh 0)
        = (Ok resp, w')
        /\ (canonical (json resp) = true
            \/ status_code resp = 200
               /\ has_keys ["status"; "service"; "version"; "timestamp"]
                    (json resp) = true)).
Proof.
  apply (envelope_on_every_admitted_path
           (Demo.env false (Some (u "not json"))) IdentifySpeakers
           (json_request Demo.bearer (PDict [(u "text", PStr (u "Alice: Hi"))])) 0).
  - discriminate.
  - reflexivity.
Defined.

(** C1, as stated, fails: the 401 that [validate_api_key] returns has neither
    a [success] field nor an accessibility block, and the health check
    answers with its own fixed payload. *)
Lemma unauthorized_and_health_are_not_envelopes :
  (exists resp w',
     serve (Demo.env false None) IdentifySpeakers
       (json_request None (PDict [(u "text", PStr (u "hello"))])) (fresh 0)
     = (Ok resp, w')
     /\ status_code resp = 401
     /\ field (u "success") (json resp) = None
     /\ canonical (json resp) = false)
  /\ (exists resp w',
        serve (Demo.env false None) Health (json_request None PNone) (fresh 0)
        = (Ok resp, w')
        /\ status_code resp = 200
        /\ field (u "success") (json resp) = None
        /\ canonical (json resp) = false).
Proof.
  split; eexists; eexists; (split; [vm_compute; reflexivity |]);
    repeat split; reflexivity.
Qed.

(* ================================================================== *)
(** ** What a request may do to the outside *)

Lemma serve_answers (E : Env) (r : route) (rq : Request) (w : World) :
  exists resp w', serve E r rq w = (Ok resp, w').
Proof.
  unfold serve, try_except. destruct (view E rq r w) as [[resp|e] w'].
  - exists resp, w'. reflexivity.
  - eexists; eexists; reflexivity.
Qed.

Section Ensures.

Variable phi : event -> Prop.

Lemma ensures_ret {A} (a : A) (Q : A -> Prop) : Q a -> ensures phi (ret a) Q.
Proof. intros H w Hw. split; assumption. Qed.

Lemma ensures_raise {A} (e : exn) (Q : A -> Prop) : ensures phi (raise e) Q.
Proof. intros w Hw. exact Hw. Qed.

Lemma ensures_lift {A} (r : result A) : ensures phi (lift r) (fun _ => True).
Proof. intros w Hw. unfold lift. destruct r; [split |]; auto. Qed.

Lemma ensures_weaken {A} (c : M A) (P Q : A -> Prop) :
  ensures phi c P -> (forall a, P a -> Q a) -> ensures phi c Q.
Proof.
  intros Hc HPQ w Hw. specialize (Hc w Hw).
  destruct (c w) as [[a|e] w']; [destruct Hc; split; auto | exact Hc].
Qed.

Lemma ensures_bind {A B} (c : M A) (k : A -> M B) (P : A -> Prop) (Q : B -> Prop) :
  ensures phi c P -> (forall a, P a -> ensures phi (k a) Q) -> ensures phi (bind c k) Q.
Proof.
  intros Hc Hk w Hw. unfold bind. specialize (Hc w Hw).
  destruct (c w) as [[a|e] w']; [destruct Hc as [Ha Hw']; apply Hk; assumption | exact Hc].
Qed.

(** A step that raises cuts off what follows it. *)
Lemma ensures_cut {A B} (r : result A) (e : exn) (k : A -> M B) (Q : B -> Prop) :
  r = Raise e -> ensures phi (bind (lift r) k) Q.
Proof. intros -> w Hw. exact Hw. Qed.

Lemma ensures_try {A} (c : M A) (h : exn -> M A) (Q : A -> Prop) :
  ensures phi c Q -> (forall e, ensures phi (h e) Q) -> ensures phi (try_except c h) Q.
Proof.
  intros Hc Hh w Hw. unfold try_except. specialize (Hc w Hw).
  destruct (c w) as [[a|e] w']; [exact Hc | apply Hh; exact Hc].
Qed.

Lemma ensures_emit (ev : event) : phi ev -> ensures phi (emit ev) (fun _ => True).
Proof.
  intros Hev w Hw. split; [exact I |]. unfold traced. cbn.
  apply Forall_app. split; [exact Hw | constructor; [exact Hev | constructor]].
Qed.

Variable E : Env.

Lemma ensures_utcnow : ensures phi (utcnow_isoformat E) (fun _ => True).
Proof. intros w Hw. split; [exact I | exact Hw]. Qed.

Lemma ensures_error_response (error details : pystr) (code : nat) :
  ensures phi (create_error_response E error details code) (fun r => status_code r = code).
Proof. intros w Hw. split; [reflexivity | exact Hw]. Qed.

Lemma ensures_accessible_response (data : pyval) (message : pystr) :
  ensures phi (create_accessible_response E data message) (fun _ => True).
Proof. intros w Hw. split; [exact I | exact Hw]. Qed.

Lemma ensures_default_library : ensures phi (get_default_behavior_library E) (fun _ => True).
Proof. intros w Hw. split; [exact I | exact Hw]. Qed.

Lemma ensures_generate (name prompt : pystr) (cfg : GenerationConfig) :
  phi (EvGenerate name prompt cfg) ->
  ensures phi (generate_content E name prompt cfg) (fun _ => True).
Proof.
  intros Hev. unfold generate_content.
  apply ensures_bind with (P := fun _ => True); [apply ensures_emit, Hev |].
  intros _ _. destruct (gemini E name prompt cfg);
    [apply ensures_ret; exact I | apply ensures_raise].
Qed.

Lemma ensures_loads_or (text : pystr) (fallback : pyval) :
  ensures phi (loads_or E text fallback) (fun _ => True).
Proof.
  unfold loads_or. destruct (json_loads E text) as [v|[]];
    first [apply ensures_ret; exact I | apply ensures_raise].
Qed.

End Ensures.

(** The prompt templates carry the braces of their JSON examples, and
    [str.format] reads the first of them as a replacement field: rendering
    raises [KeyError], whatever the values are. *)
Lemma format_conversation_raises (speakers categories conversation : pystr) :
  py_format CONVERSATION_ANALYSIS_PROMPT
    [(u "speakers", speakers); (u "behavior_categories", categories);
     (u "conversation", conversation)]
  = Raise (KeyError (summary_key "summary")).
Proof. vm_compute. reflexivity. Qed.

Lemma format_response_impact_raises (user_speaker draft_response conversation : pystr) :
  py_format RESPONSE_IMPACT_PROMPT
    [(u "user_speaker", user_speaker); (u "draft_response", draft_response);
     (u "conversation", conversation)]
  = Raise (KeyError (summary_key "impact_analysis")).
Proof. vm_compute. reflexivity. Qed.

Lemma format_profile_raises (profile_data : pystr) :
  py_format PROFILE_ANALYSIS_PROMPT [(u "profile_data", profile_data)]
  = Raise (KeyError (summary_key "profile_summary")).
Proof. vm_compute. reflexivity. Qed.

Lemma format_self_profile_raises (user_data : pystr) :
  py_format SELF_PROFILE_PROMPT [(u "user_data", user_data)]
  = Raise (KeyError (summary_key "honest_summary")).
Proof. vm_compute. reflexivity. Qed.

Ltac format_cut :=
  lazymatch goal with
  | |- ensures _ (bind (lift (py_format CONVERSATION_ANALYSIS_PROMPT _)) _) _ =>
      eapply ensures_cut; apply format_conversation_raises
  | |- ensures _ (bind (lift (py_format RESPONSE_IMPACT_PROMPT _)) _) _ =>
      eapply ensures_cut; apply format_response_impact_raises
  | |- ensures _ (bind (lift (py_format PROFILE_ANALYSIS_PROMPT _)) _) _ =>
      eapply ensures_cut; apply format_profile_raises
  | |- ensures _ (bind (lift (py_format SELF_PROFILE_PROMPT _)) _) _ =>
      eapply ensures_cut; apply format_self_profile_raises
  end.

Ltac side_solve :=
  first [ exact I
        | reflexivity
        | split; reflexivity
        | cbn; discriminate
        | cbn; intros; subst; discriminate ].

Ltac ensures_auto :=
  lazymatch goal with
  | |- ensures _ (try_except _ _) _ =>
      apply ensures_try; [ensures_auto | intros ?; ensures_auto]
  | |- ensures _ (bind (lift (py_format _ _)) _) _ => format_cut
  | |- ensures _ (bind _ _) _ =>
      apply ensures_bind with (P := fun _ => True);
      [ensures_auto | intros ? _; ensures_auto]
  | |- ensures _ (if ?b then _ else _) _ => destruct b; ensures_auto
  | |- ensures _ (match ?x with _ => _ end) _ => destruct x; ensures_auto
  | |- ensures _ (ret _) _ => apply ensures_ret; side_solve
  | |- ensures _ (raise _) _ => apply ensures_raise
  | |- ensures _ (lift _) _ => apply ensures_lift
  | |- ensures _ (emit _) _ => apply ensures_emit; side_solve
  | |- ensures _ (logger _ _) _ => apply ensures_emit; side_solve
  | |- ensures _ (utcnow_isoformat _) _ => apply ensures_utcnow
  | |- ensures _ (create_error_response _ _ _ _) _ =>
      eapply ensures_weaken;
      [apply ensures_error_response
      | cbn; intros ? Hcode; first [exact I | rewrite Hcode; discriminate]]
  | |- ensures _ (missing_field_response _ _) _ =>
      unfold missing_field_response; ensures_auto
  | |- ensures _ (rate_limit_exceeded _) _ => unfold rate_limit_exceeded; ensures_auto
  | |- ensures _ (internal_error _) _ => unfold internal_error; ensures_auto
  | |- ensures _ (create_accessible_response _ _ _) _ => apply ensures_accessible_response
  | |- ensures _ (generate_content _ _ _ _) _ => apply ensures_generate; side_solve
  | |- ensures _ (loads_or _ _ _) _ => apply ensures_loads_or
  | |- ensures _ (get_json _) _ => unfold get_json; ensures_auto
  | |- ensures _ (get_behavior_categories _ _) _ =>
      unfold get_behavior_categories; ensures_auto
  | |- ensures _ (get_default_behavior_library _) _ => apply ensures_default_library
  | |- ensures _ (limiter_limit _ _ _) _ => unfold limiter_limit; ensures_auto
  | |- ensures _ (validate_api_key _ _) _ =>
      unfold validate_api_key; cbv zeta; ensures_auto
  end.

Lemma template_routes_ensure (E : Env) (r : route) (rq : Request) :
  is_analysis r = true -> r <> IdentifySpeakers ->
  ensures no_generate (serve E r rq) (fun resp => status_code resp <> 200).
Proof.
  intros Ha Hr. unfold no_generate.
  destruct r; try discriminate; try congruence; unfold serve, view.
  - unfold analyze_conversation, analyze_conversation_with. ensures_auto.
  - unfold analyze_response_impact, analyze_response_impact_with. ensures_auto.
  - unfold analyze_profile, analyze_profile_with. ensures_auto.
  - unfold analyze_self_profile, analyze_self_profile_with. ensures_auto.
Qed.

(** C2, at its failing inputs.  The conversation, response-impact, profile
    and self-profile routes render their prompt with [str.format], which
    raises on the template's own braces: whatever the request and the model
    are, the answer is never a 200 and the model is never called, so the
    fallback of these routes cannot be reached. *)
Theorem template_routes_never_succeed :
  forall (E : Env) (r : route) (rq : Request) (k : nat),
    is_analysis r = true -> r <> IdentifySpeakers ->
    exists resp w',
      serve E r rq (fresh k) = (Ok resp, w')
      /\ status_code resp <> 200
      /\ Forall no_generate (trace w').
Proof.
  intros E r rq k Ha Hr.
  destruct (serve_answers E r rq (fresh k)) as (resp & w' & Hs).
  exists resp, w'. split; [exact Hs |].
  pose proof (template_routes_ensure E r rq Ha Hr (fresh k) (Forall_nil _)) as He.
  rewrite Hs in He. exact He.
Qed.

(** C2, witness: a well-formed conversation request with a bearer token,
    under quota, to a model that would answer with text that is not JSON. *)
Lemma template_routes_never_succeed_witness :
  exists resp w',
    serve (Demo.env false (Some (u "not json"))) AnalyzeConversation
      (json_request Demo.bearer
         (PDict [(u "conversation", PList []); (u "speakers", PList [])]))
      (fresh 0)
    = (Ok resp, w')
    /\ status_code resp <> 200
    /\ Forall no_generate (trace w').
Proof.
  apply (template_routes_never_succeed
           (Demo.env false (Some (u "not json"))) AnalyzeConversation
           (json_request Demo.bearer
              (PDict [(u "conversation", PList []); (u "speakers", PList [])])) 0).
  - reflexivity.
  - discriminate.
Defined.

(** What that request is answered with: the 500 of the generic handler. *)
Example conversation_request_fails :
  exists resp w',
    serve (Demo.env false (Some (u "not json"))) AnalyzeConversation
      (json_request Demo.bearer
         (PDict [(u "conversation", PList []); (u "speakers", PList [])]))
      (fresh 0)
    = (Ok resp, w')
    /\ status_code resp = 500
    /\ field (u "success") (json resp) = Some (PBool false)
    /\ field (u "error") (json resp) = Some (PStr (u "Analysis failed"))
    /\ trace w' = [EvRateLimit (u "20 per minute"); EvAuthCheck; EvGetJson;
                   EvLog ERROR (u "Conversation analysis error: ")].
Proof.
  eexists; eexists; split; [vm_compute; reflexivity |]. repeat split; reflexivity.
Qed.

Lemma analysis_routes_ensure (E : Env) (r : route) (rq : Request) :
  is_analysis r = true ->
  ensures (generates_with r) (serve E r rq) (fun _ => True).
Proof.
  intros Ha. destruct r; try discriminate; unfold serve, view.
  - unfold identify_speakers. ensures_auto.
  - unfold analyze_conversation, analyze_conversation_with. ensures_auto.
  - unfold analyze_response_impact, analyze_response_impact_with. ensures_auto.
  - unfold analyze_profile, analyze_profile_with. ensures_auto.
  - unfold analyze_self_profile, analyze_self_profile_with. ensures_auto.
Qed.

(** Like [ensures_auto], through a template that may render. *)
Ltac ensures_through :=
  lazymatch goal with
  | |- ensures _ (try_except _ _) _ =>
      apply ensures_try; [ensures_through | intros ?; ensures_auto]
  | |- ensures _ (bind (lift _) _) _ =>
      apply ensures_bind with (P := fun _ => True);
      [apply ensures_lift | intros ? _; ensures_through]
  | |- ensures _ (bind _ _) _ =>
      apply ensures_bind with (P := fun _ => True);
      [ensures_auto | intros ? _; ensures_through]
  | |- ensures _ (if ?b then _ else _) _ => destruct b; ensures_through
  | |- ensures _ (match ?x with _ => _ end) _ => destruct x; ensures_through
  | |- _ => ensures_auto
  end.

(** Whatever the template holds, a model call of the handler carries the
    configuration of its route. *)
Lemma analysis_handler_ensures (E : Env) (r : route) (template : pystr) (rq : Request) :
  is_analysis r = true ->
  ensures (generates_with r) (analysis_handler E r template rq) (fun _ => True).
Proof.
  intros Ha. destruct r; try discriminate; unfold analysis_handler.
  - unfold identify_speakers. ensures_auto.
  - unfold analyze_conversation_with. ensures_through.
  - unfold analyze_response_impact_with. ensures_through.
  - unfold analyze_profile_with. ensures_through.
  - unfold analyze_self_profile_with. ensures_through.
Qed.

Ltac called E :=
  cbn;
  repeat (match goal with
          | |- context [json_dumps E ?v] => destruct (json_dumps E v)
          | |- context [gemini E ?a ?b ?c] => destruct (gemini E a b c)
          | |- context [json_loads E ?t] => destruct (json_loads E t) as [?|[]]
          end; cbn);
  repeat (first [left; reflexivity | right]).

(** With a template that renders (the empty one does), the call is made,
    and it carries that configuration. *)
Lemma blank_request_reaches_the_model (E : Env) (r : route) (k : nat) :
  is_analysis r = true -> r <> IdentifySpeakers ->
  exists cfg,
    route_config r = Some cfg
    /\ In (EvGenerate gemini_model [] cfg)
         (trace (snd (analysis_handler E r [] (blank_request r) (fresh k)))).
Proof.
  intros Ha Hr. destruct r; try discriminate; try congruence;
    (eexists; split; [reflexivity |]);
    unfold analysis_handler, blank_request, analyze_conversation_with,
      analyze_response_impact_with, analyze_profile_with, analyze_self_profile_with,
      try_except, bind, get_json, emit, ret, lift, generate_content, loads_or,
      json_request; called E.
Qed.

(** C7, amended.  Each analysis route has one configuration, written at
    the model call of its handler: its temperature lies between 0.3 and 0.5
    and it asks for JSON output; the conversation, profile and
    self-profile configurations cap the output at 8192 tokens, the
    response-impact configuration at 4096, and the identify-speakers
    configuration sets no cap.  The view of the route is its handler at the
    template of the source, behind the two decorators; whatever the
    template holds and whatever the caller sent, every model call of the
    handler goes to [gemini-1.5-pro] with the configuration of the route;
    and with a template that renders, the call is made. *)
Theorem generation_config_is_fixed_per_route :
  forall (E : Env) (r : route),
    is_analysis r = true ->
    exists cfg,
      route_config r = Some cfg
      /\ dec_le (dec 3 1) (temperature cfg)
      /\ dec_le (temperature cfg) (dec 5 1)
      /\ response_mime_type cfg = Some application_json
      /\ max_output_tokens cfg
         = match r with
           | IdentifySpeakers => None
           | AnalyzeResponseImpact => Some 4096%Z
           | _ => Some 8192%Z
           end
      /\ (forall rq,
             view E rq r
             = limiter_limit E (route_quota r)
                 (validate_api_key rq (analysis_handler E r (route_template r) rq)))
      /\ (forall template rq,
             ensures (generates_with r) (analysis_handler E r template rq)
               (fun _ => True))
      /\ (r <> IdentifySpeakers ->
          forall k,
            In (EvGenerate gemini_model [] cfg)
              (trace (snd (analysis_handler E r [] (blank_request r) (fresh k)))))
      /\ (forall rq k,
             exists resp w',
               serve E r rq (fresh k) = (Ok resp, w')
               /\ Forall (generates_with r) (trace w')).
Proof.
  intros E r Ha.
  assert (Hcfg : exists cfg, route_config r = Some cfg)
    by (destruct r; try discriminate; eexists; reflexivity).
  destruct Hcfg as (cfg & Hcfg). exists cfg.
  split; [exact Hcfg |].
  split; [destruct r; try discriminate; inversion Hcfg; subst; vm_compute; discriminate |].
  split; [destruct r; try discriminate; inversion Hcfg; subst; vm_compute; discriminate |].
  split; [destruct r; try discriminate; inversion Hcfg; subst; reflexivity |].
  split; [destruct r; try discriminate; inversion Hcfg; subst; reflexivity |].
  split; [intros rq; destruct r; try discriminate; reflexivity |].
  split; [intros template rq; apply analysis_handler_ensures, Ha |].
  split.
  - intros Hr k.
    destruct (blank_request_reaches_the_model E r k Ha Hr) as (cfg' & Hcfg' & Hin).
    rewrite Hcfg in Hcfg'. inversion Hcfg'; subst. exact Hin.
  - intros rq k.
    destruct (serve_answers E r rq (fresh k)) as (resp & w' & Hs).
    exists resp, w'. split; [exact Hs |].
    pose proof (analysis_routes_ensure E r rq Ha (fresh k) (Forall_nil _)) as He.
    rewrite Hs in He. apply He.
Qed.

(** C7, witness: the conversation route. *)
Lemma generation_config_is_fixed_per_route_witness :
  exists cfg,
    route_config AnalyzeConversation = Some cfg
    /\ dec_le (dec 3 1) (temperature cfg)
    /\ dec_le (temperature cfg) (dec 5 1)
    /\ response_mime_type cfg = Some application_json
    /\ max_output_tokens cfg = Some 8192%Z
    /\ (forall rq,
           view (Demo.env false (Some (u "not json"))) rq AnalyzeConversation
           = limiter_limit (Demo.env false (Some (u "not json")))
               (route_quota AnalyzeConversation)
               (validate_api_key rq
                  (analysis_handler (Demo.env false (Some (u "not json")))
                     AnalyzeConversation (route_template AnalyzeConversation) rq)))
    /\ (forall template rq,
           ensures (generates_with AnalyzeConversation)
             (analysis_handler (Demo.env false (Some (u "not json")))
                AnalyzeConversation template rq)
             (fun _ => True))
    /\ (AnalyzeConversation <> IdentifySpeakers ->
        forall k,
          In (EvGenerate gemini_model [] cfg)
            (trace (snd (analysis_handler (Demo.env false (Some (u "not json")))
                           AnalyzeConversation []
                           (blank_request AnalyzeConversation) (fresh k)))))
    /\ (forall rq k,
           exists resp w',
             serve (Demo.env false (Some (u "not json"))) AnalyzeConversation rq (fresh k)
             = (Ok resp, w')
             /\ Forall (generates_with AnalyzeConversation) (trace w')).
Proof.
  apply (generation_config_is_fixed_per_route
           (Demo.env false (Some (u "not json"))) AnalyzeConversation).
  reflexivity.
Defined.

(** A template that is its [conversation] field alone renders, and the
    handler of the conversation route then calls the model once, with the
    sanitized conversation as the prompt and the configuration of the
    route. *)
Example rendered_template_reaches_the_model :
  trace (snd (analysis_handler (Demo.env false (Some (u "not json")))
                AnalyzeConversation (u "{conversation}")
                (json_request None
                   (PDict [(u "conversation", PList [PStr (u "Alice: Hi")]);
                           (u "speakers", PList [PStr (u "Alice")])]))
                (fresh 0)))
  = [EvGetJson;
     EvGenerate gemini_model one_line_prompt
       {| temperature := dec 4 1;
          response_mime_type := Some (u "application/json");
          max_output_tokens := Some 8192%Z |}].
Proof. vm_compute. reflexivity. Qed.

(** C7, as stated, fails: the model call of the speaker-identification
    route carries no [max_output_tokens] at all. *)
Lemma identify_speakers_sets_no_output_cap :
  exists resp w' name prompt cfg,
    serve (Demo.env false (Some (u "not json"))) IdentifySpeakers
      (json_request Demo.bearer (PDict [(u "text", PStr (u "Alice: Hi"))])) (fresh 0)
    = (Ok resp, w')
    /\ In (EvGenerate name prompt cfg) (trace w')
    /\ max_output_tokens cfg = None.
Proof.
  do 5 eexists. split; [vm_compute; reflexivity |].
  split; [right; right; right; left; reflexivity | reflexivity].
Qed.

(* ================================================================== *)
(** ** Admission order *)

(** C3, amended.  On a route behind [validate_api_key], a request without a
    bearer-shaped header meets the limiter first.  Under quota it is
    answered 401 by the decorator: the request has then touched the limiter
    and the authorization check and nothing else (the body is not parsed,
    the model is not called, the clock is not read).  Over quota it is
    answered 429 before its header is looked at. *)
Theorem unauthorized_is_decided_after_the_limiter :
  forall (E : Env) (r : route) (rq : Request) (k : nat),
    requires_auth r = true ->
    bearer_shaped (authorization rq) = false ->
    (over_quota E (route_quota r) = false ->
       serve E r rq (fresh k) =
         (Ok {| json := unauthorized_body; status_code := 401 |},
          {| ticks := k; trace := [EvRateLimit (route_quota r); EvAuthCheck] |}))
    /\ (over_quota E (route_quota r) = true ->
          exists resp,
            serve E r rq (fresh k) =
              (Ok resp, {| ticks := S k; trace := [EvRateLimit (route_quota r)] |})
            /\ status_code resp = 429).
Proof.
  intros E r rq k Hr Hb.
  destruct r; try discriminate;
    (split; intros Hq;
     unfold serve, view, limiter_limit, try_except, bind, emit;
     cbn [route_quota] in Hq; cbn [fresh ticks trace app]; rewrite Hq;
     [ rewrite validate_api_key_rejects by exact Hb; reflexivity
     | eexists; split; reflexivity ]).
Qed.

(** C3, witness: a deletion request with no Authorization header. *)
Lemma unauthorized_is_decided_after_the_limiter_witness :
  (over_quota (Demo.env false None) (route_quota UserDelete) = false ->
     serve (Demo.env false None) UserDelete
       (json_request None (PDict [(u "user_hash", PStr (u "user"))])) (fresh 0) =
       (Ok {| json := unauthorized_body; status_code := 401 |},
        {| ticks := 0; trace := [EvRateLimit (route_quota UserDelete); EvAuthCheck] |}))
  /\ (over_quota (Demo.env false None) (route_quota UserDelete) = true ->
        exists resp,
          serve (Demo.env false None) UserDelete
            (json_request None (PDict [(u "user_hash", PStr (u "user"))])) (fresh 0) =
            (Ok resp, {| ticks := 1; trace := [EvRateLimit (route_quota UserDelete)] |})
          /\ status_code resp = 429).
Proof.
  apply (unauthorized_is_decided_after_the_limiter
           (Demo.env false None) UserDelete
           (json_request None (PDict [(u "user_hash", PStr (u "user"))])) 0).
  - reflexivity.
  - reflexivity.
Defined.

(** C3, as stated, fails: a caller over quota who sends no header is
    answered 429, not 401, and under quota the limiter has been evaluated
    by the time the 401 is returned. *)
Lemma rate_limit_precedes_authorization :
  (exists resp w',
     serve (Demo.env true None) UserDelete
       (json_request None (PDict [(u "user_hash", PStr (u "user"))])) (fresh 0)
     = (Ok resp, w')
     /\ status_code resp = 429
     /\ trace w' = [EvRateLimit (u "5 per minute")])
  /\ (exists resp w',
        serve (Demo.env false None) UserDelete
          (json_request None (PDict [(u "user_hash", PStr (u "user"))])) (fresh 0)
        = (Ok resp, w')
        /\ status_code resp = 401
        /\ trace w' = [EvRateLimit (u "5 per minute"); EvAuthCheck]).
Proof.
  split; eexists; eexists; (split; [vm_compute; reflexivity |]);
    split; reflexivity.
Qed.

(* ================================================================== *)
(** ** Running a handler on a given request *)

Lemma dict_get_truthy (k : pystr) (d : pydict) (v : pyval) :
  dict_get k d = Some v -> truthy (PDict d) = true.
Proof. destruct d; [discriminate | reflexivity]. Qed.

Lemma dict_get_in (k : pystr) (d : pydict) (v : pyval) :
  dict_get k d = Some v -> py_in k (PDict d) = Ok true.
Proof. intros H. unfold py_in, dict_has. rewrite H. reflexivity. Qed.

Lemma dict_get_getitem (k : pystr) (d : pydict) (v : pyval) :
  dict_get k d = Some v -> py_getitem (PDict d) k = Ok v.
Proof. intros H. unfold py_getitem. rewrite H. reflexivity. Qed.

Lemma truthy_str (s : pystr) : s <> [] -> truthy (PStr s) = true.
Proof. destruct s; [congruence | reflexivity]. Qed.

Lemma sanitize_input_text (E : Env) (t : pystr) :
  t <> [] -> sanitize_input E (PStr t) = Ok (slice_to 50000 (bleach_clean E t)).
Proof. destruct t; [congruence | reflexivity]. Qed.

(** Reduce the monadic plumbing and leave the Python operations folded. *)
Ltac run :=
  cbn -[truthy py_in py_getitem py_get py_len py_slice_to sanitize_input slice_to
        SPEAKER_IDENTIFICATION_PROMPT u fstr str_of_nat first_missing
        identify_speakers_fallback sha256_of fstr_value].

(** Past the two decorators, for a caller under quota with a bearer token. *)
Ltac enter_view Hq Hb :=
  unfold serve, view, limiter_limit, try_except, bind, emit;
  cbn [fresh ticks trace app route_quota] in *;
  rewrite Hq;
  rewrite validate_api_key_accepts by exact Hb.

(** The speaker-identification handler up to the model's reply: a request
    that is admitted, carries a text that survives sanitization, and a
    model that answers. *)
Section IdentifySpeakersRun.

Variable E : Env.
Variable rq : Request.
Variable k : nat.
Variables (d : pydict) (t text reply : pystr).

Hypothesis Hbearer : bearer_shaped (authorization rq) = true.
Hypothesis Hquota : over_quota E (route_quota IdentifySpeakers) = false.
Hypothesis Hbody : payload rq = BodyJson (PDict d).
Hypothesis Htext : dict_get (u "text") d = Some (PStr t).
Hypothesis Hnonempty : t <> [].
Hypothesis Hclean : slice_to 50000 (bleach_clean E t) = text.
Hypothesis Hkept : text <> [].
Hypothesis Hreply :
  gemini E gemini_model (SPEAKER_IDENTIFICATION_PROMPT ++ text) identify_speakers_config
  = Some reply.

Lemma identify_speakers_after_reply :
  serve E IdentifySpeakers rq (fresh k) =
    try_except
      (try_except
         (result <- loads_or E reply (identify_speakers_fallback reply) ;;
          speakers <- lift (py_get result (u "speakers_identified") (PList [])) ;;
          n <- lift (py_len speakers) ;;
          envelope <- create_accessible_response E result
                        (fstr [u "Identified "; str_of_nat n;
                               u " speakers in the conversation"]) ;;
          ret (jsonify envelope))
         (fun e =>
            logger ERROR (u "Speaker identification error: ") ;;
            create_error_response E (u "Analysis failed")
              (u "Unable to process the conversation. Please try again.") 500))
      (fun _ => internal_error E)
      {| ticks := k; trace := identify_speakers_trace text |}.
Proof.
  enter_view Hquota Hbearer.
  unfold identify_speakers, try_except, bind, get_json, emit, ret, lift.
  run. rewrite Hbody. run.
  rewrite (dict_get_truthy _ _ _ Htext). run.
  rewrite (dict_get_in _ _ _ Htext). run.
  rewrite (dict_get_getitem _ _ _ Htext). run.
  rewrite (sanitize_input_text E t Hnonempty), Hclean. run.
  rewrite (truthy_str text Hkept). run.
  unfold generate_content, bind, emit. run.
  rewrite Hreply. reflexivity.
Qed.

End IdentifySpeakersRun.

(** C4, amended.  When the reply of the model is not JSON, the
    speaker-identification route answers 200 with the fallback result: the
    two placeholder speakers [Speaker 1] and [Speaker 2] (not an empty
    list), an empty message list, the confidence 0.5, and the raw reply
    under both [analysis_notes] and [raw_response]. *)
Theorem identify_speakers_fallback_result :
  forall (E : Env) (rq : Request) (k : nat) (d : pydict) (t text reply : pystr),
    bearer_shaped (authorization rq) = true ->
    over_quota E (route_quota IdentifySpeakers) = false ->
    payload rq = BodyJson (PDict d) ->
    dict_get (u "text") d = Some (PStr t) ->
    t <> [] ->
    slice_to 50000 (bleach_clean E t) = text ->
    text <> [] ->
    gemini E gemini_model (SPEAKER_IDENTIFICATION_PROMPT ++ text) identify_speakers_config
      = Some reply ->
    json_loads E reply = Raise JSONDecodeError ->
    exists resp w',
      serve E IdentifySpeakers rq (fresh k) = (Ok resp, w')
      /\ status_code resp = 200
      /\ field (u "success") (json resp) = Some (PBool true)
      /\ field (u "message") (json resp)
         = Some (PStr (u "Identified 2 speakers in the conversation"))
      /\ data_field (u "speakers_identified") resp
         = Some (PList [PStr (u "Speaker 1"); PStr (u "Speaker 2")])
      /\ data_field (u "messages") resp = Some (PList [])
      /\ data_field (u "confidence_overall") resp = Some (PFloat (FDec false 5 (-1)))
      /\ data_field (u "analysis_notes") resp = Some (PStr reply)
      /\ data_field (u "raw_response") resp = Some (PStr reply).
Proof.
  intros E rq k d t text reply Hb Hq Hp Hd Ht Hc Hx Hg Hj.
  rewrite (identify_speakers_after_reply E rq k d t text reply Hb Hq Hp Hd Ht Hc Hx Hg).
  unfold try_except, bind, loads_or. rewrite Hj.
  eexists; eexists; split; [reflexivity |].
  repeat split; reflexivity.
Qed.

(** C4, witness: the model answers [not json]. *)
Lemma identify_speakers_fallback_result_witness :
  exists resp w',
    serve (Demo.env false (Some (u "not json"))) IdentifySpeakers
      (json_request Demo.bearer (PDict [(u "text", PStr (u "Alice: Hi"))])) (fresh 0)
    = (Ok resp, w')
    /\ status_code resp = 200
    /\ field (u "success") (json resp) = Some (PBool true)
    /\ field (u "message") (json resp)
       = Some (PStr (u "Identified 2 speakers in the conversation"))
    /\ data_field (u "speakers_identified") resp
       = Some (PList [PStr (u "Speaker 1"); PStr (u "Speaker 2")])
    /\ data_field (u "messages") resp = Some (PList [])
    /\ data_field (u "confidence_overall") resp = Some (PFloat (FDec false 5 (-1)))
    /\ data_field (u "analysis_notes") resp = Some (PStr (u "not json"))
    /\ data_field (u "raw_response") resp = Some (PStr (u "not json")).
Proof.
  apply (identify_speakers_fallback_result
           (Demo.env false (Some (u "not json")))
           (json_request Demo.bearer (PDict [(u "text", PStr (u "Alice: Hi"))])) 0
           [(u "text", PStr (u "Alice: Hi"))] (u "Alice: Hi") (u "Alice: Hi")
           (u "not json")).
  - reflexivity.
  - reflexivity.
  - reflexivity.
  - reflexivity.
  - discriminate.
  - vm_compute; reflexivity.
  - discriminate.
  - reflexivity.
  - vm_compute; reflexivity.
Defined.

(** C4, as stated, fails: the speaker list of the fallback is not empty. *)
Lemma fallback_speaker_list_is_not_empty :
  exists resp w',
    serve (Demo.env false (Some (u "not json"))) IdentifySpeakers
      (json_request Demo.bearer (PDict [(u "text", PStr (u "Alice: Hi"))])) (fresh 0)
    = (Ok resp, w')
    /\ Json.loads (u "not json") = Raise JSONDecodeError
    /\ data_field (u "speakers_identified") resp
       = Some (PList [PStr (u "Speaker 1"); PStr (u "Speaker 2")])
    /\ data_field (u "speakers_identified") resp <> Some (PList []).
Proof.
  eexists; eexists; split; [vm_compute; reflexivity |].
  split; [vm_compute; reflexivity |]. split; [reflexivity | discriminate].
Qed.

(** A reply that parses to an object whose [speakers_identified] has no
    length: [len] raises inside the outer [try], and the generic handler
    answers. *)
Lemma unsized_speakers_answered_500 :
  forall (E : Env) (rq : Request) (k : nat) (d : pydict) (t text reply : pystr)
         (parsed : pydict) (v : pyval),
    bearer_shaped (authorization rq) = true ->
    over_quota E (route_quota IdentifySpeakers) = false ->
    payload rq = BodyJson (PDict d) ->
    dict_get (u "text") d = Some (PStr t) ->
    t <> [] ->
    slice_to 50000 (bleach_clean E t) = text ->
    text <> [] ->
    gemini E gemini_model (SPEAKER_IDENTIFICATION_PROMPT ++ text) identify_speakers_config
      = Some reply ->
    json_loads E reply = Ok (PDict parsed) ->
    dict_get (u "speakers_identified") parsed = Some v ->
    py_len v = Raise TypeError ->
    exists resp w',
      serve E IdentifySpeakers rq (fresh k) = (Ok resp, w')
      /\ status_code resp = 500
      /\ field (u "success") (json resp) = Some (PBool false)
      /\ field (u "error") (json resp) = Some (PStr (u "Analysis failed")).
Proof.
  intros E rq k d t text reply parsed v Hb Hq Hp Hd Ht Hc Hx Hg Hj Hs Hl.
  rewrite (identify_speakers_after_reply E rq k d t text reply Hb Hq Hp Hd Ht Hc Hx Hg).
  unfold try_except, bind, loads_or, lift, py_get. rewrite Hj. cbn [ret].
  rewrite Hs, Hl.
  eexists; eexists; split; [reflexivity |].
  repeat split; reflexivity.
Qed.

(** C9.  Some reply is valid JSON and still ends in the 500 envelope: the
    reply above parses to an object whose [speakers_identified] is the
    number 5, [len] of a number raises [TypeError], and the request, which
    did reach the model, is answered [Analysis failed]. *)
Theorem valid_json_reply_can_end_in_500 :
  exists reply parsed,
    Json.loads reply = Ok (PDict parsed)
    /\ dict_get (u "speakers_identified") parsed = Some (PInt 5)
    /\ py_len (PInt 5) = Raise TypeError
    /\ exists resp w',
         serve (Demo.env false (Some reply)) IdentifySpeakers
           (json_request Demo.bearer (PDict [(u "text", PStr (u "Alice: Hi"))])) (fresh 0)
         = (Ok resp, w')
         /\ status_code resp = 500
         /\ error_envelope (json resp) = true
         /\ field (u "error") (json resp) = Some (PStr (u "Analysis failed"))
         /\ existsb is_generate (trace w') = true.
Proof.
  exists reply_with_a_count. eexists.
  split; [vm_compute; reflexivity |].
  split; [reflexivity |]. split; [reflexivity |].
  eexists; eexists; split; [vm_compute; reflexivity |].
  repeat split; reflexivity.
Qed.

(* ================================================================== *)
(** ** Bodies that are not objects *)

(** The speaker-identification handler tests [not data] first, and answers
    the body [null] with 400. *)
Lemma identify_speakers_null_body :
  forall (E : Env) (rq : Request) (k : nat),
    bearer_shaped (authorization rq) = true ->
    over_quota E (route_quota IdentifySpeakers) = false ->
    payload rq = BodyJson PNone ->
    exists resp w',
      serve E IdentifySpeakers rq (fresh k) = (Ok resp, w')
      /\ status_code resp = 400
      /\ field (u "success") (json resp) = Some (PBool false)
      /\ Forall no_generate (trace w').
Proof.
  intros E rq k Hb Hq Hp. enter_view Hq Hb.
  unfold identify_speakers, try_except, bind, get_json, emit, ret, lift.
  cbn. rewrite Hp. cbn.
  eexists; eexists; split; [reflexivity |].
  repeat split; try reflexivity. repeat constructor.
Qed.

(** C6, at its failing input.  The other four analysis handlers test
    [field not in data] with no guard: on the body [null] the test raises
    [TypeError], and the request is answered 500, not 400.  (No model call
    is made on the way.) *)
Theorem null_body_is_answered_500 :
  forall (E : Env) (r : route) (rq : Request) (k : nat),
    is_analysis r = true -> r <> IdentifySpeakers ->
    bearer_shaped (authorization rq) = true ->
    over_quota E (route_quota r) = false ->
    payload rq = BodyJson PNone ->
    exists resp w',
      serve E r rq (fresh k) = (Ok resp, w')
      /\ status_code resp = 500
      /\ field (u "success") (json resp) = Some (PBool false)
      /\ field (u "error") (json resp) = Some (PStr (u "Analysis failed"))
      /\ Forall no_generate (trace w').
Proof.
  intros E r rq k Ha Hr Hb Hq Hp.
  destruct r; try discriminate; try congruence; enter_view Hq Hb;
    unfold analyze_conversation, analyze_conversation_with, analyze_response_impact,
      analyze_response_impact_with, analyze_profile, analyze_profile_with,
      analyze_self_profile, analyze_self_profile_with, try_except, bind, get_json, emit,
      ret, lift;
    cbn; rewrite Hp; cbn;
    (eexists; eexists; split; [reflexivity |]);
    repeat split; try reflexivity; repeat constructor.
Qed.

(** C6, witness: the conversation route, a bearer token, the body [null]. *)
Lemma null_body_is_answered_500_witness :
  exists resp w',
    serve (Demo.env false (Some (u "not json"))) AnalyzeConversation
      (json_request Demo.bearer PNone) (fresh 0)
    = (Ok resp, w')
    /\ status_code resp = 500
    /\ field (u "success") (json resp) = Some (PBool false)
    /\ field (u "error") (json resp) = Some (PStr (u "Analysis failed"))
    /\ Forall no_generate (trace w').
Proof.
  apply (null_body_is_answered_500
           (Demo.env false (Some (u "not json"))) AnalyzeConversation
           (json_request Demo.bearer PNone) 0).
  - reflexivity.
  - discriminate.
  - reflexivity.
  - reflexivity.
  - reflexivity.
Defined.

(* ================================================================== *)
(** ** Hash-derived identifiers *)

Lemma sha256_of_encodable (E : Env) (s : pystr) :
  encodable s = true -> sha256_of E s = Ok (sha256_hexdigest E s).
Proof.
  unfold sha256_of. intros H. rewrite H. reflexivity.
Qed.

Lemma dict_has_in (k : pystr) (d : pydict) : py_in k (PDict d) = Ok (dict_has k d).
Proof. reflexivity. Qed.

Lemma dict_get_has (k : pystr) (d : pydict) (v : pyval) :
  dict_get k d = Some v -> dict_has k d = true.
Proof. intros H. unfold dict_has. rewrite H. reflexivity. Qed.

Lemma py_slice_to_str (n : N) (s : pystr) :
  py_slice_to n (PStr s) = Ok (PStr (slice_to n s)).
Proof. reflexivity. Qed.

Section Identifiers.

Variable E : Env.
Variable a : option pystr.
Variables (d1 d2 : pydict) (h1 h2 : pystr).
Variable k : nat.

Hypothesis Hh1 : dict_get (u "user_hash") d1 = Some (PStr h1).
Hypothesis Hh2 : dict_get (u "user_hash") d2 = Some (PStr h2).
Hypothesis Hsame : slice_to 64 h1 = slice_to 64 h2.






End Identifiers.



(** The ordinary deletion body holds the hash and nothing else: two such
    bodies that agree on the first 64 characters get the same response. *)
Example deletion_needs_only_the_hash :
  serve (Demo.env false None) UserDelete
    (json_request Demo.bearer (PDict [(u "user_hash", PStr (repeat 97%N 200))])) (fresh 0)
  = serve (Demo.env false None) UserDelete
      (json_request Demo.bearer
         (PDict [(u "user_hash", PStr (repeat 97%N 64 ++ repeat 98%N 10))])) (fresh 0)
  /\ status_of
       (serve (Demo.env false None) UserDelete
          (json_request Demo.bearer (PDict [(u "user_hash", PStr (repeat 97%N 200))]))
          (fresh 0)) = Some 200.
Proof. split; vm_compute; reflexivity. Qed.

(* ================================================================== *)
(** ** The behavior categories *)

(** C10.  Two calls of the categories endpoint that the limiter admits are
    both answered 200 with the same category list, whatever the clock
    reads and whatever the requests carry: the list is computed from the
    default library, whose categories are empty. *)
Theorem behavior_categories_are_stable :
  forall (E : Env) (rq1 rq2 : Request) (k1 k2 : nat),
    over_quota E (u "1000 per day") = false ->
    over_quota E (u "100 per hour") = false ->
    exists resp1 w1 resp2 w2,
      serve E BehaviorCategories rq1 (fresh k1) = (Ok resp1, w1)
      /\ serve E BehaviorCategories rq2 (fresh k2) = (Ok resp2, w2)
      /\ status_code resp1 = 200
      /\ status_code resp2 = 200
      /\ data_field (u "categories") resp1 = Some (PList [])
      /\ data_field (u "categories") resp2 = data_field (u "categories") resp1.
Proof.
  intros E rq1 rq2 k1 k2 Hday Hhour.
  unfold serve, view, limiter_default, limiter_limit, try_except, bind, emit.
  cbn [fresh ticks trace app]. rewrite Hday, Hhour.
  do 4 eexists. split; [reflexivity |]. split; [reflexivity |].
  repeat split; reflexivity.
Qed.

(** C10, witness: two calls, the second after the clock has moved. *)
Lemma behavior_categories_are_stable_witness :
  exists resp1 w1 resp2 w2,
    serve (Demo.env false None) BehaviorCategories (json_request None PNone) (fresh 0)
    = (Ok resp1, w1)
    /\ serve (Demo.env false None) BehaviorCategories
         (json_request Demo.bearer (PDict [])) (fresh 7)
       = (Ok resp2, w2)
    /\ status_code resp1 = 200
    /\ status_code resp2 = 200
    /\ data_field (u "categories") resp1 = Some (PList [])
    /\ data_field (u "categories") resp2 = data_field (u "categories") resp1.
Proof.
  apply (behavior_categories_are_stable (Demo.env false None)
           (json_request None PNone) (json_request Demo.bearer (PDict [])) 0 7).
  - reflexivity.
  - reflexivity.
Defined.

(* ================================================================== *)
(** ** The sanitizer *)


Lemma slice_to_all {A} (n : N) (s : list A) :
  (N.of_nat (length s) <= n)%N -> slice_to n s = s.
Proof. intros H. unfold slice_to. apply firstn_all2. lia. Qed.







(** What the sanitizer of the concrete environment returns: tags go, the
    accent and the line break stay (the carriage return as a newline), a
    long text is cut, and [None] gives the empty text. *)
Example sanitize_input_demo :
  sanitize_input (Demo.env false None)
    (PStr (u "<b>Alice</b>: caf" ++ [233; 13; 10]%N ++ u "Bob: 5 > 3"))
  = Ok (u "Alice: caf" ++ [233; 10]%N ++ u "Bob: 5 &gt; 3")
  /\ sanitize_input (Demo.env false None) (PStr (repeat 97%N (N.to_nat 60000)))
     = Ok (repeat 97%N (N.to_nat 50000))
  /\ sanitize_input (Demo.env false None) PNone = Ok [].
Proof. repeat split; vm_compute; reflexivity. Qed.

(* ================================================================== *)
(** ** Missing fields *)

Lemma first_missing_found (fields : list pystr) (d : pydict) :
  (exists f, In f fields /\ dict_has f d = false) ->
  exists f', first_missing fields (PDict d) = Ok (Some f').
Proof.
  induction fields as [|g fields IH]; intros (f & Hin & Hf); [destruct Hin |].
  cbn [first_missing py_in and_then].
  destruct (dict_has g d) eqn:Hg.
  - apply IH. destruct Hin as [-> | Hin]; [congruence |]. exists f. split; assumption.
  - exists g. reflexivity.
Qed.

(** X1.  When the body is a JSON object that lacks a field the route
    requires, an admitted request is answered 400 with [success] false; it
    has then met the limiter and the authorization check and had its body
    parsed, and nothing else: the model has not been called. *)
Theorem missing_field_is_answered_400 :
  forall (E : Env) (r : route) (rq : Request) (k : nat) (d : pydict),
    is_analysis r = true ->
    bearer_shaped (authorization rq) = true ->
    over_quota E (route_quota r) = false ->
    payload rq = BodyJson (PDict d) ->
    (exists f, In f (required_fields r) /\ dict_has f d = false) ->
    exists resp,
      serve E r rq (fresh k) =
        (Ok resp, {| ticks := S k;
                     trace := [EvRateLimit (route_quota r); EvAuthCheck; EvGetJson] |})
      /\ status_code resp = 400
      /\ field (u "success") (json resp) = Some (PBool false).
Proof.
  intros E r rq k d Ha Hb Hq Hp Hm.
  destruct r; try discriminate; enter_view Hq Hb.
  - destruct Hm as (f & [<- | []] & Hf).
    unfold identify_speakers, try_except, bind, get_json, emit, ret, lift.
    run. rewrite Hp. run.
    destruct d as [|p d]; [cbn | rewrite dict_has_in, Hf; cbn];
      (eexists; split; [reflexivity |]); split; reflexivity.
  - destruct (first_missing_found _ d Hm) as (f' & Hf').
    unfold analyze_conversation, analyze_conversation_with, try_except, bind, get_json,
      emit, ret, lift.
    run. rewrite Hp. run. cbn [required_fields] in Hf'. rewrite Hf'. run.
    eexists; split; [reflexivity |]. split; reflexivity.
  - destruct (first_missing_found _ d Hm) as (f' & Hf').
    unfold analyze_response_impact, analyze_response_impact_with, try_except, bind,
      get_json, emit, ret, lift.
    run. rewrite Hp. run. cbn [required_fields] in Hf'. rewrite Hf'. run.
    eexists; split; [reflexivity |]. split; reflexivity.
  - destruct Hm as (f & [<- | []] & Hf).
    unfold analyze_profile, analyze_profile_with, try_except, bind, get_json, emit, ret, lift.
    run. rewrite Hp. run. rewrite dict_has_in, Hf. run.
    eexists; split; [reflexivity |]. split; reflexivity.
  - destruct Hm as (f & [<- | []] & Hf).
    unfold analyze_self_profile, analyze_self_profile_with, try_except, bind, get_json,
      emit, ret, lift.
    run. rewrite Hp. run. rewrite dict_has_in, Hf. run.
    eexists; split; [reflexivity |]. split; reflexivity.
Qed.

(** X1, witness: a conversation request without [speakers]. *)
Lemma missing_field_is_answered_400_witness :
  exists resp,
    serve (Demo.env false None) AnalyzeConversation
      (json_request Demo.bearer (PDict [(u "conversation", PStr (u "text"))])) (fresh 0) =
      (Ok resp, {| ticks := 1;
                   trace := [EvRateLimit (route_quota AnalyzeConversation);
                             EvAuthCheck; EvGetJson] |})
    /\ status_code resp = 400
    /\ field (u "success") (json resp) = Some (PBool false).
Proof.
  apply (missing_field_is_answered_400 (Demo.env false None) AnalyzeConversation
           (json_request Demo.bearer (PDict [(u "conversation", PStr (u "text"))])) 0
           [(u "conversation", PStr (u "text"))]).
  - reflexivity.
  - reflexivity.
  - reflexivity.
  - reflexivity.
  - exists (u "speakers"). split; [right; left; reflexivity | reflexivity].
Defined.

(* ================================================================== *)
(** ** Rendering the prompts *)

(** X2.  None of the four templates that are rendered with [str.format]
    can be rendered: each raises [KeyError] at the opening brace of its own JSON
    example, whatever texts are substituted. *)
Theorem prompt_templates_do_not_render :
  forall a b c : pystr,
    py_format CONVERSATION_ANALYSIS_PROMPT
      [(u "speakers", a); (u "behavior_categories", b); (u "conversation", c)]
    = Raise (KeyError (summary_key "summary"))
    /\ py_format RESPONSE_IMPACT_PROMPT
         [(u "user_speaker", a); (u "draft_response", b); (u "conversation", c)]
       = Raise (KeyError (summary_key "impact_analysis"))
    /\ py_format PROFILE_ANALYSIS_PROMPT [(u "profile_data", a)]
       = Raise (KeyError (summary_key "profile_summary"))
    /\ py_format SELF_PROFILE_PROMPT [(u "user_data", a)]
       = Raise (KeyError (summary_key "honest_summary")).
Proof.
  intros a b c. split; [| split; [| split]].
  - apply format_conversation_raises.
  - apply format_response_impact_raises.
  - apply format_profile_raises.
  - apply format_self_profile_raises.
Qed.

(** [str.format] on small templates, as Python answers them. *)
Example py_format_examples :
  py_format (u "{{x}}") [] = Ok (u "{x}")
  /\ py_format (u "x{a}y{b}") [(u "a", u "A"); (u "b", u "B")] = Ok (u "xAyB")
  /\ py_format (u "{a[}") [(u "a", u "A")] = Raise ValueError
  /\ py_format (u "{a{b}}") [(u "a", u "A")] = Raise ValueError
  /\ py_format (u "{0}") [(u "a", u "A")] = Raise IndexError
  /\ py_format (u "{}") [(u "a", u "A")] = Raise IndexError
  /\ py_format (u "{") [] = Raise ValueError
  /\ py_format (u "a}") [] = Raise ValueError
  /\ py_format (u "{c}") [(u "a", u "A")] = Raise (KeyError (u "c")).
Proof. repeat split; reflexivity. Qed.

(* ================================================================== *)
(** ** The scenarios of the test suite *)

(** The requests of [tests/test_api.py], answered in the concrete
    environment with the status codes the tests expect. *)
Example test_suite_status_codes :
  let quiet := Demo.env false None in
  let text_body := PDict [(u "text", PStr (u "hello"))] in
  (* TestAuthValidation *)
  status_of (serve quiet IdentifySpeakers (json_request None text_body) (fresh 0))
    = Some 401
  /\ status_of (serve quiet IdentifySpeakers
                  (json_request (Some (u "InvalidFormat")) text_body) (fresh 0))
     = Some 401
  /\ status_of (serve quiet IdentifySpeakers
                  (json_request (Some (u "Token abc")) text_body) (fresh 0))
     = Some 401
  (* TestIdentifySpeakers *)
  /\ status_of (serve quiet IdentifySpeakers (json_request Demo.bearer (PDict [])) (fresh 0))
     = Some 400
  /\ status_of (serve quiet IdentifySpeakers
                  (json_request Demo.bearer (PDict [(u "text", PStr [])])) (fresh 0))
     = Some 400
  /\ status_of (serve (Demo.env false (Some reply_with_two_speakers)) IdentifySpeakers
                  (json_request Demo.bearer text_body) (fresh 0))
     = Some 200
  /\ status_of (serve (Demo.env false (Some (u "This is not valid JSON"))) IdentifySpeakers
                  (json_request Demo.bearer text_body) (fresh 0))
     = Some 200
  /\ status_of (serve quiet IdentifySpeakers (json_request Demo.bearer text_body) (fresh 0))
     = Some 500
  (* TestAnalyzeConversation, TestAnalyzeProfile: missing fields *)
  /\ status_of (serve quiet AnalyzeConversation
                  (json_request Demo.bearer (PDict [(u "speakers", PList [])])) (fresh 0))
     = Some 400
  /\ status_of (serve quiet AnalyzeProfile (json_request Demo.bearer (PDict [])) (fresh 0))
     = Some 400
  (* TestBehaviorLibrary *)
  /\ status_of (serve quiet Behaviors (json_request None PNone) (fresh 0)) = Some 200
  /\ status_of (serve quiet BehaviorCategories (json_request None PNone) (fresh 0))
     = Some 200
  (* TestSyncUpload, TestSyncDownload, TestDeleteUserData *)
  /\ status_of (serve quiet SyncUpload
                  (json_request Demo.bearer (PDict [(u "encrypted_data", PStr (u "abc"))]))
                  (fresh 0))
     = Some 400
  /\ status_of (serve quiet SyncUpload
                  (json_request Demo.bearer
                     (PDict [(u "encrypted_data", PStr (u "blob"));
                             (u "user_hash", PStr (repeat 97%N 200))]))
                  (fresh 0))
     = Some 200
  /\ status_of (serve quiet SyncDownload
                  (json_request Demo.bearer (PDict [(u "user_hash", PStr (u "new_user_123"))]))
                  (fresh 0))
     = Some 200
  /\ status_of (serve quiet UserDelete
                  (json_request Demo.bearer (PDict [(u "user_hash", PStr (u "user"))]))
                  (fresh 0))
     = Some 200
  /\ status_of (serve quiet UserDelete
                  (json_request None (PDict [(u "user_hash", PStr (u "user"))])) (fresh 0))
     = Some 401
  (* TestErrorHandlers *)
  /\ status_of (not_found quiet (fresh 0)) = Some 404.
Proof. cbv zeta. repeat split; vm_compute; reflexivity. Qed.

(** The scenario "valid JSON with two speakers": the data carries the two
    speakers and the message counts them. *)
Example two_speakers_scenario :
  exists resp w',
    serve (Demo.env false (Some reply_with_two_speakers)) IdentifySpeakers
      (json_request Demo.bearer
         (PDict [(u "text", PStr (u "Alice: Hi" ++ [10%N] ++ u "Bob: Hey"))]))
      (fresh 0)
    = (Ok resp, w')
    /\ status_code resp = 200
    /\ field (u "success") (json resp) = Some (PBool true)
    /\ data_field (u "speakers_identified") resp
       = Some (PList [PStr (u "Alice"); PStr (u "Bob")])
    /\ field (u "message") (json resp)
       = Some (PStr (u "Identified 2 speakers in the conversation")).
Proof.
  eexists; eexists; split; [vm_compute; reflexivity |]. repeat split; reflexivity.
Qed.

(** A body that is a number has no [in]: every analysis route, the
    speaker-identification route included, answers it with 500. *)
Example scalar_body_is_answered_500 :
  status_of (serve (Demo.env false None) IdentifySpeakers
               (json_request Demo.bearer (PInt 5)) (fresh 0)) = Some 500
  /\ status_of (serve (Demo.env false None) AnalyzeProfile
                  (json_request Demo.bearer (PInt 5)) (fresh 0)) = Some 500.
Proof. split; vm_compute; reflexivity. Qed.

(* ================================================================== *)
(** ** Over quota *)

(** X3.  On every route, a caller over the quota the limiter evaluates
    first is answered 429 with the body of the 429 handler; the request has
    then met the limiter and nothing else: its header is not read, its body
    is not parsed, the model is not called. *)
Theorem over_quota_is_answered_429 :
  forall (E : Env) (r : route) (rq : Request) (k : nat),
    over_quota E (route_quota r) = true ->
    serve E r rq (fresh k) =
      (Ok {| json := error_body (u "Rate Limit Exceeded")
                       (u "Too many requests. Please wait before trying again.")
                       (utc_iso E k);
             status_code := 429 |},
       {| ticks := S k; trace := [EvRateLimit (route_quota r)] |}).
Proof.
  intros E r rq k Hq.
  destruct r; unfold serve, view, limiter_default, limiter_limit, try_except, bind, emit;
    cbn [fresh ticks trace app route_quota] in *; rewrite Hq; reflexivity.
Qed.

(** X3, witness: the behavior library, which needs no header. *)
Lemma over_quota_is_answered_429_witness :
  serve (Demo.env true None) Behaviors (json_request None PNone) (fresh 0) =
    (Ok {| json := error_body (u "Rate Limit Exceeded")
                     (u "Too many requests. Please wait before trying again.")
                     (utc_iso (Demo.env true None) 0);
           status_code := 429 |},
     {| ticks := 1; trace := [EvRateLimit (route_quota Behaviors)] |}).
Proof.
  apply (over_quota_is_answered_429 (Demo.env true None) Behaviors
           (json_request None PNone) 0).
  reflexivity.
Defined.

(* ================================================================== *)
(** ** The token *)

Lemma view_reads_the_payload (E : Env) (r : route) (a1 a2 : option pystr)
    (p : body) (w : World) :
  bearer_shaped a1 = true -> bearer_shaped a2 = true ->
  view E {| authorization := a1; payload := p |} r w
  = view E {| authorization := a2; payload := p |} r w.
Proof.
  intros H1 H2.
  destruct r; cbn [view];
    unfold limiter_default, limiter_limit, bind, emit; cbn [ticks trace];
    repeat match goal with
           | |- context [over_quota E ?q] => destruct (over_quota E q)
           end;
    try reflexivity;
    rewrite !validate_api_key_accepts by assumption; reflexivity.
Qed.

(** X4.  [validate_api_key] looks at the prefix of the header and at
    nothing after it: on every route, two requests with the same body whose
    headers both start with [Bearer ] are answered identically, and leave
    the same trace.  The header [Bearer ] with no token at all is one of
    them. *)
Theorem token_is_never_examined :
  forall (E : Env) (r : route) (a1 a2 : option pystr) (p : body) (k : nat),
    bearer_shaped a1 = true ->
    bearer_shaped a2 = true ->
    serve E r {| authorization := a1; payload := p |} (fresh k)
    = serve E r {| authorization := a2; payload := p |} (fresh k)
    /\ serve E r {| authorization := a1; payload := p |} (fresh k)
       = serve E r {| authorization := Some (u "Bearer "); payload := p |} (fresh k).
Proof.
  intros E r a1 a2 p k H1 H2. unfold serve, try_except.
  split.
  - rewrite (view_reads_the_payload E r a1 a2 p (fresh k) H1 H2). reflexivity.
  - rewrite (view_reads_the_payload E r a1 (Some (u "Bearer ")) p (fresh k) H1 eq_refl).
    reflexivity.
Qed.

(** X4, witness: the token of the tests and another one. *)
Lemma token_is_never_examined_witness :
  serve (Demo.env false None) SyncDownload
    {| authorization := Demo.bearer;
       payload := BodyJson (PDict [(u "user_hash", PStr (u "abc"))]) |} (fresh 0)
  = serve (Demo.env false None) SyncDownload
      {| authorization := Some (u "Bearer not-a-real-token");
         payload := BodyJson (PDict [(u "user_hash", PStr (u "abc"))]) |} (fresh 0)
  /\ serve (Demo.env false None) SyncDownload
       {| authorization := Demo.bearer;
          payload := BodyJson (PDict [(u "user_hash", PStr (u "abc"))]) |} (fresh 0)
     = serve (Demo.env false None) SyncDownload
         {| authorization := Some (u "Bearer ");
            payload := BodyJson (PDict [(u "user_hash", PStr (u "abc"))]) |} (fresh 0).
Proof.
  apply (token_is_never_examined (Demo.env false None) SyncDownload
           Demo.bearer (Some (u "Bearer not-a-real-token"))
           (BodyJson (PDict [(u "user_hash", PStr (u "abc"))])) 0).
  - reflexivity.
  - reflexivity.
Defined.
(* ================================================================== *)
(** ** Where responses come from *)

Section Builders.

Variable phi : event -> Prop.
Variable E : Env.

Lemma ensures_error_built (error details : pystr) (code : nat) (Q : Response -> Prop) :
  (forall now, Q {| json := error_body error details now; status_code := code |}) ->
  ensures phi (create_error_response E error details code) Q.
Proof. intros HQ w Hw. split; [apply HQ | exact Hw]. Qed.

Lemma ensures_success_built (data : pyval) (message : pystr) (Q : Response -> Prop) :
  (forall now, Q (jsonify (success_body data message now))) ->
  ensures phi
    (envelope <- create_accessible_response E data message ;; ret (jsonify envelope)) Q.
Proof. intros HQ w Hw. split; [apply HQ | exact Hw]. Qed.

Lemma ensures_categories_view (Q : Response -> Prop) :
  (forall now,
      Q (jsonify (success_body (PDict [(u "categories", PList [])])
                    (u "Categories loaded") now))) ->
  ensures phi (behavior_categories_view E GET) Q.
Proof. intros HQ w Hw. split; [apply HQ | exact Hw]. Qed.

Lemma ensures_accepted (rq : Request) (f : M Response) (Q : Response -> Prop) :
  bearer_shaped (authorization rq) = true ->
  phi EvAuthCheck ->
  ensures phi f Q -> ensures phi (validate_api_key rq f) Q.
Proof.
  intros Hb Hphi Hf w Hw. rewrite validate_api_key_accepts by exact Hb.
  apply Hf. unfold traced in *. cbn. apply Forall_app. split; [exact Hw |].
  constructor; [exact Hphi | constructor].
Qed.

End Builders.

(** Walks a view: [leaf] closes what is asked of a response the view
    returns, [True] apart. *)
Ltac walk leaf :=
  lazymatch goal with
  | |- ensures _ (try_except _ _) _ =>
      apply ensures_try; [walk leaf | intros ?; walk leaf]
  | |- ensures _ (bind (lift (py_format _ _)) _) _ => format_cut
  | |- ensures _ (bind (create_accessible_response _ _ _) (fun e => ret (jsonify e))) _ =>
      apply ensures_success_built; intros ?; leaf
  | |- ensures _ (bind _ _) _ =>
      apply ensures_bind with (P := fun _ => True);
      [walk leaf | intros ? _; walk leaf]
  | |- ensures _ (if ?b then _ else _) _ => destruct b; walk leaf
  | |- ensures _ (match ?x with _ => _ end) _ => destruct x; walk leaf
  | |- ensures _ (ret _) (fun _ => True) => apply ensures_ret; exact I
  | |- ensures _ (ret _) _ => apply ensures_ret; leaf
  | |- ensures _ (raise _) _ => apply ensures_raise
  | |- ensures _ (lift _) _ => apply ensures_lift
  | |- ensures _ (emit _) _ => apply ensures_emit; side_solve
  | |- ensures _ (logger _ _) _ => apply ensures_emit; side_solve
  | |- ensures _ (utcnow_isoformat _) _ => apply ensures_utcnow
  | |- ensures _ (create_error_response _ _ _ _) (fun _ => True) =>
      apply ensures_error_built; intros ?; exact I
  | |- ensures _ (create_error_response _ _ _ _) _ =>
      apply ensures_error_built; intros ?; leaf
  | |- ensures _ (missing_field_response _ _) _ =>
      unfold missing_field_response; walk leaf
  | |- ensures _ (rate_limit_exceeded _) _ => unfold rate_limit_exceeded; walk leaf
  | |- ensures _ (internal_error _) _ => unfold internal_error; walk leaf
  | |- ensures _ (create_accessible_response _ _ _) _ => apply ensures_accessible_response
  | |- ensures _ (generate_content _ _ _ _) _ => apply ensures_generate; side_solve
  | |- ensures _ (loads_or _ _ _) _ => apply ensures_loads_or
  | |- ensures _ (get_json _) _ => unfold get_json; walk leaf
  | |- ensures _ (get_behavior_categories _ _) _ =>
      unfold get_behavior_categories; walk leaf
  | |- ensures _ (get_default_behavior_library _) _ => apply ensures_default_library
  | |- ensures _ (behavior_categories_view _ GET) _ =>
      apply ensures_categories_view; intros ?; leaf
  | |- ensures _ (limiter_default _ _) _ => unfold limiter_default; walk leaf
  | |- ensures _ (limiter_limit _ _ _) _ => unfold limiter_limit; walk leaf
  | |- ensures _ (validate_api_key _ _) _ =>
      unfold validate_api_key; cbv zeta; walk leaf
  end.

Ltac unfold_views :=
  unfold serve, view, health_check, identify_speakers, analyze_conversation,
    analyze_conversation_with, analyze_response_impact, analyze_response_impact_with,
    analyze_profile, analyze_profile_with, analyze_self_profile, analyze_self_profile_with,
    get_behaviors, sync_upload, sync_download, delete_user_data; cbn [route_method].

(** From a property every returned response has to the response of a
    request. *)
Lemma served (E : Env) (r : route) (rq : Request) (k : nat) (Q : Response -> Prop) :
  ensures (fun _ => True) (serve E r rq) Q ->
  exists resp w', serve E r rq (fresh k) = (Ok resp, w') /\ Q resp.
Proof.
  intros H. destruct (serve_answers E r rq (fresh k)) as (resp & w' & Hs).
  exists resp, w'. split; [exact Hs |].
  specialize (H (fresh k) (Forall_nil _)). rewrite Hs in H. apply H.
Qed.

Ltac built_leaf :=
  first [ left; split; [reflexivity | eexists; eexists; eexists; reflexivity]
        | right; split; [cbn; tauto | eexists; eexists; eexists; reflexivity] ].

Lemma built_flag (resp : Response) :
  built resp ->
  (field (u "success") (json resp) = Some (PBool true) <-> status_code resp = 200).
Proof.
  intros [[Hs (d & m & t & Hj)] | [Hs (e & d & t & Hj)]]; rewrite Hj; cbn.
  - split; [intros _; exact Hs | reflexivity].
  - split; [discriminate |].
    intros H. rewrite H in Hs. cbn in Hs.
    destruct Hs as [H' | [H' | [H' | []]]]; discriminate.
Qed.

(** X5.  On every route but the health check, a request past the
    authorization decorator is answered by one of the two builders and by
    nothing else: a success body with status 200, or an error body with
    status 400, 429 or 500.  So the [success] flag is true exactly when the
    status is 200. *)
Theorem responses_are_built :
  forall (E : Env) (r : route) (rq : Request) (k : nat),
    r <> Health ->
    (requires_auth r = true -> bearer_shaped (authorization rq) = true) ->
    exists resp w',
      serve E r rq (fresh k) = (Ok resp, w')
      /\ built resp
      /\ (field (u "success") (json resp) = Some (PBool true)
          <-> status_code resp = 200).
Proof.
  intros E r rq k Hr Hauth.
  destruct (served E r rq k built) as (resp & w' & Hs & Hb).
  - destruct r; try congruence; try specialize (Hauth eq_refl);
      unfold serve, view; cbn [route_method];
      (apply ensures_try; [| intros ?; walk built_leaf]);
      unfold limiter_default, limiter_limit;
      repeat (apply ensures_bind with (P := fun _ => True);
              [walk built_leaf | intros ? _];
              match goal with
              | |- ensures _ (if ?b then _ else _) _ =>
                  destruct b; [walk built_leaf |]
              end);
      try (apply ensures_accepted; [exact Hauth | exact I |]);
      unfold identify_speakers, analyze_conversation, analyze_conversation_with,
        analyze_response_impact, analyze_response_impact_with, analyze_profile,
        analyze_profile_with, analyze_self_profile, analyze_self_profile_with,
        get_behaviors, sync_upload, sync_download, delete_user_data;
      walk built_leaf.
  - exists resp, w'. split; [exact Hs |]. split; [exact Hb | apply built_flag, Hb].
Qed.

(** X5, witness: an upload request with a bearer token. *)
Lemma responses_are_built_witness :
  exists resp w',
    serve (Demo.env false None) SyncUpload
      (json_request Demo.bearer
         (PDict [(u "encrypted_data", PStr (u "blob")); (u "user_hash", PStr (u "abc"))]))
      (fresh 0)
    = (Ok resp, w')
    /\ built resp
    /\ (field (u "success") (json resp) = Some (PBool true)
        <-> status_code resp = 200).
Proof.
  apply (responses_are_built (Demo.env false None) SyncUpload
           (json_request Demo.bearer
              (PDict [(u "encrypted_data", PStr (u "blob"));
                      (u "user_hash", PStr (u "abc"))])) 0).
  - discriminate.
  - reflexivity.
Defined.

(* ================================================================== *)
(** ** What a failure shows *)

Lemma try_except_answers {A} (c : M A) (h : exn -> M A) (w : World) :
  (forall e w, exists a w', h e w = (Ok a, w')) ->
  exists a w', try_except c h w = (Ok a, w').
Proof.
  intros Hh. unfold try_except. destruct (c w) as [[a|e] w'].
  - exists a, w'. reflexivity.
  - apply Hh.
Qed.

(** A view never lets an exception out: the decorators answer by
    themselves, and every [except] clause builds its response from
    constants. *)
Lemma view_answers (E : Env) (rq : Request) (r : route) (w : World) :
  exists resp w', view E rq r w = (Ok resp, w').
Proof.
  destruct r; cbn [view];
    unfold limiter_default, limiter_limit, bind, emit; cbn [ticks trace];
    repeat match goal with
           | |- context [over_quota E ?q] => destruct (over_quota E q)
           end;
    first
      [ solve [eexists; eexists; reflexivity]
      | solve [apply try_except_answers; intros e w0; eexists; eexists; reflexivity]
      | destruct (bearer_shaped (authorization rq)) eqn:Hb;
        [ rewrite validate_api_key_accepts by exact Hb;
          apply try_except_answers; intros e w0; eexists; eexists; reflexivity
        | rewrite validate_api_key_rejects by exact Hb; eexists; eexists; reflexivity ] ].
Qed.

Section Leaves.

Context {A B : Type}.

Lemma leaves_ret (a : A) (Q : A -> World -> Prop) :
  (forall w, Q a w) -> leaves (ret a) Q.
Proof. intros H w. apply H. Qed.

Lemma leaves_raise (e : exn) (Q : A -> World -> Prop) : leaves (raise e) Q.
Proof. intros w. exact I. Qed.

Lemma leaves_bind (c : M A) (k : A -> M B) (Q : B -> World -> Prop) :
  (forall a, leaves (k a) Q) -> leaves (bind c k) Q.
Proof.
  intros Hk w. unfold bind. destruct (c w) as [[a|e] w']; [apply Hk | exact I].
Qed.

Lemma leaves_try (c : M A) (h : exn -> M A) (Q : A -> World -> Prop) :
  leaves c Q -> (forall e, leaves (h e) Q) -> leaves (try_except c h) Q.
Proof.
  intros Hc Hh w. unfold try_except. specialize (Hc w).
  destruct (c w) as [[a|e] w']; [exact Hc | apply Hh].
Qed.

End Leaves.

Section LeavesBuilders.

Variable E : Env.
Variable Q : Response -> World -> Prop.

Lemma leaves_error_response (error details : pystr) (code : nat) :
  (forall w,
      Q {| json := error_body error details (utc_iso E (ticks w)); status_code := code |}
        {| ticks := S (ticks w); trace := trace w |}) ->
  leaves (create_error_response E error details code) Q.
Proof. intros H w. apply H. Qed.

Lemma leaves_success (data : pyval) (message : pystr) :
  (forall w,
      Q (jsonify (success_body data message (utc_iso E (ticks w))))
        {| ticks := S (ticks w); trace := trace w |}) ->
  leaves (envelope <- create_accessible_response E data message ;; ret (jsonify envelope)) Q.
Proof. intros H w. apply H. Qed.

Lemma leaves_categories_view :
  (forall resp w, status_code resp = 200 -> Q resp w) ->
  leaves (behavior_categories_view E GET) Q.
Proof. intros H w. apply H. reflexivity. Qed.

End LeavesBuilders.

(** Walks a view down to the responses it returns; [leaf] closes what is
    asked of each. *)
Ltac settle leaf :=
  lazymatch goal with
  | |- leaves (try_except _ _) _ =>
      apply leaves_try; [settle leaf | intros ?; settle leaf]
  | |- leaves (bind (create_accessible_response _ _ _) (fun e => ret (jsonify e))) _ =>
      apply leaves_success; intros ?; leaf
  | |- leaves (bind _ _) _ => apply leaves_bind; intros ?; settle leaf
  | |- leaves (if ?b then _ else _) _ => destruct b; settle leaf
  | |- leaves (match ?x with _ => _ end) _ => destruct x; settle leaf
  | |- leaves (ret _) _ => apply leaves_ret; intros ?; leaf
  | |- leaves (raise _) _ => apply leaves_raise
  | |- leaves (create_error_response _ _ _ _) _ =>
      apply leaves_error_response; intros ?; leaf
  | |- leaves (missing_field_response _ _) _ => unfold missing_field_response; settle leaf
  | |- leaves (rate_limit_exceeded _) _ => unfold rate_limit_exceeded; settle leaf
  | |- leaves (internal_error _) _ => unfold internal_error; settle leaf
  | |- leaves (behavior_categories_view _ GET) _ =>
      apply leaves_categories_view; intros ? ? ?; leaf
  | |- leaves (limiter_default _ _) _ => unfold limiter_default; settle leaf
  | |- leaves (limiter_limit _ _ _) _ => unfold limiter_limit; settle leaf
  | |- leaves (validate_api_key _ _) _ => unfold validate_api_key; cbv zeta; settle leaf
  end.

Ltac failure_leaf :=
  cbn; intros Hs;
  first [ discriminate Hs
        | congruence
        | eexists; split; reflexivity ].

Lemma view_leaves_failures (E : Env) (r : route) (rq : Request) :
  leaves (view E rq r)
    (fun resp w' =>
       status_code resp = 500 ->
       exists j,
         ticks w' = S j
         /\ json resp
            = error_body (fst (failure_text r)) (snd (failure_text r)) (utc_iso E j)).
Proof.
  destruct r; unfold view; cbn [route_method];
    unfold health_check, identify_speakers, analyze_conversation,
      analyze_conversation_with, analyze_response_impact, analyze_response_impact_with,
      analyze_profile, analyze_profile_with, analyze_self_profile,
      analyze_self_profile_with, get_behaviors, sync_upload, sync_download,
      delete_user_data;
    settle failure_leaf.
Qed.

(** X6.  A 500 shows nothing of what went wrong: whatever the request, the
    model and the libraries do, a response with status 500 is the error
    body built from the error and the details written in the [except]
    clause of its view and from the last clock reading the request took,
    and from nothing else. *)
Theorem failures_carry_fixed_text :
  forall (E : Env) (r : route) (rq : Request) (k : nat),
    exists resp w',
      serve E r rq (fresh k) = (Ok resp, w')
      /\ (status_code resp = 500 ->
          exists j,
            ticks w' = S j
            /\ json resp
               = error_body (fst (failure_text r)) (snd (failure_text r)) (utc_iso E j)).
Proof.
  intros E r rq k.
  destruct (view_answers E rq r (fresh k)) as (resp & w' & Hv).
  exists resp, w'. unfold serve, try_except. rewrite Hv. split; [reflexivity |].
  pose proof (view_leaves_failures E r rq (fresh k)) as H. rewrite Hv in H. exact H.
Qed.

(* ================================================================== *)
(** ** How often the model is called *)

Lemma model_calls_emit (w : World) (ev : event) :
  model_calls {| ticks := ticks w; trace := trace w ++ [ev] |}
  = model_calls w + (if is_generate ev then 1 else 0).
Proof.
  unfold model_calls. cbn [trace]. rewrite filter_app, length_app. cbn.
  destruct (is_generate ev); reflexivity.
Qed.

Lemma calls_ret {A} (a : A) : calls_at_most 0 (ret a).
Proof. intros w. cbn. lia. Qed.

Lemma calls_raise {A} (e : exn) : calls_at_most 0 (@raise A e).
Proof. intros w. cbn. lia. Qed.

Lemma calls_lift {A} (r : result A) : calls_at_most 0 (lift r).
Proof. intros w. cbn. lia. Qed.

Lemma calls_emit (ev : event) : is_generate ev = false -> calls_at_most 0 (emit ev).
Proof.
  intros H w. unfold emit. cbn [snd]. rewrite model_calls_emit, H. lia.
Qed.

Lemma calls_weaken {A} (c : M A) : calls_at_most 0 c -> calls_at_most 1 c.
Proof. intros H w. specialize (H w). lia. Qed.

Lemma calls_bind {A B} (n : nat) (c : M A) (k : A -> M B) :
  calls_at_most 0 c -> (forall a, calls_at_most n (k a)) -> calls_at_most n (bind c k).
Proof.
  intros Hc Hk w. unfold bind. specialize (Hc w).
  destruct (c w) as [[a|e] w']; cbn [snd] in *; [| lia].
  specialize (Hk a w'). lia.
Qed.

Lemma calls_bind_first {A B} (c : M A) (k : A -> M B) :
  calls_at_most 1 c -> (forall a, calls_at_most 0 (k a)) -> calls_at_most 1 (bind c k).
Proof.
  intros Hc Hk w. unfold bind. specialize (Hc w).
  destruct (c w) as [[a|e] w']; cbn [snd] in *; [| lia].
  specialize (Hk a w'). lia.
Qed.

Lemma calls_try {A} (n : nat) (c : M A) (h : exn -> M A) :
  calls_at_most n c -> (forall e, calls_at_most 0 (h e)) ->
  calls_at_most n (try_except c h).
Proof.
  intros Hc Hh w. unfold try_except. specialize (Hc w).
  destruct (c w) as [[a|e] w']; cbn [snd] in *; [lia |].
  specialize (Hh e w'). lia.
Qed.

Section Calls.

Variable E : Env.

Lemma calls_utcnow : calls_at_most 0 (utcnow_isoformat E).
Proof. intros w. cbn. unfold model_calls. cbn. lia. Qed.

Lemma calls_error_response (error details : pystr) (code : nat) :
  calls_at_most 0 (create_error_response E error details code).
Proof. intros w. cbn. unfold model_calls. cbn. lia. Qed.

Lemma calls_accessible_response (data : pyval) (message : pystr) :
  calls_at_most 0 (create_accessible_response E data message).
Proof. intros w. cbn. unfold model_calls. cbn. lia. Qed.

Lemma calls_loads_or (text : pystr) (fallback : pyval) :
  calls_at_most 0 (loads_or E text fallback).
Proof.
  unfold loads_or. destruct (json_loads E text) as [v|[]];
    first [apply calls_ret | apply calls_raise].
Qed.

(** The one place that reaches the model: a single call, whether the
    model answers or raises. *)
Lemma calls_generate (name prompt : pystr) (cfg : GenerationConfig) :
  calls_at_most 1 (generate_content E name prompt cfg).
Proof.
  intros w. unfold generate_content, bind, emit.
  destruct (gemini E name prompt cfg); cbn [snd ret raise];
    rewrite model_calls_emit; cbn; lia.
Qed.

End Calls.

Ltac count_none :=
  lazymatch goal with
  | |- calls_at_most _ (bind _ _) => apply calls_bind; [count_none | intros ?; count_none]
  | |- calls_at_most _ (if ?b then _ else _) => destruct b; count_none
  | |- calls_at_most _ (match ?x with _ => _ end) => destruct x; count_none
  | |- calls_at_most _ (ret _) => apply calls_ret
  | |- calls_at_most _ (raise _) => apply calls_raise
  | |- calls_at_most _ (lift _) => apply calls_lift
  | |- calls_at_most _ (emit _) => apply calls_emit; reflexivity
  | |- calls_at_most _ (logger _ _) => apply calls_emit; reflexivity
  | |- calls_at_most _ (utcnow_isoformat _) => apply calls_utcnow
  | |- calls_at_most _ (create_error_response _ _ _ _) => apply calls_error_response
  | |- calls_at_most _ (create_accessible_response _ _ _) =>
      apply calls_accessible_response
  | |- calls_at_most _ (loads_or _ _ _) => apply calls_loads_or
  | |- calls_at_most _ (get_json _) => unfold get_json; count_none
  | |- calls_at_most _ (rate_limit_exceeded _) => unfold rate_limit_exceeded; count_none
  | |- calls_at_most _ (internal_error _) => unfold internal_error; count_none
  end.

Ltac count_one :=
  lazymatch goal with
  | |- calls_at_most 1 (try_except _ _) =>
      apply calls_try; [count_one | intros ?; count_none]
  | |- calls_at_most 1 (bind (generate_content _ _ _ _) _) =>
      apply calls_bind_first; [apply calls_generate | intros ?; count_none]
  | |- calls_at_most 1 (bind _ _) => apply calls_bind; [count_none | intros ?; count_one]
  | |- calls_at_most 1 (if ?b then _ else _) => destruct b; count_one
  | |- calls_at_most 1 (match ?x with _ => _ end) => destruct x; count_one
  | |- calls_at_most 1 (limiter_limit _ _ _) => unfold limiter_limit; count_one
  | |- calls_at_most 1 (validate_api_key _ _) =>
      unfold validate_api_key; cbv zeta; count_one
  | |- calls_at_most 1 _ => apply calls_weaken; count_none
  end.

Lemma identify_speakers_calls_once (E : Env) (rq : Request) :
  calls_at_most 1 (serve E IdentifySpeakers rq).
Proof. unfold serve, view, identify_speakers. count_one. Qed.

Lemma no_generate_no_calls (w : World) : Forall no_generate (trace w) -> model_calls w = 0.
Proof.
  unfold model_calls. induction (trace w) as [|ev evs IH]; intros H; [reflexivity |].
  inversion H as [|? ? Hev Hevs]; subst. cbn. rewrite Hev. apply IH, Hevs.
Qed.

Lemma other_routes_never_call (E : Env) (r : route) (rq : Request) :
  r <> IdentifySpeakers ->
  ensures no_generate (serve E r rq) (fun _ => True).
Proof.
  intros Hr. unfold no_generate.
  destruct r; try congruence; unfold serve, view; cbn [route_method];
    unfold health_check, analyze_conversation, analyze_conversation_with,
      analyze_response_impact, analyze_response_impact_with, analyze_profile,
      analyze_profile_with, analyze_self_profile, analyze_self_profile_with, get_behaviors,
      sync_upload, sync_download, delete_user_data, behavior_categories_view;
    walk ltac:(exact I).
Qed.

(** X7.  No request reaches the model twice: on every route and whatever
    happens, the trace of a request holds at most one model call (a failed
    call is not tried again), and on every route but speaker identification
    it holds none. *)
Theorem at_most_one_model_call :
  forall (E : Env) (r : route) (rq : Request) (k : nat),
    exists resp w',
      serve E r rq (fresh k) = (Ok resp, w')
      /\ model_calls w' <= 1
      /\ (r <> IdentifySpeakers -> model_calls w' = 0).
Proof.
  intros E r rq k.
  destruct (serve_answers E r rq (fresh k)) as (resp & w' & Hs).
  exists resp, w'. split; [exact Hs |].
  assert (Hother : r <> IdentifySpeakers -> model_calls w' = 0).
  { intros Hr. apply no_generate_no_calls.
    pose proof (other_routes_never_call E r rq Hr (fresh k) (Forall_nil _)) as He.
    rewrite Hs in He. apply He. }
  split; [| exact Hother].
  destruct r; try (rewrite Hother by discriminate; lia).
  pose proof (identify_speakers_calls_once E rq (fresh k)) as Hc.
  rewrite Hs in Hc. cbn in Hc. exact Hc.
Qed.

(* ================================================================== *)
(** ** Speaker identification, case by case *)

Lemma sanitize_input_kept (E : Env) (raw : pyval) (text : pystr) :
  sanitize_input E raw = Ok text -> text <> [] ->
  exists s, raw = PStr s /\ s <> [] /\ text = slice_to 50000 (bleach_clean E s).
Proof.
  unfold sanitize_input. intros H Hx.
  destruct (truthy raw) eqn:Ht; cbn in H; [| congruence].
  destruct raw; try discriminate.
  exists s. split; [reflexivity |]. split; [| congruence].
  intros ->. discriminate.
Qed.

Section IdentifySpeakersCases.

Variable E : Env.
Variable rq : Request.
Variable k : nat.
Variables (d : pydict) (t text reply : pystr).

Hypothesis Hbearer : bearer_shaped (authorization rq) = true.
Hypothesis Hquota : over_quota E (route_quota IdentifySpeakers) = false.
Hypothesis Hbody : payload rq = BodyJson (PDict d).

Lemma identify_speakers_passes (result : pyval) (n : nat) :
  dict_get (u "text") d = Some (PStr t) -> t <> [] ->
  slice_to 50000 (bleach_clean E t) = text -> text <> [] ->
  gemini E gemini_model (SPEAKER_IDENTIFICATION_PROMPT ++ text) identify_speakers_config
    = Some reply ->
  json_loads E reply = Ok result ->
  speaker_count result = Ok n ->
  serve E IdentifySpeakers rq (fresh k)
  = (Ok (jsonify (success_body result (identified n) (utc_iso E k))),
     {| ticks := S k; trace := identify_speakers_trace text |}).
Proof.
  intros Hd Ht Hc Hx Hg Hj Hn.
  rewrite (identify_speakers_after_reply E rq k d t text reply
             Hbearer Hquota Hbody Hd Ht Hc Hx Hg).
  unfold try_except, bind, loads_or, lift. rewrite Hj. cbn [ret].
  unfold speaker_count, and_then in Hn.
  destruct (py_get result (u "speakers_identified") (PList [])) as [speakers|]; [| discriminate].
  rewrite Hn. reflexivity.
Qed.

Lemma identify_speakers_misparsed (result : pyval) (e : exn) :
  dict_get (u "text") d = Some (PStr t) -> t <> [] ->
  slice_to 50000 (bleach_clean E t) = text -> text <> [] ->
  gemini E gemini_model (SPEAKER_IDENTIFICATION_PROMPT ++ text) identify_speakers_config
    = Some reply ->
  json_loads E reply = Ok result ->
  speaker_count result = Raise e ->
  serve E IdentifySpeakers rq (fresh k)
  = (Ok {| json := error_body (fst (failure_text IdentifySpeakers))
                     (snd (failure_text IdentifySpeakers)) (utc_iso E k);
           status_code := 500 |},
     {| ticks := S k;
        trace := identify_speakers_trace text
                 ++ [EvLog ERROR (u "Speaker identification error: ")] |}).
Proof.
  intros Hd Ht Hc Hx Hg Hj Hn.
  rewrite (identify_speakers_after_reply E rq k d t text reply
             Hbearer Hquota Hbody Hd Ht Hc Hx Hg).
  unfold try_except, bind, loads_or, lift. rewrite Hj. cbn [ret].
  unfold speaker_count, and_then in Hn.
  destruct (py_get result (u "speakers_identified") (PList [])) as [speakers|];
    [rewrite Hn | inversion Hn; subst]; reflexivity.
Qed.

Lemma identify_speakers_empty (raw : pyval) :
  dict_get (u "text") d = Some raw ->
  sanitize_input E raw = Ok [] ->
  serve E IdentifySpeakers rq (fresh k)
  = (Ok {| json := error_body (u "Invalid input")
                     (u "Text cannot be empty after sanitization") (utc_iso E k);
           status_code := 400 |},
     {| ticks := S k;
        trace := [EvRateLimit (u "30 per minute"); EvAuthCheck; EvGetJson] |}).
Proof.
  intros Hd Hs. enter_view Hquota Hbearer.
  unfold identify_speakers, try_except, bind, get_json, emit, ret, lift.
  run. rewrite Hbody. run.
  rewrite (dict_get_truthy _ _ _ Hd). run.
  rewrite (dict_get_in _ _ _ Hd). run.
  rewrite (dict_get_getitem _ _ _ Hd). run.
  rewrite Hs. reflexivity.
Qed.

Lemma identify_speakers_not_text (raw : pyval) (e : exn) :
  dict_get (u "text") d = Some raw ->
  sanitize_input E raw = Raise e ->
  serve E IdentifySpeakers rq (fresh k)
  = (Ok {| json := error_body (fst (failure_text IdentifySpeakers))
                     (snd (failure_text IdentifySpeakers)) (utc_iso E k);
           status_code := 500 |},
     {| ticks := S k;
        trace := [EvRateLimit (u "30 per minute"); EvAuthCheck; EvGetJson;
                  EvLog ERROR (u "Speaker identification error: ")] |}).
Proof.
  intros Hd Hs. enter_view Hquota Hbearer.
  unfold identify_speakers, try_except, bind, get_json, emit, ret, lift.
  run. rewrite Hbody. run.
  rewrite (dict_get_truthy _ _ _ Hd). run.
  rewrite (dict_get_in _ _ _ Hd). run.
  rewrite (dict_get_getitem _ _ _ Hd). run.
  rewrite Hs. reflexivity.
Qed.

Lemma identify_speakers_model_raises :
  dict_get (u "text") d = Some (PStr t) -> t <> [] ->
  slice_to 50000 (bleach_clean E t) = text -> text <> [] ->
  gemini E gemini_model (SPEAKER_IDENTIFICATION_PROMPT ++ text) identify_speakers_config
    = None ->
  serve E IdentifySpeakers rq (fresh k)
  = (Ok {| json := error_body (fst (failure_text IdentifySpeakers))
                     (snd (failure_text IdentifySpeakers)) (utc_iso E k);
           status_code := 500 |},
     {| ticks := S k;
        trace := identify_speakers_trace text
                 ++ [EvLog ERROR (u "Speaker identification error: ")] |}).
Proof.
  intros Hd Ht Hc Hx Hg. enter_view Hquota Hbearer.
  unfold identify_speakers, try_except, bind, get_json, emit, ret, lift.
  run. rewrite Hbody. run.
  rewrite (dict_get_truthy _ _ _ Hd). run.
  rewrite (dict_get_in _ _ _ Hd). run.
  rewrite (dict_get_getitem _ _ _ Hd). run.
  rewrite (sanitize_input_text E t Ht), Hc. run.
  rewrite (truthy_str text Hx). run.
  unfold generate_content, bind, emit. run.
  rewrite Hg. reflexivity.
Qed.

End IdentifySpeakersCases.

(** X8.  What the model returns is passed through unchecked: whenever the
    reply parses as JSON and the parsed value has a [speakers_identified]
    with a length (or is an object without that key), the response is 200
    with the parsed value itself as [data] and the message
    [Identified n speakers in the conversation], [n] being that length; the
    request has made exactly the one model call and written no log line. *)
Theorem parsed_reply_is_passed_through :
  forall (E : Env) (rq : Request) (k : nat) (d : pydict) (t text reply : pystr)
         (result : pyval) (n : nat),
    bearer_shaped (authorization rq) = true ->
    over_quota E (route_quota IdentifySpeakers) = false ->
    payload rq = BodyJson (PDict d) ->
    dict_get (u "text") d = Some (PStr t) ->
    t <> [] ->
    slice_to 50000 (bleach_clean E t) = text ->
    text <> [] ->
    gemini E gemini_model (SPEAKER_IDENTIFICATION_PROMPT ++ text) identify_speakers_config
      = Some reply ->
    json_loads E reply = Ok result ->
    speaker_count result = Ok n ->
    serve E IdentifySpeakers rq (fresh k)
    = (Ok (jsonify (success_body result (identified n) (utc_iso E k))),
       {| ticks := S k; trace := identify_speakers_trace text |}).
Proof.
  intros E rq k d t text reply result n Hb Hq Hp Hd Ht Hc Hx Hg Hj Hn.
  exact (identify_speakers_passes E rq k d t text reply Hb Hq Hp result n
           Hd Ht Hc Hx Hg Hj Hn).
Qed.

(** X8, witness: the model names Alice and Bob. *)
Lemma parsed_reply_is_passed_through_witness :
  serve (Demo.env false (Some reply_with_two_speakers)) IdentifySpeakers
    (json_request Demo.bearer (PDict [(u "text", PStr (u "Alice: Hi"))])) (fresh 0)
  = (Ok (jsonify (success_body
                    (PDict [(u "speakers_identified",
                             PList [PStr (u "Alice"); PStr (u "Bob")])])
                    (identified 2) (Demo.clock 0))),
     {| ticks := 1; trace := identify_speakers_trace (u "Alice: Hi") |}).
Proof.
  apply (parsed_reply_is_passed_through
           (Demo.env false (Some reply_with_two_speakers))
           (json_request Demo.bearer (PDict [(u "text", PStr (u "Alice: Hi"))])) 0
           [(u "text", PStr (u "Alice: Hi"))] (u "Alice: Hi") (u "Alice: Hi")
           reply_with_two_speakers
           (PDict [(u "speakers_identified", PList [PStr (u "Alice"); PStr (u "Bob")])])
           2).
  - reflexivity.
  - reflexivity.
  - reflexivity.
  - reflexivity.
  - discriminate.
  - vm_compute; reflexivity.
  - discriminate.
  - reflexivity.
  - vm_compute; reflexivity.
  - reflexivity.
Defined.

(** X9.  A reply that is valid JSON is still answered 500 when counting
    its speakers raises: the parsed value is not an object (an array, a
    string, a number, [null]), or its [speakers_identified] has no length.
    The model has been called, the error is logged, and the response is
    the [Analysis failed] body. *)
Theorem uncountable_reply_is_answered_500 :
  forall (E : Env) (rq : Request) (k : nat) (d : pydict) (t text reply : pystr)
         (result : pyval) (e : exn),
    bearer_shaped (authorization rq) = true ->
    over_quota E (route_quota IdentifySpeakers) = false ->
    payload rq = BodyJson (PDict d) ->
    dict_get (u "text") d = Some (PStr t) ->
    t <> [] ->
    slice_to 50000 (bleach_clean E t) = text ->
    text <> [] ->
    gemini E gemini_model (SPEAKER_IDENTIFICATION_PROMPT ++ text) identify_speakers_config
      = Some reply ->
    json_loads E reply = Ok result ->
    speaker_count result = Raise e ->
    serve E IdentifySpeakers rq (fresh k)
    = (Ok {| json := error_body (u "Analysis failed")
                       (u "Unable to process the conversation. Please try again.")
                       (utc_iso E k);
             status_code := 500 |},
       {| ticks := S k;
          trace := identify_speakers_trace text
                   ++ [EvLog ERROR (u "Speaker identification error: ")] |}).
Proof.
  intros E rq k d t text reply result e Hb Hq Hp Hd Ht Hc Hx Hg Hj Hn.
  exact (identify_speakers_misparsed E rq k d t text reply Hb Hq Hp result e
           Hd Ht Hc Hx Hg Hj Hn).
Qed.

(** X9, witness: the model answers with the JSON array [[1, 2]]. *)
Lemma uncountable_reply_is_answered_500_witness :
  serve (Demo.env false (Some (u "[1, 2]"))) IdentifySpeakers
    (json_request Demo.bearer (PDict [(u "text", PStr (u "Alice: Hi"))])) (fresh 0)
  = (Ok {| json := error_body (u "Analysis failed")
                     (u "Unable to process the conversation. Please try again.")
                     (Demo.clock 0);
           status_code := 500 |},
     {| ticks := 1;
        trace := identify_speakers_trace (u "Alice: Hi")
                 ++ [EvLog ERROR (u "Speaker identification error: ")] |}).
Proof.
  apply (uncountable_reply_is_answered_500
           (Demo.env false (Some (u "[1, 2]")))
           (json_request Demo.bearer (PDict [(u "text", PStr (u "Alice: Hi"))])) 0
           [(u "text", PStr (u "Alice: Hi"))] (u "Alice: Hi") (u "Alice: Hi")
           (u "[1, 2]") (PList [PInt 1; PInt 2]) AttributeError).
  - reflexivity.
  - reflexivity.
  - reflexivity.
  - reflexivity.
  - discriminate.
  - vm_compute; reflexivity.
  - discriminate.
  - reflexivity.
  - vm_compute; reflexivity.
  - reflexivity.
Defined.

(** X10.  A [text] that is empty after sanitization is answered 400
    [Invalid input] before the model is reached.  That is the case of a
    text the cleaner empties, and of every falsy value under [text]: the
    empty string, [null], [false], zero, an empty array or object. *)
Theorem empty_text_is_answered_400 :
  forall (E : Env) (rq : Request) (k : nat) (d : pydict) (raw : pyval),
    bearer_shaped (authorization rq) = true ->
    over_quota E (route_quota IdentifySpeakers) = false ->
    payload rq = BodyJson (PDict d) ->
    dict_get (u "text") d = Some raw ->
    sanitize_input E raw = Ok [] ->
    serve E IdentifySpeakers rq (fresh k)
    = (Ok {| json := error_body (u "Invalid input")
                       (u "Text cannot be empty after sanitization") (utc_iso E k);
             status_code := 400 |},
       {| ticks := S k;
          trace := [EvRateLimit (u "30 per minute"); EvAuthCheck; EvGetJson] |}).
Proof.
  intros E rq k d raw Hb Hq Hp Hd Hs.
  exact (identify_speakers_empty E rq k d Hb Hq Hp raw Hd Hs).
Qed.

(** X10, witness: the text is a lone tag, which the cleaner removes. *)
Lemma empty_text_is_answered_400_witness :
  serve (Demo.env false None) IdentifySpeakers
    (json_request Demo.bearer (PDict [(u "text", PStr (u "<script>"))])) (fresh 0)
  = (Ok {| json := error_body (u "Invalid input")
                     (u "Text cannot be empty after sanitization") (Demo.clock 0);
           status_code := 400 |},
     {| ticks := 1;
        trace := [EvRateLimit (u "30 per minute"); EvAuthCheck; EvGetJson] |}).
Proof.
  apply (empty_text_is_answered_400 (Demo.env false None)
           (json_request Demo.bearer (PDict [(u "text", PStr (u "<script>"))])) 0
           [(u "text", PStr (u "<script>"))] (PStr (u "<script>"))).
  - reflexivity.
  - reflexivity.
  - reflexivity.
  - reflexivity.
  - vm_compute; reflexivity.
Defined.

(** X11.  A [text] that is truthy and not a string (a number, [true], a
    non-empty array or object) is not a missing or invalid field for the
    handler: the cleaner raises on it, and the request is answered 500
    [Analysis failed], with the error logged and the model not called. *)
Theorem non_string_text_is_answered_500 :
  forall (E : Env) (rq : Request) (k : nat) (d : pydict) (raw : pyval),
    bearer_shaped (authorization rq) = true ->
    over_quota E (route_quota IdentifySpeakers) = false ->
    payload rq = BodyJson (PDict d) ->
    dict_get (u "text") d = Some raw ->
    truthy raw = true ->
    (forall s, raw <> PStr s) ->
    serve E IdentifySpeakers rq (fresh k)
    = (Ok {| json := error_body (u "Analysis failed")
                       (u "Unable to process the conversation. Please try again.")
                       (utc_iso E k);
             status_code := 500 |},
       {| ticks := S k;
          trace := [EvRateLimit (u "30 per minute"); EvAuthCheck; EvGetJson;
                    EvLog ERROR (u "Speaker identification error: ")] |}).
Proof.
  intros E rq k d raw Hb Hq Hp Hd Ht Hn.
  apply (identify_speakers_not_text E rq k d Hb Hq Hp raw TypeError Hd).
  unfold sanitize_input. rewrite Ht. cbn [negb].
  destruct raw; try reflexivity. exfalso. apply (Hn s). reflexivity.
Qed.

(** X11, witness: the text is the number 7. *)
Lemma non_string_text_is_answered_500_witness :
  serve (Demo.env false None) IdentifySpeakers
    (json_request Demo.bearer (PDict [(u "text", PInt 7)])) (fresh 0)
  = (Ok {| json := error_body (u "Analysis failed")
                     (u "Unable to process the conversation. Please try again.")
                     (Demo.clock 0);
           status_code := 500 |},
     {| ticks := 1;
        trace := [EvRateLimit (u "30 per minute"); EvAuthCheck; EvGetJson;
                  EvLog ERROR (u "Speaker identification error: ")] |}).
Proof.
  apply (non_string_text_is_answered_500 (Demo.env false None)
           (json_request Demo.bearer (PDict [(u "text", PInt 7)])) 0
           [(u "text", PInt 7)] (PInt 7)).
  - reflexivity.
  - reflexivity.
  - reflexivity.
  - reflexivity.
  - reflexivity.
  - discriminate.
Defined.

(** X12.  When the model call raises, the request is answered 500
    [Analysis failed] after that one call: the failure is logged and the
    call is not repeated. *)
Theorem model_failure_is_answered_500 :
  forall (E : Env) (rq : Request) (k : nat) (d : pydict) (t text : pystr),
    bearer_shaped (authorization rq) = true ->
    over_quota E (route_quota IdentifySpeakers) = false ->
    payload rq = BodyJson (PDict d) ->
    dict_get (u "text") d = Some (PStr t) ->
    t <> [] ->
    slice_to 50000 (bleach_clean E t) = text ->
    text <> [] ->
    gemini E gemini_model (SPEAKER_IDENTIFICATION_PROMPT ++ text) identify_speakers_config
      = None ->
    serve E IdentifySpeakers rq (fresh k)
    = (Ok {| json := error_body (u "Analysis failed")
                       (u "Unable to process the conversation. Please try again.")
                       (utc_iso E k);
             status_code := 500 |},
       {| ticks := S k;
          trace := identify_speakers_trace text
                   ++ [EvLog ERROR (u "Speaker identification error: ")] |}).
Proof.
  intros E rq k d t text Hb Hq Hp Hd Ht Hc Hx Hg.
  exact (identify_speakers_model_raises E rq k d t text Hb Hq Hp Hd Ht Hc Hx Hg).
Qed.

(** X12, witness: a model that raises on every prompt. *)
Lemma model_failure_is_answered_500_witness :
  serve (Demo.env false None) IdentifySpeakers
    (json_request Demo.bearer (PDict [(u "text", PStr (u "Alice: Hi"))])) (fresh 0)
  = (Ok {| json := error_body (u "Analysis failed")
                     (u "Unable to process the conversation. Please try again.")
                     (Demo.clock 0);
           status_code := 500 |},
     {| ticks := 1;
        trace := identify_speakers_trace (u "Alice: Hi")
                 ++ [EvLog ERROR (u "Speaker identification error: ")] |}).
Proof.
  apply (model_failure_is_answered_500 (Demo.env false None)
           (json_request Demo.bearer (PDict [(u "text", PStr (u "Alice: Hi"))])) 0
           [(u "text", PStr (u "Alice: Hi"))] (u "Alice: Hi") (u "Alice: Hi")).
  - reflexivity.
  - reflexivity.
  - reflexivity.
  - reflexivity.
  - discriminate.
  - vm_compute; reflexivity.
  - discriminate.
  - reflexivity.
Defined.

(* ================================================================== *)
(** ** What reaches the model *)

Lemma ensures_lift_eq (phi : event -> Prop) {A} (r : result A) :
  ensures phi (lift r) (fun a => r = Ok a).
Proof. intros w Hw. unfold lift. destruct r; [split; [reflexivity | exact Hw] | exact Hw]. Qed.

Lemma identify_speakers_prompts (E : Env) (rq : Request) :
  ensures (sanitized_prompt E) (identify_speakers E rq) (fun _ => True).
Proof.
  unfold identify_speakers.
  apply ensures_try; [| intros ?; walk ltac:(exact I)].
  apply ensures_bind with (P := fun _ => True); [walk ltac:(exact I) | intros data _].
  apply ensures_bind with (P := fun _ => True); [walk ltac:(exact I) | intros missing _].
  destruct missing; [walk ltac:(exact I) |].
  apply ensures_bind with (P := fun _ => True); [walk ltac:(exact I) | intros raw _].
  apply ensures_bind with (P := fun text => sanitize_input E raw = Ok text);
    [apply ensures_lift_eq | intros text Hs].
  destruct (truthy (PStr text)) eqn:Ht; cbn [negb]; [| walk ltac:(exact I)].
  assert (Hx : text <> []) by (intros ->; discriminate).
  destruct (sanitize_input_kept E raw text Hs Hx) as (s & _ & Hne & Htext).
  apply ensures_bind with (P := fun _ => True); [| intros reply _; walk ltac:(exact I)].
  apply ensures_generate. cbn. exists s. subst text. split; [exact Hne |].
  split; [exact Hx | reflexivity].
Qed.

Lemma no_generate_sanitized (E : Env) (ev : event) : no_generate ev -> sanitized_prompt E ev.
Proof. destruct ev; cbn; try (intros; exact I). discriminate. Qed.

(** X13.  No raw text reaches the model.  Whatever the request, every
    prompt sent while serving it is the speaker-identification template
    followed by a text that went through the cleaner and was cut to its
    first 50000 characters, and that text is not empty. *)
Theorem prompts_are_sanitized :
  forall (E : Env) (r : route) (rq : Request) (k : nat),
    exists resp w',
      serve E r rq (fresh k) = (Ok resp, w')
      /\ Forall (sanitized_prompt E) (trace w').
Proof.
  intros E r rq k.
  destruct (serve_answers E r rq (fresh k)) as (resp & w' & Hs).
  exists resp, w'. split; [exact Hs |].
  assert (Hdec : r = IdentifySpeakers \/ r <> IdentifySpeakers)
    by (destruct r; first [left; reflexivity | right; discriminate]).
  destruct Hdec as [-> | Hr].
  - assert (H : ensures (sanitized_prompt E) (serve E IdentifySpeakers rq) (fun _ => True)).
    { unfold serve, view.
      apply ensures_try; [| intros ?; walk ltac:(exact I)].
      unfold limiter_limit.
      apply ensures_bind with (P := fun _ => True); [walk ltac:(exact I) | intros ? _].
      destruct (over_quota E (u "30 per minute")); [walk ltac:(exact I) |].
      unfold validate_api_key; cbv zeta.
      apply ensures_bind with (P := fun _ => True); [walk ltac:(exact I) | intros ? _].
      match goal with |- ensures _ (if ?b then _ else _) _ => destruct b end;
        [walk ltac:(exact I) | apply identify_speakers_prompts]. }
    specialize (H (fresh k) (Forall_nil _)). rewrite Hs in H. apply H.
  - pose proof (other_routes_never_call E r rq Hr (fresh k) (Forall_nil _)) as H.
    rewrite Hs in H. destruct H as [_ H].
    eapply Forall_impl; [| exact H]. intros ev. apply no_generate_sanitized.
Qed.

(* ================================================================== *)
(** ** Synchronisation and deletion, case by case *)

Lemma encodable_app (a b : pystr) : encodable (a ++ b) = encodable a && encodable b.
Proof. unfold encodable. rewrite existsb_app, negb_orb. reflexivity. Qed.

Lemma sha256_of_surrogate (E : Env) (s : pystr) :
  encodable s = false -> sha256_of E s = Raise UnicodeEncodeError.
Proof. unfold sha256_of. intros ->. reflexivity. Qed.

Lemma py_slice_to_unsliceable (n : N) (v : pyval) :
  unsliceable v = true -> py_slice_to n v = Raise TypeError.
Proof. destruct v; cbn; congruence. Qed.

(** X14.  The download route tests [user_hash in data] and nothing more:
    every admitted request whose body passes that test (an object with the
    key, whatever its value, and also an array holding the string or a
    string containing it) is answered 200 with the same data, no sync
    record at all, and nothing is logged. *)
Theorem sync_download_finds_no_data :
  forall (E : Env) (rq : Request) (k : nat) (data : pyval),
    bearer_shaped (authorization rq) = true ->
    over_quota E (route_quota SyncDownload) = false ->
    payload rq = BodyJson data ->
    py_in (u "user_hash") data = Ok true ->
    serve E SyncDownload rq (fresh k)
    = (Ok (jsonify (success_body no_sync_data (u "No sync data found") (utc_iso E k))),
       {| ticks := S k;
          trace := [EvRateLimit (u "10 per minute"); EvAuthCheck; EvGetJson] |}).
Proof.
  intros E rq k data Hb Hq Hp Hin. enter_view Hq Hb.
  unfold sync_download, try_except, bind, get_json, emit, ret, lift.
  run. rewrite Hp. run. rewrite Hin. reflexivity.
Qed.

(** X14, witness: the body is a JSON string that contains [user_hash]. *)
Lemma sync_download_finds_no_data_witness :
  serve (Demo.env false None) SyncDownload
    (json_request Demo.bearer (PStr (u "my user_hash"))) (fresh 0)
  = (Ok (jsonify (success_body no_sync_data (u "No sync data found") (Demo.clock 0))),
     {| ticks := 1;
        trace := [EvRateLimit (u "10 per minute"); EvAuthCheck; EvGetJson] |}).
Proof.
  apply (sync_download_finds_no_data (Demo.env false None)
           (json_request Demo.bearer (PStr (u "my user_hash"))) 0
           (PStr (u "my user_hash"))).
  - reflexivity.
  - reflexivity.
  - reflexivity.
  - vm_compute; reflexivity.
Defined.

(** X15.  Upload and deletion slice [user_hash] without checking its
    type: when the value is not a string or an array (a number, a boolean,
    [null], an object), the slice raises and the request is answered with
    the 500 of the route, not a 400.  Only the error is logged. *)
Theorem unsliceable_user_hash_is_answered_500 :
  forall (E : Env) (r : route) (rq : Request) (k : nat) (d : pydict) (v : pyval),
    hashes_user r = true ->
    bearer_shaped (authorization rq) = true ->
    over_quota E (route_quota r) = false ->
    payload rq = BodyJson (PDict d) ->
    (r = SyncUpload -> dict_has (u "encrypted_data") d = true) ->
    dict_get (u "user_hash") d = Some v ->
    unsliceable v = true ->
    exists msg,
      serve E r rq (fresh k)
      = (Ok {| json := error_body (fst (failure_text r)) (snd (failure_text r))
                         (utc_iso E k);
               status_code := 500 |},
         {| ticks := S k;
            trace := [EvRateLimit (route_quota r); EvAuthCheck; EvGetJson;
                      EvLog ERROR msg] |}).
Proof.
  intros E r rq k d v Hr Hb Hq Hp He Hd Hv.
  destruct r; try discriminate; enter_view Hq Hb.
  - unfold sync_upload, try_except, bind, get_json, emit, ret, lift.
    run. rewrite Hp. run.
    rewrite !dict_has_in, (He eq_refl), (dict_get_has _ _ _ Hd). run.
    rewrite (dict_get_getitem _ _ _ Hd). run.
    rewrite (py_slice_to_unsliceable _ _ Hv).
    eexists. reflexivity.
  - unfold delete_user_data, try_except, bind, get_json, emit, ret, lift.
    run. rewrite Hp. run.
    rewrite !dict_has_in, (dict_get_has _ _ _ Hd). run.
    rewrite (dict_get_getitem _ _ _ Hd). run.
    rewrite (py_slice_to_unsliceable _ _ Hv).
    eexists. reflexivity.
Qed.

(** X15, witness: a deletion request whose [user_hash] is the number 42. *)
Lemma unsliceable_user_hash_is_answered_500_witness :
  exists msg,
    serve (Demo.env false None) UserDelete
      (json_request Demo.bearer (PDict [(u "user_hash", PInt 42)])) (fresh 0)
    = (Ok {| json := error_body (fst (failure_text UserDelete))
                       (snd (failure_text UserDelete)) (Demo.clock 0);
             status_code := 500 |},
       {| ticks := 1;
          trace := [EvRateLimit (route_quota UserDelete); EvAuthCheck; EvGetJson;
                    EvLog ERROR msg] |}).
Proof.
  apply (unsliceable_user_hash_is_answered_500 (Demo.env false None) UserDelete
           (json_request Demo.bearer (PDict [(u "user_hash", PInt 42)])) 0
           [(u "user_hash", PInt 42)] (PInt 42)).
  - reflexivity.
  - reflexivity.
  - reflexivity.
  - reflexivity.
  - discriminate.
  - reflexivity.
  - reflexivity.
Defined.

(** X16.  A [user_hash] with a surrogate code point among its first 64
    characters cannot be encoded for the digest: upload and deletion then
    answer the 500 of the route.  By then the receipt line has been
    logged at level INFO, so the log shows a request that the response
    denies. *)
Theorem surrogate_user_hash_is_answered_500 :
  forall (E : Env) (r : route) (rq : Request) (k : nat) (d : pydict) (h : pystr),
    hashes_user r = true ->
    bearer_shaped (authorization rq) = true ->
    over_quota E (route_quota r) = false ->
    payload rq = BodyJson (PDict d) ->
    (r = SyncUpload -> dict_has (u "encrypted_data") d = true) ->
    dict_get (u "user_hash") d = Some (PStr h) ->
    encodable (slice_to 64 h) = false ->
    exists now w' receipt,
      serve E r rq (fresh k)
      = (Ok {| json := error_body (fst (failure_text r)) (snd (failure_text r)) now;
               status_code := 500 |}, w')
      /\ In (EvLog INFO receipt) (trace w').
Proof.
  intros E r rq k d h Hr Hb Hq Hp He Hd Hs.
  destruct r; try discriminate; enter_view Hq Hb.
  - unfold sync_upload, try_except, bind, get_json, emit, ret, lift.
    run. rewrite Hp. run.
    rewrite !dict_has_in, (He eq_refl), (dict_get_has _ _ _ Hd). run.
    rewrite (dict_get_getitem _ _ _ Hd). run.
    rewrite py_slice_to_str. run. rewrite py_slice_to_str. run.
    rewrite sha256_of_surrogate
      by (unfold fstr; cbn [concat fstr_value]; rewrite encodable_app, Hs; reflexivity).
    eexists; eexists; eexists. split; [reflexivity |].
    cbn. right; right; right; left. reflexivity.
  - unfold delete_user_data, try_except, bind, get_json, emit, ret, lift.
    run. rewrite Hp. run.
    rewrite !dict_has_in, (dict_get_has _ _ _ Hd). run.
    rewrite (dict_get_getitem _ _ _ Hd). run.
    rewrite py_slice_to_str. run. rewrite py_slice_to_str. run.
    rewrite sha256_of_surrogate
      by (unfold fstr; cbn [concat fstr_value];
          rewrite !encodable_app, Hs, andb_false_r; reflexivity).
    eexists; eexists; eexists. split; [reflexivity |].
    cbn. right; right; right; left. reflexivity.
Qed.

(** X16, witness: an upload whose [user_hash] is the lone surrogate U+D800. *)
Lemma surrogate_user_hash_is_answered_500_witness :
  exists now w' receipt,
    serve (Demo.env false None) SyncUpload
      (json_request Demo.bearer
         (PDict [(u "encrypted_data", PStr (u "blob")); (u "user_hash", PStr [55296%N])]))
      (fresh 0)
    = (Ok {| json := error_body (fst (failure_text SyncUpload))
                       (snd (failure_text SyncUpload)) now;
             status_code := 500 |}, w')
    /\ In (EvLog INFO receipt) (trace w').
Proof.
  apply (surrogate_user_hash_is_answered_500 (Demo.env false None) SyncUpload
           (json_request Demo.bearer
              (PDict [(u "encrypted_data", PStr (u "blob"));
                      (u "user_hash", PStr [55296%N])])) 0
           [(u "encrypted_data", PStr (u "blob")); (u "user_hash", PStr [55296%N])]
           [55296%N]).
  - reflexivity.
  - reflexivity.
  - reflexivity.
  - reflexivity.
  - reflexivity.
  - reflexivity.
  - reflexivity.
Defined.

(* ================================================================== *)
(** ** The behavior library *)

Lemma sum_over_shift (f : pyval -> result nat) (xs : list pyval) (c : nat) :
  sum_over f xs c = and_then (sum_over f xs 0) (fun n => Ok (c + n)).
Proof.
  revert c. induction xs as [|x xs IH]; intros c; cbn [sum_over and_then].
  - f_equal. lia.
  - destruct (f x) as [n|e]; cbn [and_then]; [| reflexivity].
    rewrite (IH (c + n)), (IH (0 + n)).
    destruct (sum_over f xs 0) as [m|e]; cbn [and_then]; [f_equal; lia | reflexivity].
Qed.

Lemma sum_over_app (f : pyval -> result nat) (xs ys : list pyval) (c : nat) :
  sum_over f (xs ++ ys) c = and_then (sum_over f xs c) (fun n => sum_over f ys n).
Proof.
  revert c. induction xs as [|x xs IH]; intros c; cbn [app sum_over and_then];
    [reflexivity |].
  destruct (f x) as [n|e]; cbn [and_then]; [apply IH | reflexivity].
Qed.

Lemma count_behaviors_categories (d : pydict) (cs : list pyval) :
  dict_get (u "categories") d = Some (PList cs) ->
  count_behaviors (PDict d)
  = sum_over (fun category =>
      and_then (py_get category (u "subcategories") (PList [])) (fun subs =>
      and_then (py_iter subs) (fun subcategories =>
      sum_over (fun subcategory =>
        and_then (py_get subcategory (u "behaviors") (PList [])) py_len)
        subcategories 0)))
      cs 0.
Proof. intros H. unfold count_behaviors, py_get. rewrite H. reflexivity. Qed.

(** X17.  The count is additive over the categories: a library whose
    category list is the concatenation of those of two countable libraries
    has the sum of their counts, whatever else the three objects hold. *)
Theorem count_behaviors_is_additive :
  forall (d1 d2 d : pydict) (a b : list pyval) (n m : nat),
    dict_get (u "categories") d1 = Some (PList a) ->
    dict_get (u "categories") d2 = Some (PList b) ->
    dict_get (u "categories") d = Some (PList (a ++ b)) ->
    count_behaviors (PDict d1) = Ok n ->
    count_behaviors (PDict d2) = Ok m ->
    count_behaviors (PDict d) = Ok (n + m).
Proof.
  intros d1 d2 d a b n m H1 H2 H Hn Hm.
  rewrite (count_behaviors_categories _ _ H1) in Hn.
  rewrite (count_behaviors_categories _ _ H2) in Hm.
  rewrite (count_behaviors_categories _ _ H).
  rewrite sum_over_app, Hn. cbn [and_then].
  rewrite sum_over_shift, Hm. reflexivity.
Qed.

(** X17, witness: two behaviors in one category, one in another. *)
Lemma count_behaviors_is_additive_witness :
  count_behaviors
    (library_of ([category_of (u "Communication") [PStr (u "a"); PStr (u "b")]]
                 ++ [category_of (u "Boundaries") [PStr (u "c")]]))
  = Ok (2 + 1).
Proof.
  apply (count_behaviors_is_additive
           [(u "categories",
             PList [category_of (u "Communication") [PStr (u "a"); PStr (u "b")]])]
           [(u "last_updated", PNone);
            (u "categories", PList [category_of (u "Boundaries") [PStr (u "c")]])]
           [(u "version", PStr (u "1.0.0"));
            (u "categories",
             PList ([category_of (u "Communication") [PStr (u "a"); PStr (u "b")]]
                    ++ [category_of (u "Boundaries") [PStr (u "c")]]))]
           [category_of (u "Communication") [PStr (u "a"); PStr (u "b")]]
           [category_of (u "Boundaries") [PStr (u "c")]] 2 1).
  - reflexivity.
  - reflexivity.
  - reflexivity.
  - reflexivity.
  - reflexivity.
Defined.

(** X18.  The library route needs no authorization and no body: under
    quota, the content of the library file is served as it is, as [data],
    with the message [Loaded n behaviors and traits] where [n] is its
    count; only the limiter has been consulted. *)
Theorem library_file_is_served_as_is :
  forall (E : Env) (rq : Request) (k : nat) (library : pyval) (n : nat),
    over_quota E (route_quota Behaviors) = false ->
    behavior_library_json E = FileJson library ->
    count_behaviors library = Ok n ->
    serve E Behaviors rq (fresh k)
    = (Ok (jsonify (success_body library (loaded n) (utc_iso E k))),
       {| ticks := S k; trace := [EvRateLimit (u "60 per minute")] |}).
Proof.
  intros E rq k library n Hq Hf Hn.
  unfold serve, view, limiter_limit, try_except, bind, emit.
  cbn [fresh ticks trace app route_quota] in *. rewrite Hq.
  unfold get_behaviors, try_except, bind, lift. rewrite Hf. cbn [ret].
  rewrite Hn. reflexivity.
Qed.

(** X18, witness: a file with three behaviors, a request with no header
    and no JSON body. *)
Lemma library_file_is_served_as_is_witness :
  serve
    (with_library (Demo.env false None)
       (FileJson (library_of [category_of (u "Communication")
                                [PStr (u "a"); PStr (u "b"); PStr (u "c")]])))
    Behaviors {| authorization := None; payload := BodyError 415 |} (fresh 0)
  = (Ok (jsonify (success_body
                    (library_of [category_of (u "Communication")
                                   [PStr (u "a"); PStr (u "b"); PStr (u "c")]])
                    (loaded 3) (Demo.clock 0))),
     {| ticks := 1; trace := [EvRateLimit (u "60 per minute")] |}).
Proof.
  apply (library_file_is_served_as_is
           (with_library (Demo.env false None)
              (FileJson (library_of [category_of (u "Communication")
                                       [PStr (u "a"); PStr (u "b"); PStr (u "c")]])))
           {| authorization := None; payload := BodyError 415 |} 0
           (library_of [category_of (u "Communication")
                          [PStr (u "a"); PStr (u "b"); PStr (u "c")]]) 3).
  - reflexivity.
  - reflexivity.
  - reflexivity.
Defined.

(* ================================================================== *)
(** ** Complete requests to the template routes *)

Lemma first_missing_none (fields : list pystr) (d : pydict) :
  first_missing fields (PDict d) = Ok None ->
  forall f, In f fields -> exists v, dict_get f d = Some v.
Proof.
  induction fields as [|g fields IH]; intros H f Hin; [destruct Hin |].
  cbn [first_missing py_in and_then] in H. unfold dict_has in H.
  destruct (dict_get g d) as [v|] eqn:Hg; [| discriminate].
  destruct Hin as [<- | Hin]; [exists v; exact Hg | apply IH; assumption].
Qed.

Lemma sanitize_input_str (E : Env) (s : pystr) :
  exists text, sanitize_input E (PStr s) = Ok text.
Proof. destruct s; eexists; reflexivity. Qed.

Lemma get_behavior_categories_post (E : Env) (w : World) :
  get_behavior_categories E POST w
  = (Ok (inl (PList [])), {| ticks := S (ticks w); trace := trace w |}).
Proof. reflexivity. Qed.

(** Reduce the plumbing and leave the rendering of the prompt folded. *)
Ltac run_template :=
  cbn -[truthy py_in py_getitem py_get py_len py_slice_to sanitize_input slice_to
        u fstr str_of_nat first_missing py_format get_behavior_categories
        CONVERSATION_ANALYSIS_PROMPT RESPONSE_IMPACT_PROMPT PROFILE_ANALYSIS_PROMPT
        SELF_PROFILE_PROMPT].

Ltac present Hm f :=
  let v := fresh "v" in
  let Hv := fresh "Hv" in
  destruct (first_missing_none _ _ Hm f) as (v & Hv);
  [cbn; tauto |];
  rewrite (dict_get_getitem _ _ _ Hv); run_template.

Ltac cleaned E s :=
  let text := fresh "text" in
  let Ht := fresh "Ht" in
  destruct (sanitize_input_str E s) as (text & Ht);
  rewrite Ht; run_template.

(** X19.  On the four template routes a complete request fares no better
    than a broken one: when the body is an object with every required
    field, whatever the values, the admitted request is answered 500
    [Analysis failed] with the details of the route, the error is logged,
    and the model is not called. *)
Theorem complete_request_is_answered_500 :
  forall (E : Env) (r : route) (rq : Request) (k : nat) (d : pydict),
    is_analysis r = true -> r <> IdentifySpeakers ->
    bearer_shaped (authorization rq) = true ->
    over_quota E (route_quota r) = false ->
    payload rq = BodyJson (PDict d) ->
    first_missing (required_fields r) (PDict d) = Ok None ->
    exists now w',
      serve E r rq (fresh k)
      = (Ok {| json := error_body (u "Analysis failed") (snd (failure_text r)) now;
               status_code := 500 |}, w')
      /\ model_calls w' = 0
      /\ (exists msg, In (EvLog ERROR msg) (trace w')).
Proof.
  intros E r rq k d Ha Hr Hb Hq Hp Hm.
  destruct r; try discriminate; try congruence; enter_view Hq Hb;
    cbn [required_fields] in Hm.
  - unfold analyze_conversation, analyze_conversation_with, try_except, bind, get_json,
    emit, ret, lift.
    run_template. rewrite Hp. run_template. rewrite Hm. run_template.
    present Hm (u "conversation").
    cleaned E (json_dumps E v).
    present Hm (u "speakers").
    rewrite get_behavior_categories_post. run_template.
    rewrite format_conversation_raises.
    eexists; eexists. split; [reflexivity |].
    split; [reflexivity | eexists; cbn; right; right; right; left; reflexivity].
  - unfold analyze_response_impact, analyze_response_impact_with, try_except, bind,
    get_json, emit, ret, lift.
    run_template. rewrite Hp. run_template. rewrite Hm. run_template.
    present Hm (u "conversation").
    cleaned E (json_dumps E v).
    present Hm (u "user_speaker").
    destruct (sanitize_input E v0) as [user_speaker|e1]; run_template.
    + present Hm (u "draft_response").
      destruct (sanitize_input E v1) as [draft_response|e2]; run_template.
      * rewrite format_response_impact_raises.
        eexists; eexists. split; [reflexivity |].
        split; [reflexivity | eexists; cbn; right; right; right; left; reflexivity].
      * eexists; eexists. split; [reflexivity |].
        split; [reflexivity | eexists; cbn; right; right; right; left; reflexivity].
    + eexists; eexists. split; [reflexivity |].
      split; [reflexivity | eexists; cbn; right; right; right; left; reflexivity].
  - unfold analyze_profile, analyze_profile_with, try_except, bind, get_json, emit, ret, lift.
    run_template. rewrite Hp. run_template.
    cbn [first_missing and_then] in Hm. rewrite dict_has_in in *.
    cbn [and_then] in Hm.
    destruct (dict_has (u "profile_data") d) eqn:Hh; [| discriminate]. run_template.
    unfold dict_has in Hh.
    destruct (dict_get (u "profile_data") d) as [v|] eqn:Hv; [| discriminate].
    rewrite (dict_get_getitem _ _ _ Hv). run_template.
    cleaned E (json_dumps E v).
    rewrite format_profile_raises.
    eexists; eexists. split; [reflexivity |].
    split; [reflexivity | eexists; cbn; right; right; right; left; reflexivity].
  - unfold analyze_self_profile, analyze_self_profile_with, try_except, bind, get_json,
    emit, ret, lift.
    run_template. rewrite Hp. run_template.
    cbn [first_missing and_then] in Hm. rewrite dict_has_in in *.
    cbn [and_then] in Hm.
    destruct (dict_has (u "user_data") d) eqn:Hh; [| discriminate]. run_template.
    unfold dict_has in Hh.
    destruct (dict_get (u "user_data") d) as [v|] eqn:Hv; [| discriminate].
    rewrite (dict_get_getitem _ _ _ Hv). run_template.
    cleaned E (json_dumps E v).
    rewrite format_self_profile_raises.
    eexists; eexists. split; [reflexivity |].
    split; [reflexivity | eexists; cbn; right; right; right; left; reflexivity].
Qed.

(** X19, witness: the conversation request of the test suite. *)
Lemma complete_request_is_answered_500_witness :
  exists now w',
    serve (Demo.env false (Some (u "{}"))) AnalyzeConversation
      (json_request Demo.bearer
         (PDict [(u "conversation", PList [PStr (u "Alice: Hi")]);
                 (u "speakers", PList [PStr (u "Alice")])])) (fresh 0)
    = (Ok {| json := error_body (u "Analysis failed")
                       (snd (failure_text AnalyzeConversation)) now;
             status_code := 500 |}, w')
    /\ model_calls w' = 0
    /\ (exists msg, In (EvLog ERROR msg) (trace w')).
Proof.
  apply (complete_request_is_answered_500 (Demo.env false (Some (u "{}")))
           AnalyzeConversation
           (json_request Demo.bearer
              (PDict [(u "conversation", PList [PStr (u "Alice: Hi")]);
                      (u "speakers", PList [PStr (u "Alice")])])) 0
           [(u "conversation", PList [PStr (u "Alice: Hi")]);
            (u "speakers", PList [PStr (u "Alice")])]).
  - reflexivity.
  - discriminate.
  - reflexivity.
  - reflexivity.
  - reflexivity.
  - reflexivity.
Defined.

(* ================================================================== *)
(** ** What is logged of the user hash *)

Lemma slice_to_slice_to {A} (n m : N) (s : list A) :
  (n <= m)%N -> slice_to n (slice_to m s) = slice_to n s.
Proof.
  intros H. unfold slice_to. rewrite firstn_firstn. f_equal. lia.
Qed.

(** X20.  Of the user hash, the log receives its first eight characters
    and nothing else.  An admitted upload or deletion whose [user_hash] is
    a text that can be encoded is answered 200, and the whole request has
    done four things: the limiter check, the authorization check, the body
    parse and one INFO line, which shows the first eight characters of the
    hash; of [encrypted_data] only the presence is tested, and nothing is logged. *)
Theorem log_shows_eight_characters :
  forall (E : Env) (r : route) (rq : Request) (k : nat) (d : pydict) (h : pystr),
    hashes_user r = true ->
    bearer_shaped (authorization rq) = true ->
    over_quota E (route_quota r) = false ->
    payload rq = BodyJson (PDict d) ->
    (r = SyncUpload -> dict_has (u "encrypted_data") d = true) ->
    dict_get (u "user_hash") d = Some (PStr h) ->
    encodable (slice_to 64 h) = true ->
    (forall j, encodable (utc_iso E j) = true) ->
    exists resp w',
      serve E r rq (fresh k) = (Ok resp, w')
      /\ status_code resp = 200
      /\ trace w' = [EvRateLimit (route_quota r); EvAuthCheck; EvGetJson;
                     EvLog INFO (receipt_line r (slice_to 8 h))].
Proof.
  intros E r rq k d h Hr Hb Hq Hp He Hd Hs Hclock.
  destruct r; try discriminate; enter_view Hq Hb.
  - unfold sync_upload, try_except, bind, get_json, emit, ret, lift.
    run. rewrite Hp. run.
    rewrite !dict_has_in, (He eq_refl), (dict_get_has _ _ _ Hd). run.
    rewrite (dict_get_getitem _ _ _ Hd). run.
    rewrite py_slice_to_str. run. rewrite py_slice_to_str. run.
    rewrite sha256_of_encodable
      by (unfold fstr; cbn [concat fstr_value];
          rewrite !encodable_app, Hs, Hclock; reflexivity).
    rewrite slice_to_slice_to by lia.
    eexists; eexists. split; [reflexivity |]. split; reflexivity.
  - unfold delete_user_data, try_except, bind, get_json, emit, ret, lift.
    run. rewrite Hp. run.
    rewrite !dict_has_in, (dict_get_has _ _ _ Hd). run.
    rewrite (dict_get_getitem _ _ _ Hd). run.
    rewrite py_slice_to_str. run. rewrite py_slice_to_str. run.
    rewrite sha256_of_encodable
      by (unfold fstr; cbn [concat fstr_value];
          rewrite !encodable_app, Hs, Hclock; reflexivity).
    rewrite slice_to_slice_to by lia.
    eexists; eexists. split; [reflexivity |]. split; reflexivity.
Qed.

Lemma demo_clock_encodable (j : nat) : encodable (Demo.clock j) = true.
Proof.
  unfold Demo.clock. rewrite encodable_app. apply andb_true_intro.
  split; [reflexivity |].
  unfold str_of_nat, encodable. apply negb_true_iff.
  apply not_true_is_false. intros H. apply existsb_exists in H.
  destruct H as (c & Hin & Hc).
  unfold u in Hin. apply in_map_iff in Hin. destruct Hin as (a & <- & _).
  pose proof (N_ascii_bounded a) as Hlt.
  apply andb_true_iff in Hc. destruct Hc as [Hc _].
  apply N.leb_le in Hc. lia.
Qed.

(** X20, witness: an upload whose hash has twelve characters. *)
Lemma log_shows_eight_characters_witness :
  exists resp w',
    serve (Demo.env false None) SyncUpload
      (json_request Demo.bearer
         (PDict [(u "encrypted_data", PStr (u "blob"));
                 (u "user_hash", PStr (u "0123456789ab"))])) (fresh 0)
    = (Ok resp, w')
    /\ status_code resp = 200
    /\ trace w' = [EvRateLimit (route_quota SyncUpload); EvAuthCheck; EvGetJson;
                   EvLog INFO (receipt_line SyncUpload (slice_to 8 (u "0123456789ab")))].
Proof.
  apply (log_shows_eight_characters (Demo.env false None) SyncUpload
           (json_request Demo.bearer
              (PDict [(u "encrypted_data", PStr (u "blob"));
                      (u "user_hash", PStr (u "0123456789ab"))])) 0
           [(u "encrypted_data", PStr (u "blob"));
            (u "user_hash", PStr (u "0123456789ab"))]
           (u "0123456789ab")).
  - reflexivity.
  - reflexivity.
  - reflexivity.
  - reflexivity.
  - reflexivity.
  - reflexivity.
  - reflexivity.
  - exact demo_clock_encodable.
Defined.

(* ================================================================== *)
(** ** The library route without a usable file *)

(** X21.  Without a library file the library route serves the default
    library: version 1.0.0, no categories, [last_updated] set to the clock
    reading taken when the library is built, which precedes the reading
    in the envelope; the message counts 0 behaviors. *)
Theorem absent_library_file_serves_the_default :
  forall (E : Env) (rq : Request) (k : nat),
    over_quota E (route_quota Behaviors) = false ->
    behavior_library_json E = FileAbsent ->
    serve E Behaviors rq (fresh k)
    = (Ok (jsonify (success_body (default_library (utc_iso E k)) (loaded 0)
                      (utc_iso E (S k)))),
       {| ticks := S (S k); trace := [EvRateLimit (u "60 per minute")] |}).
Proof.
  intros E rq k Hq Hf.
  unfold serve, view, limiter_limit, try_except, bind, emit.
  cbn [fresh ticks trace app route_quota] in *. rewrite Hq.
  unfold get_behaviors, try_except, bind, lift. rewrite Hf. reflexivity.
Qed.

(** X21, witness: the demonstration environment has no library file. *)
Lemma absent_library_file_serves_the_default_witness :
  serve (Demo.env false None) Behaviors (json_request None PNone) (fresh 0)
  = (Ok (jsonify (success_body (default_library (Demo.clock 0)) (loaded 0)
                    (Demo.clock 1))),
     {| ticks := 2; trace := [EvRateLimit (u "60 per minute")] |}).
Proof.
  apply (absent_library_file_serves_the_default (Demo.env false None)
           (json_request None PNone) 0).
  - reflexivity.
  - reflexivity.
Defined.

(** X22.  A library file that cannot be read or parsed, or whose content
    cannot be counted (it is not an object, or a level of it is not
    iterable), is not replaced by the default library: the route answers
    500 [Failed to load behaviors] and logs the error. *)
Theorem unusable_library_file_is_answered_500 :
  forall (E : Env) (rq : Request) (k : nat),
    over_quota E (route_quota Behaviors) = false ->
    unusable (behavior_library_json E) ->
    serve E Behaviors rq (fresh k)
    = (Ok {| json := error_body (u "Failed to load behaviors")
                       (u "Unable to retrieve the behavior library.") (utc_iso E k);
             status_code := 500 |},
       {| ticks := S k;
          trace := [EvRateLimit (u "60 per minute");
                    EvLog ERROR (u "Behavior library error: ")] |}).
Proof.
  intros E rq k Hq Hf.
  unfold serve, view, limiter_limit, try_except, bind, emit.
  cbn [fresh ticks trace app route_quota] in *. rewrite Hq.
  unfold get_behaviors, try_except, bind, lift.
  destruct (behavior_library_json E) as [|library|]; cbn in Hf.
  - destruct Hf.
  - destruct Hf as (e & He). cbn [ret]. rewrite He. reflexivity.
  - reflexivity.
Qed.

(** X22, witness: the file holds a JSON array. *)
Lemma unusable_library_file_is_answered_500_witness :
  serve (with_library (Demo.env false None) (FileJson (PList [PStr (u "a")])))
    Behaviors (json_request None PNone) (fresh 0)
  = (Ok {| json := error_body (u "Failed to load behaviors")
                     (u "Unable to retrieve the behavior library.") (Demo.clock 0);
           status_code := 500 |},
     {| ticks := 1;
        trace := [EvRateLimit (u "60 per minute");
                  EvLog ERROR (u "Behavior library error: ")] |}).
Proof.
  apply (unusable_library_file_is_answered_500
           (with_library (Demo.env false None) (FileJson (PList [PStr (u "a")])))
           (json_request None PNone) 0).
  - reflexivity.
  - exists AttributeError. reflexivity.
Defined.
